(** * Canon printer discovery: a shallow embedding of [printer_discovery.py]

    The development follows the class [CanonPrinterDiscovery]: the vendor
    keyword classifier, the model extraction by regular expressions, the
    resolver of network ranges, the per-host port scan, the four producers
    and the de-duplication by URI of [find_canon_printers].

    Conventions.
    - Python [str] values are Rocq [string]s.  Case mapping, white space and
      the classes of the regular expressions are those of Python on code
      points below 128; the other characters are left alone and belong to
      no class.  A property that depends on the case or the class of the
      characters of a text is therefore stated for ASCII texts
      ([is_ascii]).
    - A value is [None], a [bool], an [int], a [str] or a list of [str];
      the floats of JSON and YAML are outside the model, and the theorems
      name the types they are about.
    - The printer records are Python dicts with string keys: [gmap string
      value].  The dictionary [unique_printers] of [find_canon_printers] and
      the printer cache are iterated in insertion order, so they are
      association lists.
    - What the program reads from its environment (sockets, HTTP, the
      [route] and [dns-sd] commands, the operating system's printer list,
      the order in which worker threads complete) is a field of [World].

    The definitions end with [config_manager.py], whose configuration is a
    tree of ordered dicts, and with [add_printer] of [main.py]; the part
    on further properties, after the lemmas on the discovery, is about
    them too. *)

From Stdlib Require Import ZArith Ascii String.
From stdpp Require Import base option list gmap strings.

Local Open Scope Z_scope.

(** ** Python strings *)
Module PyStr.

Definition code (c : ascii) : Z := Z.of_N (N_of_ascii c).

Definition is_upper (c : ascii) : bool := (65 <=? code c) && (code c <=? 90).
Definition is_lower (c : ascii) : bool := (97 <=? code c) && (code c <=? 122).
Definition is_digit (c : ascii) : bool := (48 <=? code c) && (code c <=? 57).

(** [str.isspace] on one character: TAB, LF, VT, FF, CR, the four
    separators FS, GS, RS, US and the blank. *)
Definition is_space (c : ascii) : bool :=
  ((9 <=? code c) && (code c <=? 13)) || ((28 <=? code c) && (code c <=? 32)).

Definition lower_char (c : ascii) : ascii :=
  if is_upper c then ascii_of_N (Z.to_N (code c + 32)) else c.
Definition upper_char (c : ascii) : ascii :=
  if is_lower c then ascii_of_N (Z.to_N (code c - 32)) else c.

Fixpoint map_chars (f : ascii -> ascii) (s : string) : string :=
  match s with
  | EmptyString => EmptyString
  | String c s' => String (f c) (map_chars f s')
  end.

(** [s.lower()] and [s.upper()] *)
Definition lower : string -> string := map_chars lower_char.
Definition upper : string -> string := map_chars upper_char.

(** [s.startswith(p)] *)
Fixpoint startswith (p s : string) : bool :=
  match p, s with
  | EmptyString, _ => true
  | String _ _, EmptyString => false
  | String a p', String b s' => if decide (a = b) then startswith p' s' else false
  end.

(** [needle in hay] *)
Fixpoint contains (needle hay : string) : bool :=
  startswith needle hay ||
  match hay with
  | EmptyString => false
  | String _ hay' => contains needle hay'
  end.

(** [s.split(sep)] for a separator of one character: the pieces between
    the separators, empty pieces included; never the empty list. *)
Fixpoint split (sep : ascii) (s : string) : list string :=
  match s with
  | EmptyString => [EmptyString]
  | String c s' =>
      if decide (c = sep) then EmptyString :: split sep s'
      else match split sep s' with
           | [] => [String c EmptyString]
           | p :: ps => String c p :: ps
           end
  end.

(** [sep.join(l)] *)
Fixpoint join (sep : string) (l : list string) : string :=
  match l with
  | [] => EmptyString
  | [x] => x
  | x :: l' => x +:+ sep +:+ join sep l'
  end.

Fixpoint lstrip (s : string) : string :=
  match s with
  | String c s' => if is_space c then lstrip s' else s
  | EmptyString => EmptyString
  end.

(** The string without its trailing white space. *)
Fixpoint rstrip (s : string) : string :=
  match s with
  | EmptyString => EmptyString
  | String c s' =>
      match rstrip s' with
      | EmptyString => if is_space c then EmptyString else String c EmptyString
      | r => String c r
      end
  end.

(** [s.strip()] *)
Definition strip (s : string) : string := rstrip (lstrip s).

(** [s.split()]: the maximal runs of characters that are not white space. *)
Fixpoint words_go (cur : string) (s : string) : list string :=
  match s with
  | EmptyString => match cur with EmptyString => [] | _ => [cur] end
  | String c s' =>
      if is_space c
      then match cur with
           | EmptyString => words_go EmptyString s'
           | _ => cur :: words_go EmptyString s'
           end
      else words_go (cur +:+ String c EmptyString) s'
  end.
Definition words : string -> list string := words_go EmptyString.

Definition digit_of (c : ascii) : Z := code c - 48.

(** [int(s)] for a string of ASCII digits. *)
Definition parse_digits (s : string) : Z :=
  fold_left (fun acc c => 10 * acc + digit_of c) (list_ascii_of_string s) 0.

Fixpoint all_chars (p : ascii -> bool) (s : string) : bool :=
  match s with
  | EmptyString => true
  | String c s' => p c && all_chars p s'
  end.

Definition digit_char (d : Z) : ascii := ascii_of_N (Z.to_N (48 + d)).

Fixpoint show_go (fuel : nat) (n : Z) (acc : string) : string :=
  match fuel with
  | O => acc
  | S fuel' =>
      let acc' := String (digit_char (n mod 10)) acc in
      if n <? 10 then acc' else show_go fuel' (n / 10) acc'
  end.

(** [str(n)]: the decimal digits, after a minus sign for a negative
    number. One unit of fuel per digit; a number [n >= 0] has at most
    [log2 n + 1] of them. *)
Definition show_nonneg (n : Z) : string :=
  show_go (S (Z.to_nat (Z.log2 n))) n EmptyString.

Definition show (n : Z) : string :=
  if n <? 0 then String "-" (show_nonneg (- n)) else show_nonneg n.

End PyStr.

(** ** The fragment of Python's [re] that the program uses

    Every pattern of the program is a sequence of single-character items,
    each taken once, or under a greedy [+] or [*], with at most one
    capturing group. *)
Module Re.

Inductive cset :=
| CLit (c : ascii)            (* the character itself *)
| CSpace                      (* \s *)
| CDigit                      (* \d *)
| CRange (lo hi : ascii)      (* [lo-hi] *)
| CNot (c : ascii).           (* [^c] *)

Inductive quant := One | Plus | Star.

Inductive node :=
| Atom (cs : cset) (q : quant)
| GOpen                       (* ( *)
| GClose.                     (* ) *)

(** [ic] is the flag [re.IGNORECASE]. *)
Definition cset_match (ic : bool) (cs : cset) (c : ascii) : bool :=
  match cs with
  | CLit a =>
      if ic then bool_decide (PyStr.lower_char a = PyStr.lower_char c)
      else bool_decide (a = c)
  | CSpace => PyStr.is_space c
  | CDigit => PyStr.is_digit c
  | CRange lo hi =>
      let inside x := (PyStr.code lo <=? PyStr.code x) && (PyStr.code x <=? PyStr.code hi) in
      if ic then inside c || inside (PyStr.lower_char c) || inside (PyStr.upper_char c)
      else inside c
  | CNot a =>
      if ic then negb (bool_decide (PyStr.lower_char a = PyStr.lower_char c))
      else negb (bool_decide (a = c))
  end.

(** A match: the text of group 0 (the whole match) and of group 1. *)
Definition found : Type := string * string.

Definition take (ing : bool) (c : ascii) (m : found) : found :=
  (String c (fst m), if ing then String c (snd m) else snd m).

(** Greedy repetition of a character class followed by the continuation
    [k]: as many characters as possible, giving back one at a time. *)
Definition greedy (p : ascii -> bool) (ing : bool) (k : string -> option found)
  : string -> option found :=
  fix go (s : string) : option found :=
    match s with
    | String c s' =>
        if p c then
          match go s' with
          | Some m => Some (take ing c m)
          | None => k s
          end
        else k s
    | EmptyString => k s
    end.

(** Match [re] at the beginning of [s]; [ing] tells whether the position
    is inside the capturing group. *)
Fixpoint match_here (ic : bool) (re : list node) (ing : bool) (s : string)
  {struct re} : option found :=
  match re with
  | [] => Some (EmptyString, EmptyString)
  | GOpen :: re' => match_here ic re' true s
  | GClose :: re' => match_here ic re' false s
  | Atom cs One :: re' =>
      match s with
      | String c s' =>
          if cset_match ic cs c then take ing c <$> match_here ic re' ing s' else None
      | EmptyString => None
      end
  | Atom cs Star :: re' =>
      greedy (cset_match ic cs) ing (match_here ic re' ing) s
  | Atom cs Plus :: re' =>
      match s with
      | String c s' =>
          if cset_match ic cs c
          then take ing c <$> greedy (cset_match ic cs) ing (match_here ic re' ing) s'
          else None
      | EmptyString => None
      end
  end.

(** [re.search(re, s)]: the match at the leftmost position that has one. *)
Fixpoint search (ic : bool) (re : list node) (s : string) : option found :=
  match match_here ic re false s with
  | Some m => Some m
  | None =>
      match s with
      | String _ s' => search ic re s'
      | EmptyString => None
      end
  end.

(** The pattern of a literal text. *)
Definition lit (s : string) : list node :=
  (fun c => Atom (CLit c) One) <$> list_ascii_of_string s.

Definition group (re : list node) : list node := GOpen :: re ++ [GClose].

End Re.


(** ** Python values, dicts and exceptions *)

Inductive value :=
| VNone
| VBool (b : bool)
| VInt (n : Z)
| VStr (s : string)
| VList (l : list string).

#[global] Instance value_eq_dec : EqDecision value.
Proof. solve_decision. Defined.

(** Truth value of an object, as [if x:] tests it. *)
Definition truthy (v : value) : bool :=
  match v with
  | VNone => false
  | VBool b => b
  | VInt n => negb (n =? 0)
  | VStr s => negb (bool_decide (s = EmptyString))
  | VList l => negb (bool_decide (l = []))
  end.

(** A printer record: a dict with string keys. *)
Abbreviation record := (gmap string value).

(** [d.get(k, dflt)] *)
Definition get (d : record) (k : string) (dflt : value) : value :=
  default dflt (d !! k).

Inductive exn :=
| KeyError (key : string)
| IndexError
| ValueError (msg : string)
| FileNotFoundError
| TimeoutExpired
| SubprocessError
| OSError.

(** A computation that returns a value or raises. *)
Definition exc (A : Type) : Type := exn + A.

#[global] Instance exc_ret : MRet exc := fun A x => inr x.
#[global] Instance exc_bind : MBind exc := fun A B f m =>
  match m with
  | inl e => inl e
  | inr x => f x
  end.

Definition raise {A : Type} (e : exn) : exc A := inl e.

(** [d[k]] *)
Definition getitem (d : record) (k : string) : exc value :=
  match d !! k with
  | Some v => mret v
  | None => raise (KeyError k)
  end.

(** [[f(x) for x in l]] where [f] may raise. *)
Fixpoint traverse {A B : Type} (f : A -> exc B) (l : list A) : exc (list B) :=
  match l with
  | [] => mret []
  | x :: l' => y ← f x; ys ← traverse f l'; mret (y :: ys)
  end.

(** ** The part of Python's [ipaddress] that the program uses *)
Module Ipaddress.

Record IPv4Network := { network_address : Z; prefixlen : Z }.

(** One decimal octet: ASCII digits only, at most three, no leading zero,
    at most 255. *)
Definition parse_octet (s : string) : exc Z :=
  if bool_decide (s = EmptyString) then raise (ValueError "Empty octet not permitted")
  else if negb (PyStr.all_chars PyStr.is_digit s)
  then raise (ValueError "Only decimal digits permitted")
  else if (3 <? Z.of_nat (String.length s))
  then raise (ValueError "At most 3 characters permitted")
  else if negb (bool_decide (s = "0")) && PyStr.startswith "0" s
  then raise (ValueError "Leading zeros are not permitted")
  else if (255 <? PyStr.parse_digits s)
  then raise (ValueError "Octet > 255 not permitted")
  else mret (PyStr.parse_digits s).

(** A dotted quad as a 32-bit integer. *)
Definition ip_int_from_string (s : string) : exc Z :=
  match PyStr.split "." s with
  | [a; b; c; d] =>
      a ← parse_octet a; b ← parse_octet b; c ← parse_octet c; d ← parse_octet d;
      mret (Z.lor (Z.shiftl a 24) (Z.lor (Z.shiftl b 16) (Z.lor (Z.shiftl c 8) d)))
  | _ => raise (ValueError "Expected 4 octets")
  end.

(** The prefix length after the slash, in its decimal form. The program
    only ever writes [/24] there; the dotted forms of a mask are left out. *)
Definition prefix_from_prefix_string (s : string) : exc Z :=
  if bool_decide (s = EmptyString) || negb (PyStr.all_chars PyStr.is_digit s)
  then raise (ValueError "not a valid netmask")
  else if (32 <? PyStr.parse_digits s)
  then raise (ValueError "not a valid netmask")
  else mret (PyStr.parse_digits s).

Definition netmask (prefix : Z) : Z :=
  Z.lxor (Z.ones 32) (Z.ones (32 - prefix)).

(** [ipaddress.IPv4Network(s, strict)] *)
Definition IPv4Network_new (strict : bool) (s : string) : exc IPv4Network :=
  match PyStr.split "/" s with
  | [addr] =>
      a ← ip_int_from_string addr;
      mret {| network_address := a; prefixlen := 32 |}
  | [addr; pfx] =>
      a ← ip_int_from_string addr;
      p ← prefix_from_prefix_string pfx;
      let base := Z.land a (netmask p) in
      if strict && negb (base =? a)
      then raise (ValueError "has host bits set")
      else mret {| network_address := base; prefixlen := p |}
  | _ => raise (ValueError "Only one '/' permitted")
  end.

(** [for ip in network]: every address from the network address to the
    broadcast address. *)
Definition addresses (net : IPv4Network) : list Z :=
  seqZ (network_address net) (2 ^ (32 - prefixlen net)).

(** [str(ip)] *)
Definition str (a : Z) : string :=
  PyStr.join "."
    (PyStr.show <$> [Z.shiftr a 24 mod 256; Z.shiftr a 16 mod 256;
                     Z.shiftr a 8 mod 256; a mod 256]).

End Ipaddress.


(** ** The environment *)

(** Outcome of [subprocess.run(..., capture_output=True, text=True)]. *)
Inductive run_result :=
| Raised (e : exn)
| Completed (returncode : Z) (stdout : string).

(** [requests.Response] *)
Record response := { status_code : Z; text : string }.

(** The connect attempts made so far, and a worker's finished task: the
    attempts it made and the value it returned. *)
Definition probe : Type := string * Z.
Definition future : Type := list probe * option record.

Record World := {
  (** [sock.connect_ex((ip, port))] under [sock.settimeout(t)], [t] in
      milliseconds: the error code, or [None] when the socket raises *)
  connect_ex : string -> Z -> Z -> option Z;
  (** [requests.get(url, timeout=t)], [t] in seconds; [None] when it raises
      (or when [requests] cannot be imported) *)
  requests_get : string -> Z -> option response;
  (** [urllib.parse.urlparse(uri)]: its [hostname] and [port]; [None] when
      computing either raises *)
  urlparse : string -> option (option string * option Z);
  (** [subprocess.run(['route', '-n', 'get', 'default'], timeout=5)] *)
  route_get_default : run_result;
  (** [subprocess.run(['dns-sd', '-B', '_ipp._tcp'], timeout=5)] *)
  dns_sd_browse : run_result;
  (** [PlatformUtils.get_system_printers()] *)
  get_system_printers : list record;
  (** [concurrent.futures.as_completed]: the submitted futures in the
      order in which they finish *)
  as_completed : list future -> list future
}.

(** A thread pool finishes every future it was given, each once. *)
Definition completes_all (w : World) : Prop :=
  forall fs, as_completed w fs ≡ₚ fs.

(** [ConfigManager.printers_cache]: from URI to the saved dict, in
    insertion order. *)
Definition printers_cache_t : Type := list (string * record).

(** ** [class CanonPrinterDiscovery] *)

Record CanonPrinterDiscovery := {
  canon_keywords : list string;
  ipp_ports : list Z;
  config_manager : option printers_cache_t
}.

Definition __init__ (config_manager : option printers_cache_t) : CanonPrinterDiscovery :=
  {| canon_keywords :=
       ["canon"; "pixma"; "imageclass"; "maxify"; "selphy";
        "imagerunner"; "ij"; "mb"; "mx"; "mp"; "mg"; "mf"];
     ipp_ports := [631; 9100; 8080; 80];
     config_manager := config_manager |}.

(** [any(keyword in s for keyword in self.canon_keywords)] *)
Definition any_keyword (self : CanonPrinterDiscovery) (s : string) : bool :=
  existsb (fun keyword => PyStr.contains keyword s) (canon_keywords self).

Definition _is_canon_printer (self : CanonPrinterDiscovery) (name : string) : bool :=
  let name_lower := PyStr.lower name in
  any_keyword self name_lower.

Definition upper_letters : Re.cset := Re.CRange "A" "Z".

(** The model patterns, in the order of the source. *)
Definition patterns : list (list Re.node) :=
  let series (p : string) :=
    Re.group (Re.lit p ++ [Re.Atom Re.CDigit Re.Plus; Re.Atom upper_letters Re.Star]) in
  let family (p : string) :=
    Re.lit p ++ [Re.Atom Re.CSpace Re.Plus]
      ++ Re.group [Re.Atom upper_letters Re.Plus; Re.Atom Re.CDigit Re.Plus] in
  [ family "PIXMA";
    series "MX"; series "MP"; series "MG"; series "MF"; series "MB";
    family "IMAGECLASS";
    family "IMAGERUNNER" ].

(** The loop of [_extract_model]: the first pattern that matches returns. *)
Fixpoint first_match (ps : list (list Re.node)) (s : string) : option Re.found :=
  match ps with
  | [] => None
  | pattern :: ps' =>
      match Re.search false pattern s with
      | Some m => Some m
      | None => first_match ps' s
      end
  end.

Definition _extract_model (name : string) : string :=
  let name_upper := PyStr.upper name in
  match first_match patterns name_upper with
  | Some m => "Canon " +:+ fst m        (* match.group(0) *)
  | None => "Canon Printer"
  end.

Definition _is_port_open (w : World) (ip : string) (port : Z) (timeout : Z) : bool :=
  match connect_ex w ip port timeout with
  | Some result => result =? 0
  | None => false
  end.

(** [parsed.port or 631] *)
Definition port_or (port : option Z) (dflt : Z) : Z :=
  match port with
  | Some p => if p =? 0 then dflt else p
  | None => dflt
  end.

Definition test_printer_connection (w : World) (printer_uri : string) : bool :=
  match urlparse w printer_uri with
  | Some (Some host, port) => _is_port_open w host (port_or port 631) 5000
  | Some (None, _) => false      (* connecting to host [None] raises inside [_is_port_open] *)
  | None => false
  end.

(** The body of the loop of [_get_manual_printers]. *)
Definition manual_record (w : World) (uri : string) (printer_info : record) : record :=
  let is_online := test_printer_connection w uri in
  <["name" := get printer_info "name" (VStr "Unknown Printer")]>
  (<["uri" := VStr uri]>
  (<["status" := VStr (if is_online then "Available" else "Offline")]>
  (<["model" := get printer_info "model" (VStr "Unknown")]>
  (<["source" := VStr "manual_config"]>
  (<["ip" := get printer_info "ip" (VStr "")]>
  (<["port" := get printer_info "port" (VInt 631)]> ∅)))))).

Fixpoint manual_loop (w : World) (items : printers_cache_t) : list record :=
  match items with
  | [] => []
  | (uri, printer_info) :: items' =>
      if truthy (get printer_info "manually_added" (VBool false))
      then manual_record w uri printer_info :: manual_loop w items'
      else manual_loop w items'
  end.

Definition _get_manual_printers (self : CanonPrinterDiscovery) (w : World) : list record :=
  match config_manager self with
  | None => []
  | Some printers_cache => manual_loop w printers_cache
  end.

(** The dict that [_get_ipp_printer_info] returns has exactly these keys. *)
Record printer_info_t := { info_name : string; info_model : string; info_status : string }.

(** [<title>([^<]+)</title>] *)
Definition title_pattern : list Re.node :=
  Re.lit "<title>" ++ Re.group [Re.Atom (Re.CNot "<") Re.Plus] ++ Re.lit "</title>".

Definition banner_url (ip : string) (port : Z) : string :=
  "http://" +:+ ip +:+ ":" +:+ PyStr.show port.

(** The name that [_get_ipp_printer_info] gives a device: the title of its
    page, or a name made from its address. *)
Definition banner_name (ip : string) (response_text : string) : string :=
  let name_match := Re.search true title_pattern response_text in
  match name_match with
  | Some m => snd m                  (* name_match.group(1) *)
  | None => "Canon Printer at " +:+ ip
  end.

Definition _get_ipp_printer_info (self : CanonPrinterDiscovery) (w : World)
    (ip : string) (port : Z) : option printer_info_t :=
  match requests_get w (banner_url ip port) 3 with
  | Some response =>
      if status_code response =? 200 then
        let content := PyStr.lower (text response) in
        if any_keyword self content then
          let name := banner_name ip (text response) in
          Some {| info_name := name;
                  info_model := _extract_model name;
                  info_status := "Available" |}
        else None
      else None
  | None => None
  end.

(** One round of the loop of [_scan_host_for_ipp]: the record it returns
    from inside the loop, or [None] when the loop goes on. *)
Definition scan_port (self : CanonPrinterDiscovery) (w : World)
    (ip : string) (port : Z) : option record :=
  if _is_port_open w ip port 1000 then
    match _get_ipp_printer_info self w ip port with
    | Some printer_info =>
        if _is_canon_printer self (info_name printer_info) then
          Some (<["name" := VStr (info_name printer_info)]>
                (<["uri" := VStr ("ipp://" +:+ ip +:+ ":" +:+ PyStr.show port +:+ "/ipp/print")]>
                (<["status" := VStr (info_status printer_info)]>
                (<["model" := VStr (info_model printer_info)]>
                (<["source" := VStr "network_scan"]> ∅)))))
        else None
    | None => None
    end
  else None.

(** The loop over the ports, with the connect attempts it makes. *)
Fixpoint scan_ports (self : CanonPrinterDiscovery) (w : World)
    (ip : string) (ports : list Z) : future :=
  match ports with
  | [] => ([], None)
  | port :: ports' =>
      match scan_port self w ip port with
      | Some printer => ([(ip, port)], Some printer)
      | None =>
          let rest := scan_ports self w ip ports' in
          ((ip, port) :: fst rest, snd rest)
      end
  end.

Definition _scan_host_for_ipp (self : CanonPrinterDiscovery) (w : World) (ip : string)
  : future :=
  scan_ports self w ip (ipp_ports self).

Definition common_networks : list string :=
  ["192.168.1.0/24"; "192.168.0.0/24"; "10.0.0.0/24"; "172.16.0.0/24"].

Definition newline : ascii := ascii_of_N 10.

(** The network of the line that names the gateway. *)
Definition gateway_network (line : string) : exc Ipaddress.IPv4Network :=
  match PyStr.split ":" line !! 1%nat with
  | None => raise IndexError
  | Some field =>
      let gateway := PyStr.strip field in
      let network_base :=
        PyStr.join "." (removelast (PyStr.split "." gateway)) +:+ ".0/24" in
      Ipaddress.IPv4Network_new false network_base
  end.

(** The loop over the lines: the first line with [gateway:] ends it. *)
Fixpoint gateway_loop (lines : list string) : exc (list Ipaddress.IPv4Network) :=
  match lines with
  | [] => mret []
  | line :: lines' =>
      if PyStr.contains "gateway:" line
      then network ← gateway_network line; mret [network]
      else gateway_loop lines'
  end.

(** The body of the [try] of [_get_network_ranges]. *)
Definition route_networks (w : World) : exc (list Ipaddress.IPv4Network) :=
  match route_get_default w with
  | Raised e => raise e
  | Completed returncode stdout =>
      if returncode =? 0 then gateway_loop (PyStr.split newline stdout) else mret []
  end.

Definition _get_network_ranges (w : World) : exc (list Ipaddress.IPv4Network) :=
  match route_networks w with
  | inr networks => mret networks
  | inl _ => traverse (Ipaddress.IPv4Network_new true) common_networks
  end.

(** The futures submitted to the executor: one per address, in the order of
    the ranges. *)
Definition submitted (self : CanonPrinterDiscovery) (w : World)
    (network_ranges : list Ipaddress.IPv4Network) : list future :=
  (fun ip => _scan_host_for_ipp self w (Ipaddress.str ip))
    <$> concat (Ipaddress.addresses <$> network_ranges).

Definition _discover_network_printers (self : CanonPrinterDiscovery) (w : World)
  : exc (list record) :=
  network_ranges ← _get_network_ranges w;
  let futures := submitted self w network_ranges in
  mret (omap snd (as_completed w futures)).

(** What one line of the browse output contributes. *)
Definition mdns_line (self : CanonPrinterDiscovery) (line : string) : list record :=
  if any_keyword self (PyStr.lower line) then
    let parts := PyStr.words line in
    if (7 <=? Z.of_nat (length parts)) then
      match parts !! 6%nat with
      | Some service_name =>
          if _is_canon_printer self service_name then
            [ <["name" := VStr service_name]>
              (<["uri" := VStr ("ipp://" +:+ service_name +:+ ".local:631/ipp/print")]>
              (<["status" := VStr "Available"]>
              (<["model" := VStr (_extract_model service_name)]>
              (<["source" := VStr "mdns"]> ∅)))) ]
          else []
      | None => []
      end
    else []
  else [].

(** [except (subprocess.TimeoutExpired, subprocess.SubprocessError,
    FileNotFoundError)] *)
Definition caught_by_mdns (e : exn) : bool :=
  match e with
  | TimeoutExpired | SubprocessError | FileNotFoundError => true
  | _ => false
  end.

Definition _discover_mdns_printers (self : CanonPrinterDiscovery) (w : World)
  : exc (list record) :=
  match dns_sd_browse w with
  | Raised e => if caught_by_mdns e then mret [] else raise e
  | Completed returncode stdout =>
      if returncode =? 0
      then mret (concat (mdns_line self <$> PyStr.split newline stdout))
      else mret []
  end.

(** The loop that removes the duplicates: [unique_printers] keeps the
    order in which its keys were inserted. *)
Fixpoint dedup_loop (unique_printers : list (value * record)) (printers : list record)
  : exc (list (value * record)) :=
  match printers with
  | [] => mret unique_printers
  | printer :: printers' =>
      uri ← getitem printer "uri";
      if bool_decide (uri ∈ unique_printers.*1)
      then dedup_loop unique_printers printers'
      else dedup_loop (unique_printers ++ [(uri, printer)]) printers'
  end.

(** [list(unique_printers.values())] after the loop *)
Definition dedup (printers : list record) : exc (list record) :=
  unique_printers ← dedup_loop [] printers;
  mret (unique_printers.*2).

(** The four contributions, as [find_canon_printers] extends [printers]. *)
Definition gather (self : CanonPrinterDiscovery) (w : World) : exc (list record) :=
  let printers := [] in
  let printers :=
    match config_manager self with
    | Some _ => printers ++ _get_manual_printers self w
    | None => printers
    end in
  let system_printers := get_system_printers w in
  let printers := printers ++ system_printers in
  network_printers ← _discover_network_printers self w;
  let printers := printers ++ network_printers in
  mdns_printers ← _discover_mdns_printers self w;
  let printers := printers ++ mdns_printers in
  mret printers.

Definition find_canon_printers (self : CanonPrinterDiscovery) (w : World)
  : exc (list record) :=
  printers ← gather self w;
  dedup printers.

(** [d.update(other)] *)
Definition update (d other : record) : record := other ∪ d.

Definition get_printer_capabilities (printer_uri : string) : record :=
  let capabilities : record :=
    <["duplex" := VBool false]>
    (<["color" := VBool false]>
    (<["max_copies" := VInt 99]>
    (<["supported_media" := VList []]>
    (<["supported_quality" := VList ["draft"; "normal"; "high"]]> ∅)))) in
  update capabilities
    (<["duplex" := VBool true]>
    (<["color" := VBool true]>
    (<["supported_media" := VList ["A4"; "Letter"; "Legal"; "4x6"; "5x7"]]> ∅))).

(** ** [class PlatformUtils]: its own copy of the classifier *)
Module PlatformUtils.

Definition _is_canon_printer (name : string) : bool :=
  let canon_keywords :=
    ["canon"; "pixma"; "imageclass"; "maxify"; "selphy";
     "imagerunner"; "ij"; "mb"; "mx"; "mp"; "mg"; "mf"] in
  let name_lower := PyStr.lower name in
  existsb (fun keyword => PyStr.contains keyword name_lower) canon_keywords.

End PlatformUtils.

(** ** Notions used to state the properties *)

(** The text is ASCII. On such a text the case mappings, the white space
    and the character classes of this file are those of Python. *)
Definition is_ascii (s : string) : bool :=
  PyStr.all_chars (fun c => PyStr.code c <? 128) s.

(** A record whose ["uri"] is a string, as every producer builds it. *)
Definition has_str_uri (r : record) : Prop :=
  exists s, r !! "uri" = Some (VStr s).

(** The first record of a list that has the uri [u]. *)
Fixpoint lookup_uri (u : value) (l : list record) : option record :=
  match l with
  | [] => None
  | r :: l' => if decide (r !! "uri" = Some u) then Some r else lookup_uri u l'
  end.

(** The connect attempts of a whole sweep, task after task in the order of
    completion. *)
Definition probes_made (self : CanonPrinterDiscovery) (w : World) : exc (list probe) :=
  network_ranges ← _get_network_ranges w;
  mret (concat (fst <$> as_completed w (submitted self w network_ranges))).

(** The entries of the cache that [_get_manual_printers] takes. *)
Definition manually_added (item : string * record) : bool :=
  truthy (get item.2 "manually_added" (VBool false)).

(** The descriptor that the specification calls the default one. *)
Definition default_capabilities : record :=
  <["duplex" := VBool true]>
  (<["color" := VBool true]>
  (<["max_copies" := VInt 99]>
  (<["supported_media" := VList ["A4"; "Letter"; "Legal"; "4x6"; "5x7"]]>
  (<["supported_quality" := VList ["draft"; "normal"; "high"]]> ∅)))).

(** The first of two optional results. *)
Definition or_else {A : Type} (a b : option A) : option A :=
  match a with
  | Some x => Some x
  | None => b
  end.

(** The same environment with another completion order of the workers. *)
Definition with_order (w : World) (order : list future -> list future) : World :=
  {| connect_ex := connect_ex w;
     requests_get := requests_get w;
     urlparse := urlparse w;
     route_get_default := route_get_default w;
     dns_sd_browse := dns_sd_browse w;
     get_system_printers := get_system_printers w;
     as_completed := order |}.

(** ** Worked environments *)

Definition quiet_world : World :=
  {| connect_ex := fun _ _ _ => Some 111;
     requests_get := fun _ _ => None;
     urlparse := fun _ => None;
     route_get_default := Raised FileNotFoundError;
     dns_sd_browse := Raised TimeoutExpired;
     get_system_printers := [];
     as_completed := fun fs => fs |}.

(** A network [192.168.1.0/24] on which only [192.168.1.5] listens on port
    631 and serves a page titled [Canon PIXMA TS3400]. *)
Definition ts3400_page : string :=
  "<html><head><title>Canon PIXMA TS3400</title></head><body>Ready</body></html>".

Definition ts3400_world : World :=
  {| connect_ex := fun ip port _ =>
       if bool_decide (ip = "192.168.1.5") && (port =? 631) then Some 0 else Some 111;
     requests_get := fun url _ =>
       if bool_decide (url = "http://192.168.1.5:631")
       then Some {| status_code := 200; text := ts3400_page |}
       else None;
     urlparse := fun _ => None;
     route_get_default :=
       Completed 0 ("   route to: default" +:+ String newline "    gateway: 192.168.1.1"
                    +:+ String newline "  interface: en0");
     dns_sd_browse := Raised TimeoutExpired;
     get_system_printers := [];
     as_completed := fun fs => fs |}.

Definition scanner_631 : CanonPrinterDiscovery :=
  {| canon_keywords := canon_keywords (__init__ None);
     ipp_ports := [631];
     config_manager := None |}.

(** A printer record as a producer writes it. *)
Definition a_record (name uri source : string) : record :=
  <["name" := VStr name]>
  (<["uri" := VStr uri]>
  (<["status" := VStr "Available"]>
  (<["model" := VStr "Unknown"]>
  (<["source" := VStr source]> ∅)))).

Definition three_records : list record :=
  [ a_record "Office" "ipp://10.0.0.9:631/ipp/print" "manual_config";
    a_record "Canon MG3600" "cups://Canon_MG3600" "lpstat";
    a_record "Canon PIXMA" "ipp://10.0.0.9:631/ipp/print" "network_scan" ].

(** A manually added printer at [10.0.0.9] that the system enumeration
    lists and the network scan finds again, each under a name of its own,
    and that mDNS announces under its host name. *)
Definition office_uri : string := "ipp://10.0.0.9:631/ipp/print".

Definition office_cache_entry : record :=
  <["name" := VStr "Office printer"]>
  (<["model" := VStr "Canon TS3400"]>
  (<["ip" := VStr "10.0.0.9"]>
  (<["port" := VInt 631]>
  (<["manually_added" := VBool true]> ∅)))).

Definition office_cache : printers_cache_t := [ (office_uri, office_cache_entry) ].

(** The same device as the system lists it, and the line with which
    [dns-sd] announces it. *)
Definition office_system_record : record :=
  <["name" := VStr "Canon_TS3400"]>
  (<["uri" := VStr office_uri]>
  (<["status" := VStr "Available"]>
  (<["model" := VStr "Canon TS3400 series"]>
  (<["source" := VStr "cups_python"]>
  (<["location" := VStr "Office"]>
  (<["description" := VStr "Canon TS3400"]> ∅)))))).

Definition office_browse_line : string :=
  "12:00:00.000  Add        2   4 local.               _ipp._tcp.           Canon-TS3400".

Definition office_world : World :=
  {| connect_ex := fun ip port _ =>
       if bool_decide (ip = "10.0.0.9") && (port =? 631) then Some 0 else Some 111;
     requests_get := fun url _ =>
       if bool_decide (url = "http://10.0.0.9:631")
       then Some {| status_code := 200; text := ts3400_page |}
       else None;
     urlparse := fun uri =>
       if bool_decide (uri = office_uri) then Some (Some "10.0.0.9", Some 631) else None;
     route_get_default := Completed 0 "    gateway: 10.0.0.1";
     dns_sd_browse := Completed 0 office_browse_line;
     get_system_printers := [office_system_record];
     as_completed := reverse |}.

Definition office_discovery : CanonPrinterDiscovery := __init__ (Some office_cache).

Definition office_mdns_record : record :=
  <["name" := VStr "Canon-TS3400"]>
  (<["uri" := VStr "ipp://Canon-TS3400.local:631/ipp/print"]>
  (<["status" := VStr "Available"]>
  (<["model" := VStr "Canon Printer"]>
  (<["source" := VStr "mdns"]> ∅)))).

Definition office_record : record :=
  <["name" := VStr "Office printer"]>
  (<["uri" := VStr office_uri]>
  (<["status" := VStr "Available"]>
  (<["model" := VStr "Canon TS3400"]>
  (<["source" := VStr "manual_config"]>
  (<["ip" := VStr "10.0.0.9"]>
  (<["port" := VInt 631]> ∅)))))).

(** The [route] command runs but finds no default route. *)
Definition no_route_world : World :=
  {| connect_ex := fun _ _ _ => Some 111;
     requests_get := fun _ _ => None;
     urlparse := fun _ => None;
     route_get_default := Completed 1 "";
     dns_sd_browse := Raised TimeoutExpired;
     get_system_printers := [];
     as_completed := fun fs => fs |}.

(** The [route] command succeeds and prints no gateway line. *)
Definition no_gateway_world : World :=
  {| connect_ex := fun _ _ _ => Some 111;
     requests_get := fun _ _ => None;
     urlparse := fun _ => None;
     route_get_default := Completed 0 "   route to: default";
     dns_sd_browse := Raised TimeoutExpired;
     get_system_printers := [];
     as_completed := fun fs => fs |}.

(** The host [192.168.1.5] serves a page that names the vendor in its body
    and not in its title. *)
Definition status_page : string :=
  "<html><head><title>Printer Status</title></head><body>Canon MX920 ready</body></html>".

Definition status_page_world : World :=
  {| connect_ex := fun ip port _ =>
       if bool_decide (ip = "192.168.1.5") && (port =? 631) then Some 0 else Some 111;
     requests_get := fun url _ =>
       if bool_decide (url = "http://192.168.1.5:631")
       then Some {| status_code := 200; text := status_page |}
       else None;
     urlparse := fun _ => None;
     route_get_default := Completed 0 "    gateway: 192.168.1.1";
     dns_sd_browse := Raised TimeoutExpired;
     get_system_printers := [];
     as_completed := fun fs => fs |}.

(** The title element of the page of a PIXMA TS3400, the network
    [192.168.1.0/24] and the record that the scan builds for that device. *)
Definition ts3400_title : string := "<title>Canon PIXMA TS3400</title>".

Definition net_192_168_1_0 : Ipaddress.IPv4Network :=
  {| Ipaddress.network_address := 3232235776; Ipaddress.prefixlen := 24 |}.

Definition ts3400_record : record :=
  <["name" := VStr "Canon PIXMA TS3400"]>
  (<["uri" := VStr "ipp://192.168.1.5:631/ipp/print"]>
  (<["status" := VStr "Available"]>
  (<["model" := VStr "Canon PIXMA TS3400"]>
  (<["source" := VStr "network_scan"]> ∅)))).

(** * The configuration and the command line

    [config_manager.py] and the part of [main.py] that adds a printer by
    hand. *)

(** ** [class ConfigManager]

    The configuration is a tree of dicts with string keys, as [yaml] loads
    it; a leaf is any value that is not a dict. A dict keeps the order in
    which its keys were inserted. *)
Module ConfigManager.

#[warnings="-register-all"]
Inductive tree :=
| Leaf (v : value)
| Node (d : list (string * tree)).

Definition dict : Type := list (string * tree).

(** [d.get(k)] on an ordered dict *)
Fixpoint dict_get {V : Type} (k : string) (d : list (string * V)) : option V :=
  match d with
  | [] => None
  | (k', v) :: d' => if decide (k' = k) then Some v else dict_get k d'
  end.

(** [d[k] = v]: the value of an existing key is replaced where it stands,
    a new key goes to the end. *)
Fixpoint dict_set {V : Type} (k : string) (v : V) (d : list (string * V))
  : list (string * V) :=
  match d with
  | [] => [(k, v)]
  | (k', v') :: d' => if decide (k' = k) then (k, v) :: d' else (k', v') :: dict_set k v d'
  end.

(** The loop of [_deep_merge] over the items of [dict2]; [merge] is the
    recursive call. *)
Fixpoint merge_items (merge : dict -> tree -> dict) (result : dict) (items : dict) : dict :=
  match items with
  | [] => result
  | (key, value) :: items' =>
      let result' :=
        match dict_get key result, value with
        | Some (Node d1), Node _ => dict_set key (Node (merge d1 value)) result
        | _, _ => dict_set key value result
        end in
      merge_items merge result' items'
  end.

(** [_deep_merge(dict1, dict2)], with [dict2] given as the node it is. *)
Fixpoint deep_merge_node (dict1 : dict) (t2 : tree) {struct t2} : dict :=
  match t2 with
  | Node dict2 => merge_items (fun d1 value => deep_merge_node d1 value) dict1 dict2
  | Leaf _ => dict1
  end.

Definition _deep_merge (dict1 dict2 : dict) : dict := deep_merge_node dict1 (Node dict2).

Inductive subscript_error := KeyError (key : string) | TypeError.

(** [value[k]] *)
Definition subscript (value : tree) (k : string) : subscript_error + tree :=
  match value with
  | Node d =>
      match dict_get k d with
      | Some v => inr v
      | None => inl (KeyError k)
      end
  | Leaf _ => inl TypeError
  end.

(** The loop of [get] over the keys. *)
Fixpoint walk (value : tree) (keys : list string) : subscript_error + tree :=
  match keys with
  | [] => inr value
  | k :: keys' =>
      match subscript value k with
      | inr value' => walk value' keys'
      | inl e => inl e
      end
  end.

Definition get (config : dict) (key : string) (default : tree) : tree :=
  let keys := PyStr.split "." key in
  match walk (Node config) keys with
  | inr value => value
  | inl _ => default                (* except (KeyError, TypeError) *)
  end.

(** [set]: the new content of the dict reached so far, for the keys that
    are left; a value that is not a dict cannot be entered or assigned to. *)
Fixpoint set_keys (config : tree) (keys : list string) (value : tree)
  : subscript_error + tree :=
  match config with
  | Leaf _ => inl TypeError
  | Node d =>
      match keys with
      | [] => inr config
      | [k] => inr (Node (dict_set k value d))
      | k :: keys' =>
          let child := match dict_get k d with
                       | Some c => c
                       | None => Node []
                       end in
          match set_keys child keys' value with
          | inr child' => inr (Node (dict_set k child' d))
          | inl e => inl e
          end
      end
  end.

Definition set (config : dict) (key : string) (value : tree) : subscript_error + dict :=
  let keys := PyStr.split "." key in
  match set_keys (Node config) keys value with
  | inr (Node d) => inr d
  | inr (Leaf _) => inl TypeError
  | inl e => inl e
  end.

(** Truth value of a configuration value. *)
Definition truthy_tree (t : tree) : bool :=
  match t with
  | Leaf v => truthy v
  | Node d => negb (bool_decide (d = []))
  end.

(** A field of a cache entry: a scalar, or a dict of scalars such as the
    capabilities. *)
Inductive field :=
| Scalar (v : value)
| Dict (d : record).

Abbreviation entry := (gmap string field).

Record t := {
  config : dict;
  printers_cache : list (string * entry)
}.

(** [d.get(k, dflt)] on an entry *)
Definition entry_get (d : entry) (k : string) (dflt : field) : field :=
  default dflt (d !! k).

(** [save_printer_info]; [now] is [datetime.datetime.now().isoformat()]. *)
Definition save_printer_info (self : t) (now : string)
    (printer_uri : string) (printer_info : entry) : t :=
  if negb (truthy_tree (get (config self) "save_printer_history" (Leaf VNone)))
  then self
  else
    let existing : entry := default ∅ (dict_get printer_uri (printers_cache self)) in
    let other : entry :=
      <["name" := entry_get printer_info "name"
                    (entry_get existing "name" (Scalar (VStr "Unknown")))]>
      (<["model" := entry_get printer_info "model"
                      (entry_get existing "model" (Scalar (VStr "Unknown")))]>
      (<["status" := entry_get printer_info "status" (Scalar (VStr "Unknown"))]>
      (<["last_seen" := Scalar (VStr now)]>
      (<["capabilities" := entry_get printer_info "capabilities"
                             (entry_get existing "capabilities" (Dict ∅))]> ∅)))) in
    let existing := other ∪ existing in         (* existing.update(other) *)
    {| config := config self;
       printers_cache := dict_set printer_uri existing (printers_cache self) |}.

(** What [record_print_job] does: it returns, or raises a [TypeError]; in
    both cases the manager is as the method left it. *)
Inductive job_outcome :=
| JobRecorded (self : t)
| JobTypeError (self : t).

(** [x + 1] for a field of an entry; [None] is a [TypeError]. *)
Definition plus_one (x : field) : option Z :=
  match x with
  | Scalar (VInt n) => Some (n + 1)
  | Scalar (VBool b) => Some ((if b then 1 else 0) + 1)
  | _ => None
  end.

(** [x > 1]; [None] is a [TypeError]. *)
Definition greater_than_one (x : value) : option bool :=
  match x with
  | VInt n => Some (1 <? n)
  | VBool _ => Some false
  | _ => None
  end.

(** [preferred[k] = v]; [None] is a [TypeError]. *)
Definition setitem (preferred : field) (k : string) (v : value) : option field :=
  match preferred with
  | Dict d => Some (Dict (<[k := v]> d))
  | Scalar _ => None
  end.

(** [settings.get(k, dflt)] *)
Definition settings_get (settings : record) (k : string) (dflt : value) : value :=
  default dflt (settings !! k).

(** The three updates of [preferred] in [record_print_job]. *)
Definition set_quality (settings : record) (preferred : field) : option field :=
  if truthy (settings_get settings "quality" VNone)
  then setitem preferred "quality" (settings_get settings "quality" VNone)
  else Some preferred.

Definition set_duplex (settings : record) (preferred : field) : option field :=
  match settings !! "duplex" with
  | Some duplex => setitem preferred "duplex" duplex
  | None => Some preferred
  end.

Definition set_copies (settings : record) (preferred : field) : option field :=
  match greater_than_one (settings_get settings "copies" (VInt 1)) with
  | Some true => setitem preferred "copies" (settings_get settings "copies" (VInt 1))
  | Some false => Some preferred
  | None => None
  end.

(** The dict [printer_info] once the dict [preferred] has changed: when
    [preferred] is the dict that [printer_info] holds, the change shows in
    it; when it is a fresh dict, it does not. *)
Definition with_preferred (printer_info : entry) (preferred : field) : entry :=
  match printer_info !! "preferred_settings" with
  | Some _ => <["preferred_settings" := preferred]> printer_info
  | None => printer_info
  end.

(** [record_print_job]; [now] is [datetime.datetime.now().isoformat()]. The
    file path is not used. The dict [printer_info] is the entry of the
    cache when the uri has one, so what is assigned to it before a
    [TypeError] stays in the cache; a fresh dict reaches the cache only with
    the last assignment. *)
Definition record_print_job (self : t) (now : string)
    (printer_uri : string) (settings : record) : job_outcome :=
  if negb (truthy_tree (get (config self) "save_printer_history" (Leaf VNone)))
  then JobRecorded self
  else
    let cached := dict_get printer_uri (printers_cache self) in
    let left (printer_info : entry) : t :=
      match cached with
      | Some _ => {| config := config self;
                     printers_cache := dict_set printer_uri printer_info (printers_cache self) |}
      | None => self
      end in
    let printer_info : entry := default ∅ cached in
    let printer_info := <["last_used" := Scalar (VStr now)]> printer_info in
    match plus_one (entry_get printer_info "usage_count" (Scalar (VInt 0))) with
    | None => JobTypeError (left printer_info)
    | Some usage_count =>
        let printer_info := <["usage_count" := Scalar (VInt usage_count)]> printer_info in
        let preferred := entry_get printer_info "preferred_settings" (Dict ∅) in
        match set_quality settings preferred with
        | None => JobTypeError (left (with_preferred printer_info preferred))
        | Some preferred1 =>
            match set_duplex settings preferred1 with
            | None => JobTypeError (left (with_preferred printer_info preferred1))
            | Some preferred2 =>
                match set_copies settings preferred2 with
                | None => JobTypeError (left (with_preferred printer_info preferred2))
                | Some preferred3 =>
                    let printer_info :=
                      <["preferred_settings" := preferred3]> printer_info in
                    JobRecorded
                      {| config := config self;
                         printers_cache :=
                           dict_set printer_uri printer_info (printers_cache self) |}
                end
            end
        end
    end.

(** The cache as [CanonPrinterDiscovery] reads it: of an entry it looks at
    [name], [model], [ip], [port] and [manually_added], which are scalars
    wherever the program writes them; the dicts of an entry are left out. *)
Definition scalar_fields (e : entry) : record :=
  omap (fun f => match f with Scalar v => Some v | Dict _ => None end) e.

Definition discovery_cache (self : t) : printers_cache_t :=
  (fun item : string * entry => (item.1, scalar_fields item.2)) <$> printers_cache self.

End ConfigManager.

(** ** [class CanonPrinterCLI] *)
Module CanonPrinterCLI.

(** Up to [n] more characters of [0-9], as many as there are. *)
Fixpoint more_digits (n : nat) (s : string) : string :=
  match n, s with
  | S n', String c s' => if PyStr.is_digit c then more_digits n' s' else s
  | _, _ => s
  end.

(** [[0-9]{1,3}] at the head of [s]: what is left of [s]. The next item of
    the pattern never matches a digit, so taking as many digits as possible
    loses no match. *)
Definition digits_1_3 (s : string) : option string :=
  match s with
  | String c s' => if PyStr.is_digit c then Some (more_digits 2 s') else None
  | EmptyString => None
  end.

(** [\.] at the head of [s] *)
Definition dot (s : string) : option string :=
  match s with
  | String c s' => if decide (c = "."%char) then Some s' else None
  | EmptyString => None
  end.

(** [$]: at the end of the text, or before a newline that ends it *)
Definition at_end (s : string) : bool :=
  bool_decide (s = EmptyString) || bool_decide (s = String newline EmptyString).

(** [re.match(r'^(?:[0-9]{1,3}\.){3}[0-9]{1,3}$', ip)] *)
Definition ip_pattern_match (ip : string) : bool :=
  match (s ← digits_1_3 ip; s ← dot s;
         s ← digits_1_3 s; s ← dot s;
         s ← digits_1_3 s; s ← dot s;
         digits_1_3 s) with
  | Some rest => at_end rest
  | None => false
  end.

Record t := { config_manager : ConfigManager.t }.

(** [CanonPrinterDiscovery(self.config_manager)]: the discovery shares the
    configuration manager, so it reads the cache as it is at the time. *)
Definition printer_discovery (self : t) : CanonPrinterDiscovery :=
  __init__ (Some (ConfigManager.discovery_cache (config_manager self))).

(** What [add_printer] does: it returns with the configuration as it then
    is, or raises a [TypeError]. *)
Inductive outcome :=
| Returned (result : bool) (config_manager : ConfigManager.t)
| RaisedTypeError.

(** [name or dflt] *)
Definition name_or (name : option string) (dflt : string) : string :=
  match name with
  | Some n => if bool_decide (n = EmptyString) then dflt else n
  | None => dflt
  end.

(** The second attempt of [add_printer] to learn about the device, from its
    web interface; [None] when the answer has another status than 200. *)
Definition web_interface_info (w : World) (ip : string) (name : option string) (port : Z)
  : option printer_info_t :=
  let unknown := {| info_name := name_or name ("Printer at " +:+ ip);
                    info_model := "Unknown";
                    info_status := "Available" |} in
  match requests_get w ("http://" +:+ ip +:+ ":"
                        +:+ PyStr.show (if bool_decide (port = 631) then 80 else port)) 5 with
  | Some response =>
      if status_code response =? 200 then
        let content := PyStr.lower (text response) in
        if existsb (fun keyword => PyStr.contains keyword content)
             ["canon"; "pixma"; "imageclass"]
        then Some {| info_name := name_or name ("Canon Printer at " +:+ ip);
                     info_model := "Unknown Canon Model";
                     info_status := "Available" |}
        else Some unknown
      else None
  | None => Some unknown
  end.

(** [add_printer]; [now] is the time of the call and [test_page] what
    [print_test_page] returns when it is asked for. The method imports
    [requests] before anything else: the package is taken to be there. *)
Definition add_printer (self : t) (w : World) (now : string) (test_page : bool)
    (ip : string) (name : option string) (port : Z) (test_connection : bool) : outcome :=
  if negb (ip_pattern_match ip) then Returned false (config_manager self)
  else if negb (_is_port_open w ip port 5000) then Returned false (config_manager self)
  else
    let printer_info :=
      match _get_ipp_printer_info (printer_discovery self) w ip port with
      | Some info => Some info
      | None => web_interface_info w ip name port
      end in
    let printer_uri := "ipp://" +:+ ip +:+ ":" +:+ PyStr.show port +:+ "/ipp/print" in
    match printer_info with
    | None => RaisedTypeError
    | Some printer_info =>
        let printer_name := name_or name (info_name printer_info) in
        let saved :=
          ConfigManager.save_printer_info (config_manager self) now printer_uri
            (<["name" := ConfigManager.Scalar (VStr printer_name)]>
             (<["model" := ConfigManager.Scalar (VStr (info_model printer_info))]>
             (<["status" := ConfigManager.Scalar (VStr (info_status printer_info))]>
             (<["ip" := ConfigManager.Scalar (VStr ip)]>
             (<["port" := ConfigManager.Scalar (VInt port)]>
             (<["manually_added" := ConfigManager.Scalar (VBool true)]>
             (<["capabilities" := ConfigManager.Dict (get_printer_capabilities printer_uri)]>
              ∅))))))) in
        if test_connection then Returned test_page saved else Returned true saved
    end.

End CanonPrinterCLI.

(** ** Notions used to state the further properties *)

(** The family names with which the patterns of [_extract_model] start. *)
Definition model_families : list string :=
  ["PIXMA"; "MX"; "MP"; "MG"; "MF"; "MB"; "IMAGECLASS"; "IMAGERUNNER"].

(** The record that the mDNS producer writes for a service name. *)
Definition mdns_record (service_name : string) : record :=
  <["name" := VStr service_name]>
  (<["uri" := VStr ("ipp://" +:+ service_name +:+ ".local:631/ipp/print")]>
  (<["status" := VStr "Available"]>
  (<["model" := VStr (_extract_model service_name)]>
  (<["source" := VStr "mdns"]> ∅)))).


(** The text has no character [sep]. *)
Definition free_of (sep : ascii) (s : string) : bool :=
  PyStr.all_chars (fun c => negb (bool_decide (c = sep))) s.

(** The text has no white space. *)
Definition no_space (s : string) : bool :=
  PyStr.all_chars (fun c => negb (PyStr.is_space c)) s.

(** A number is printed in digits and read back as the octet it is. *)
Definition octet_ok (o : Z) : bool :=
  match Ipaddress.parse_octet (PyStr.show o) with
  | inr v => (v =? o) && PyStr.all_chars PyStr.is_digit (PyStr.show o)
  | inl _ => false
  end.

(** The networks [192.168.1.0/24], [192.168.0.0/24], [10.0.0.0/24] and
    [172.16.0.0/24] of [common_networks]. *)
Definition four_common_networks : list Ipaddress.IPv4Network :=
  [ {| Ipaddress.network_address := 3232235776; Ipaddress.prefixlen := 24 |};
    {| Ipaddress.network_address := 3232235520; Ipaddress.prefixlen := 24 |};
    {| Ipaddress.network_address := 167772160; Ipaddress.prefixlen := 24 |};
    {| Ipaddress.network_address := 2886729728; Ipaddress.prefixlen := 24 |} ].

(** The dotted quad of four octets, as [route] prints a gateway. *)
Definition dotted_quad (o1 o2 o3 o4 : Z) : string :=
  PyStr.show o1 +:+ "." +:+ PyStr.show o2 +:+ "." +:+ PyStr.show o3 +:+ "." +:+ PyStr.show o4.

(** An excerpt of the default configuration, and a loaded file that changes
    one leaf of its nested dict. *)
Definition default_config : ConfigManager.dict :=
  [("default_copies", ConfigManager.Leaf (VInt 1));
   ("save_printer_history", ConfigManager.Leaf (VBool true));
   ("network", ConfigManager.Node [("ports", ConfigManager.Leaf (VList ["631"; "9100"]));
                                   ("max_workers", ConfigManager.Leaf (VInt 50))])].

(** The loaded file. *)
Definition loaded_config : ConfigManager.dict :=
  [("network", ConfigManager.Node [("max_workers", ConfigManager.Leaf (VInt 10))]);
   ("default_printer", ConfigManager.Leaf (VStr "ipp://192.168.1.5:631/ipp/print"))].

(** What [_deep_merge] leaves under a key. *)
Definition merged_value (dict1 : ConfigManager.dict) (k : string)
    (value : ConfigManager.tree) : ConfigManager.tree :=
  match ConfigManager.dict_get k dict1, value with
  | Some (ConfigManager.Node d1), ConfigManager.Node d2 =>
      ConfigManager.Node (ConfigManager._deep_merge d1 d2)
  | _, _ => value
  end.

(** Every dict of the tree has distinct keys. *)
Fixpoint distinct_keys (t : ConfigManager.tree) : Prop :=
  match t with
  | ConfigManager.Leaf _ => True
  | ConfigManager.Node d =>
      NoDup (d.*1)
      /\ (fix all (d : list (string * ConfigManager.tree)) : Prop :=
            match d with
            | [] => True
            | kv :: d' => distinct_keys kv.2 /\ all d'
            end) d
  end.

(** [loaded_config] after [set('network.proxy.host', 'gw')]. *)
Definition proxy_config : ConfigManager.dict :=
  [("network",
    ConfigManager.Node
      [("max_workers", ConfigManager.Leaf (VInt 10));
       ("proxy", ConfigManager.Node [("host", ConfigManager.Leaf (VStr "gw"))])]);
   ("default_printer", ConfigManager.Leaf (VStr "ipp://192.168.1.5:631/ipp/print"))].

(** The five keys that [save_printer_info] writes. *)
Definition saved_keys : list string :=
  ["name"; "model"; "status"; "last_seen"; "capabilities"].

(** The test with which [save_printer_info] starts. *)
Definition history_enabled (self : ConfigManager.t) : bool :=
  ConfigManager.truthy_tree
    (ConfigManager.get (ConfigManager.config self) "save_printer_history"
       (ConfigManager.Leaf VNone)).

(** The manual contribution that the discovery computes from a
    configuration manager. *)
Definition manual_printers_of (cm : ConfigManager.t) (w : World) : list record :=
  _get_manual_printers (__init__ (Some (ConfigManager.discovery_cache cm))) w.

(** An item of the cache as the discovery reads it. *)
Definition view_item (item : string * ConfigManager.entry) : string * record :=
  (item.1, ConfigManager.scalar_fields item.2).

(** One to three characters of [0-9]. *)
Definition digit_group (g : string) : Prop :=
  PyStr.all_chars PyStr.is_digit g = true /\ (1 <= String.length g <= 3)%nat.

(** The text does not go on with a digit. *)
Definition no_digit_head (s : string) : bool :=
  match s with
  | String c _ => negb (PyStr.is_digit c)
  | EmptyString => true
  end.

(** [digit_group] as a test. *)
Definition digit_group_b (g : string) : bool :=
  PyStr.all_chars PyStr.is_digit g
  && bool_decide (1 <= String.length g <= 3)%nat.

(** The uri under which [add_printer] saves a printer. *)
Definition added_uri (ip : string) (port : Z) : string :=
  "ipp://" +:+ ip +:+ ":" +:+ PyStr.show port +:+ "/ipp/print".

(** The address of the web interface that [add_printer] asks. *)
Definition web_interface_url (ip : string) (port : Z) : string :=
  "http://" +:+ ip +:+ ":" +:+ PyStr.show (if bool_decide (port = 631) then 80 else port).

(** A configuration that keeps the printer history, with nothing saved. *)
Definition fresh_manager : ConfigManager.t :=
  {| ConfigManager.config :=
       [("save_printer_history", ConfigManager.Leaf (VBool true))];
     ConfigManager.printers_cache := [] |}.

(** The command line on that configuration. *)
Definition fresh_cli : CanonPrinterCLI.t :=
  {| CanonPrinterCLI.config_manager := fresh_manager |}.

(** The three keys that [record_print_job] writes. *)
Definition job_keys : list string := ["last_used"; "usage_count"; "preferred_settings"].

(** The keys of an entry that [_get_manual_printers] reads. *)
Definition manual_keys : list string := ["manually_added"; "name"; "model"; "ip"; "port"].

(** The manager that a call of [record_print_job] leaves. *)
Definition left_by (o : ConfigManager.job_outcome) : ConfigManager.t :=
  match o with
  | ConfigManager.JobRecorded self => self
  | ConfigManager.JobTypeError self => self
  end.

(** The entry of a uri, as [printers_cache.get(uri, {})] gives it. *)
Definition cached_entry (self : ConfigManager.t) (uri : string) : ConfigManager.entry :=
  default ∅ (ConfigManager.dict_get uri (ConfigManager.printers_cache self)).

(** One job after the other, as long as none raises. *)
Fixpoint record_jobs (self : ConfigManager.t) (uri : string) (jobs : list (string * record))
  : ConfigManager.job_outcome :=
  match jobs with
  | [] => ConfigManager.JobRecorded self
  | (now, settings) :: jobs' =>
      match ConfigManager.record_print_job self now uri settings with
      | ConfigManager.JobRecorded self' => record_jobs self' uri jobs'
      | ConfigManager.JobTypeError self' => ConfigManager.JobTypeError self'
      end
  end.

(** The two entries agree outside the keys that [record_print_job] writes. *)
Definition same_off_job_keys (e' e : ConfigManager.entry) : Prop :=
  forall k, k ∉ job_keys -> e' !! k = e !! k.

(** What holds of the manager that [record_print_job] leaves, whichever
    way it ends, when its entry of the uri agrees with the old one outside
    the three keys. *)
Definition job_frame (self self' : ConfigManager.t) (uri : string) (w : World) : Prop :=
  ConfigManager.config self' = ConfigManager.config self
  /\ (forall uri', uri' <> uri ->
        ConfigManager.dict_get uri' (ConfigManager.printers_cache self')
        = ConfigManager.dict_get uri' (ConfigManager.printers_cache self))
  /\ same_off_job_keys (cached_entry self' uri) (cached_entry self uri)
  /\ manual_printers_of self' w = manual_printers_of self w.

(** A manager whose cache holds a usage count written as a text. *)
Definition text_count_manager : ConfigManager.t :=
  {| ConfigManager.config :=
       [("save_printer_history", ConfigManager.Leaf (VBool true))];
     ConfigManager.printers_cache :=
       [("ipp://192.168.1.5:631/ipp/print",
         <["usage_count" := ConfigManager.Scalar (VStr "3")]> ∅)] |}.

(** What Python cannot add 1 to: [None], a string, a list, a dict. *)
Definition no_number (x : ConfigManager.field) : Prop :=
  match x with
  | ConfigManager.Scalar VNone | ConfigManager.Scalar (VStr _)
  | ConfigManager.Scalar (VList _) | ConfigManager.Dict _ => True
  | ConfigManager.Scalar (VInt _) | ConfigManager.Scalar (VBool _) => False
  end.

(** An [int] or a [bool] as a field of an entry. *)
Definition whole_number (x : ConfigManager.field) : Prop :=
  match x with
  | ConfigManager.Scalar (VInt _) | ConfigManager.Scalar (VBool _) => True
  | _ => False
  end.

(** What Python cannot compare with 1: [None], a string, a list. *)
Definition not_comparable (x : value) : Prop :=
  match x with
  | VNone | VStr _ | VList _ => True
  | VInt _ | VBool _ => False
  end.

(** An [int] or a [bool]. *)
Definition int_or_bool (x : value) : Prop :=
  match x with
  | VInt _ | VBool _ => True
  | _ => False
  end.

(** The setting is one that [record_print_job] stores: a truthy quality, a
    duplex setting, or a whole number of copies greater than 1. *)
Definition stores_a_setting (settings : record) : Prop :=
  truthy (ConfigManager.settings_get settings "quality" VNone) = true
  \/ is_Some (settings !! "duplex")
  \/ ConfigManager.greater_than_one (ConfigManager.settings_get settings "copies" (VInt 1))
     = Some true.

(** The keys of the preferred settings that [record_print_job] writes. *)
Definition preferred_keys : list string := ["quality"; "duplex"; "copies"].

(** The usage count as a number: a missing count is 0. *)
Definition usage_count (self : ConfigManager.t) (uri : string) : ConfigManager.field :=
  ConfigManager.entry_get (cached_entry self uri) "usage_count" (ConfigManager.Scalar (VInt 0)).

(** ** Substrings *)

Lemma append_nil (s : string) : EmptyString +:+ s = s.
Proof. reflexivity. Qed.

Lemma append_cons (c : ascii) (p s : string) :
  String c p +:+ s = String c (p +:+ s).
Proof. reflexivity. Qed.

Lemma startswith_spec (p s : string) :
  PyStr.startswith p s = true <-> exists post, s = p +:+ post.
Proof.
  revert s. induction p as [|a p IH]; intros s; simpl.
  - split; [intros _; by exists s | done].
  - destruct s as [|b s]; simpl.
    + split; [done | intros [post H]; discriminate].
    + destruct (decide (a = b)) as [->|Hne].
      * rewrite IH. split; intros [post H]; exists post;
          rewrite ?append_cons in *; congruence.
      * split; [done | intros [post H]; rewrite append_cons in H; congruence].
Qed.

Lemma contains_spec (needle hay : string) :
  PyStr.contains needle hay = true <-> exists pre post, hay = pre +:+ needle +:+ post.
Proof.
  induction hay as [|c hay IH]; simpl.
  - rewrite orb_false_r, startswith_spec. split.
    + intros [post H]. by exists EmptyString, post.
    + intros [pre [post H]]. destruct pre; [by exists post | discriminate].
  - rewrite orb_true_iff, startswith_spec, IH. split.
    + intros [[post H] | [pre [post H]]].
      * by exists EmptyString, post.
      * exists (String c pre), post. rewrite append_cons. by rewrite H.
    + intros [pre [post H]]. destruct pre as [|c' pre].
      * left. by exists post.
      * right. exists pre, post. rewrite append_cons in H. congruence.
Qed.
Lemma any_keyword_spec (self : CanonPrinterDiscovery) (s : string) :
  any_keyword self s = true <->
  exists keyword pre post, keyword ∈ canon_keywords self /\ s = pre +:+ keyword +:+ post.
Proof.
  unfold any_keyword. rewrite existsb_exists. split.
  - intros [k [Hin Hc]]. apply contains_spec in Hc as [pre [post H]].
    exists k, pre, post. by rewrite list_elem_of_In.
  - intros [k [pre [post [Hin H]]]]. exists k. rewrite <- list_elem_of_In.
    split; [done |]. apply contains_spec. eauto.
Qed.

(** C10. The classifier is substring containment: a name is classified as
    the vendor's exactly when its lower-cased form contains one of the
    twelve keywords at some position, both in [CanonPrinterDiscovery] and in
    [PlatformUtils]; so a name such as [Jumbo], which has [mb] inside a
    longer word, is classified as a match. *)
Theorem is_canon_printer_substring (cm : option printers_cache_t) (name : string) :
  (_is_canon_printer (__init__ cm) name = true <->
   exists keyword pre post,
     keyword ∈ ["canon"; "pixma"; "imageclass"; "maxify"; "selphy";
                "imagerunner"; "ij"; "mb"; "mx"; "mp"; "mg"; "mf"]
     /\ PyStr.lower name = pre +:+ keyword +:+ post)
  /\ PlatformUtils._is_canon_printer name = _is_canon_printer (__init__ cm) name
  /\ _is_canon_printer (__init__ cm) "Jumbo" = true
  /\ PyStr.lower "Jumbo" = "ju" +:+ "mb" +:+ "o".
Proof.
  split; [| split; [reflexivity | split; reflexivity]].
  unfold _is_canon_printer. apply any_keyword_spec.
Qed.

(** ** De-duplication *)

Lemma dedup_loop_inv (printers : list record) :
  Forall has_str_uri printers ->
  forall acc, exists new,
    dedup_loop acc printers = inr (acc ++ new)
    /\ sublist (new.*2) printers
    /\ Forall (fun p => p.2 !! "uri" = Some p.1 /\ p.1 ∉ acc.*1) new
    /\ NoDup (new.*1)
    /\ (forall r u, r ∈ printers -> r !! "uri" = Some u -> u ∈ acc.*1 \/ u ∈ new.*1)
    /\ (forall p, p ∈ new -> exists i : nat,
          printers !! i = Some p.2
          /\ forall (j : nat) r', (j < i)%nat -> printers !! j = Some r' ->
               r' !! "uri" <> Some p.1).
Proof.
  induction 1 as [|printer printers [s Hs] _ IH]; intros acc.
  - exists []. rewrite app_nil_r. split_and!.
    + done.
    + apply sublist_nil.
    + apply Forall_nil_2.
    + apply NoDup_nil_2.
    + intros r u Hr. by apply elem_of_nil in Hr.
    + intros p Hp. by apply elem_of_nil in Hp.
  - simpl. unfold getitem. rewrite Hs. simpl.
    case_bool_decide as Hseen.
    + destruct (IH acc) as (new & Hrun & Hsub & Hall & Hnd & Hcov & Hfirst).
      exists new. split_and!; try done.
      * by apply sublist_cons.
      * intros r u Hr Hu. apply elem_of_cons in Hr as [-> | Hr]; [| eauto].
        left. assert (u = VStr s) as -> by congruence. done.
      * intros p Hp. destruct (Hfirst p Hp) as (i & Hi & Hlt).
        exists (S i). split; [done |].
        intros [|j] r' Hj Hr'; simpl in Hr'.
        -- injection Hr' as <-. rewrite Hs. intros [= Heq].
           rewrite Forall_forall in Hall. destruct (Hall p Hp) as [_ Hnot].
           apply Hnot. by rewrite <- Heq.
        -- apply (Hlt j); [lia | done].
    + destruct (IH (acc ++ [(VStr s, printer)])) as (new & Hrun & Hsub & Hall & Hnd & Hcov & Hfirst).
      exists ((VStr s, printer) :: new).
      rewrite Forall_forall in Hall.
      assert (Hfresh : forall p, p ∈ new -> p.1 <> VStr s /\ p.1 ∉ acc.*1).
      { intros p Hp. destruct (Hall p Hp) as [_ Hnot].
        rewrite fmap_app, elem_of_app in Hnot. simpl in Hnot.
        split; [| tauto]. intros Heq. apply Hnot. right. rewrite Heq. by left. }
      split_and!.
      * by rewrite <- app_assoc in Hrun.
      * simpl. by apply sublist_skip.
      * apply Forall_cons. split; [done |]. apply Forall_forall.
        intros p Hp. split; [by apply Hall | by apply Hfresh].
      * simpl. apply NoDup_cons. split; [| done].
        intros Hin. apply list_elem_of_fmap in Hin as (p & Hp1 & Hp).
        destruct (Hfresh p Hp) as [Hne _]. congruence.
      * intros r u Hr Hu. simpl. apply elem_of_cons in Hr as [-> | Hr].
        -- right. apply elem_of_cons. left. congruence.
        -- destruct (Hcov r u Hr Hu) as [Hacc | Hnew]; [| right; by right].
           rewrite fmap_app, elem_of_app in Hacc. destruct Hacc as [? | Hhd]; [by left |].
           right. simpl in Hhd. apply list_elem_of_singleton in Hhd. subst. by left.
      * intros p Hp. apply elem_of_cons in Hp as [-> | Hp].
        -- exists 0%nat. split; [done |]. intros j r' Hj. lia.
        -- destruct (Hfirst p Hp) as (i & Hi & Hlt).
           exists (S i). split; [done |].
           intros [|j] r' Hj Hr'; simpl in Hr'.
           ++ injection Hr' as <-. rewrite Hs. intros [= Heq].
              destruct (Hfresh p Hp) as [Hne _]. congruence.
           ++ apply (Hlt j); [lia | done].
Qed.

Lemma dedup_first_occurrences (printers : list record) :
  Forall has_str_uri printers ->
  exists out,
    dedup printers = inr out
    /\ sublist out printers
    /\ NoDup ((fun r : record => r !! "uri") <$> out)
    /\ (forall r, r ∈ printers -> exists r', r' ∈ out /\ r' !! "uri" = r !! "uri")
    /\ (forall r, r ∈ out -> exists i : nat,
          printers !! i = Some r
          /\ forall (j : nat) r', (j < i)%nat -> printers !! j = Some r' ->
               r' !! "uri" <> r !! "uri").
Proof.
  intros Hwf.
  destruct (dedup_loop_inv printers Hwf []) as (new & Hrun & Hsub & Hall & Hnd & Hcov & Hfirst).
  simpl in Hrun. rewrite Forall_forall in Hall.
  exists (new.*2). split_and!.
  - unfold dedup. by rewrite Hrun.
  - done.
  - assert (Heq : (fun r : record => r !! "uri") <$> new.*2 = Some <$> new.*1).
    { clear -Hall. induction new as [|p new IH]; [done |]. simpl. f_equal.
      - apply Hall. by left.
      - apply IH. intros q Hq. apply Hall. by right. }
    rewrite Heq. apply (NoDup_fmap_2 Some), Hnd.
  - intros r Hr. pose proof Hwf as Hwf'. rewrite Forall_forall in Hwf'.
    destruct (Hwf' r Hr) as [s Hs].
    destruct (Hcov r (VStr s) Hr Hs) as [Hnil | Hin]; [by apply elem_of_nil in Hnil |].
    apply list_elem_of_fmap in Hin as (p & Hp1 & Hp).
    exists p.2. split.
    + apply list_elem_of_fmap. by exists p.
    + destruct (Hall p Hp) as [Hu _]. congruence.
  - intros r Hr. apply list_elem_of_fmap in Hr as (p & -> & Hp).
    destruct (Hfirst p Hp) as (i & Hi & Hlt). exists i. split; [done |].
    destruct (Hall p Hp) as [Hu _]. rewrite Hu. exact Hlt.
Qed.

(** C2. For every list of records (each with a string under ["uri"]) the
    de-duplication returns; what it returns is the input with records
    struck out, so the kept records are unchanged and the output is no
    longer than the input; no two kept records have the same uri; every uri
    of the input keeps a record; and each kept record is the first record of
    the input that has its uri. [find_canon_printers] returns this list for
    the concatenation of the four contributions. *)
Theorem dedup_keeps_first_per_uri (printers : list record) :
  Forall has_str_uri printers ->
  exists out,
    dedup printers = inr out
    /\ sublist out printers
    /\ (length out <= length printers)%nat
    /\ NoDup ((fun r : record => r !! "uri") <$> out)
    /\ (forall r, r ∈ printers -> exists r', r' ∈ out /\ r' !! "uri" = r !! "uri")
    /\ (forall r, r ∈ out -> exists i : nat,
          printers !! i = Some r
          /\ forall (j : nat) r', (j < i)%nat -> printers !! j = Some r' ->
               r' !! "uri" <> r !! "uri")
    /\ (forall self w, gather self w = inr printers ->
          find_canon_printers self w = inr out).
Proof.
  intros Hwf.
  destruct (dedup_first_occurrences printers Hwf) as (out & Hout & Hsub & Hnd & Hcov & Hfirst).
  exists out. split_and!; try done.
  - by apply sublist_length.
  - intros self w Hg. unfold find_canon_printers. rewrite Hg. exact Hout.
Qed.

(** A worked case: three records, two of them with the same uri. *)
Lemma dedup_keeps_first_per_uri_witness :
  Forall has_str_uri three_records
  /\ exists out,
    dedup three_records = inr out
    /\ sublist out three_records
    /\ (length out <= length three_records)%nat
    /\ NoDup ((fun r : record => r !! "uri") <$> out)
    /\ (forall r, r ∈ three_records -> exists r', r' ∈ out /\ r' !! "uri" = r !! "uri")
    /\ (forall r, r ∈ out -> exists i : nat,
          three_records !! i = Some r
          /\ forall (j : nat) r', (j < i)%nat -> three_records !! j = Some r' ->
               r' !! "uri" <> r !! "uri")
    /\ (forall self w, gather self w = inr three_records ->
          find_canon_printers self w = inr out).
Proof.
  assert (H : Forall has_str_uri three_records).
  { repeat apply Forall_cons_2; [eexists; reflexivity .. | apply Forall_nil_2]. }
  split; [exact H | exact (dedup_keeps_first_per_uri three_records H)].
Defined.

(** ** The first record with a given uri *)

Lemma lookup_uri_app (u : value) (l1 l2 : list record) :
  lookup_uri u (l1 ++ l2) = or_else (lookup_uri u l1) (lookup_uri u l2).
Proof.
  induction l1 as [|r l1 IH]; simpl; [done |].
  destruct (decide (r !! "uri" = Some u)); [done | exact IH].
Qed.

Lemma lookup_uri_Some (u : value) (l : list record) (r : record) :
  lookup_uri u l = Some r <->
  exists i : nat, l !! i = Some r /\ r !! "uri" = Some u
    /\ forall (j : nat) r', (j < i)%nat -> l !! j = Some r' -> r' !! "uri" <> Some u.
Proof.
  induction l as [|x l IH]; simpl.
  - split; [done | intros (i & Hi & _); by rewrite lookup_nil in Hi].
  - destruct (decide (x !! "uri" = Some u)) as [Hx | Hx].
    + split.
      * intros [= <-]. exists 0%nat. split_and!; [done | done |]. intros j r' Hj. lia.
      * intros ([|i] & Hi & Hu & Hlt); simpl in Hi; [congruence |].
        exfalso. apply (Hlt 0%nat x); [lia | done | done].
    + rewrite IH. split.
      * intros (i & Hi & Hu & Hlt). exists (S i). split_and!; [done | done |].
        intros [|j] r' Hj Hr'; simpl in Hr'; [congruence |].
        apply (Hlt j); [lia | done].
      * intros ([|i] & Hi & Hu & Hlt); simpl in Hi; [congruence |].
        exists i. split_and!; [done | done |].
        intros j r' Hj Hr'. apply (Hlt (S j)); [lia | done].
Qed.

Lemma lookup_uri_None (u : value) (l : list record) :
  lookup_uri u l = None <-> forall r, r ∈ l -> r !! "uri" <> Some u.
Proof.
  induction l as [|x l IH]; simpl.
  - split; [intros _ r Hr; by apply elem_of_nil in Hr | done].
  - destruct (decide (x !! "uri" = Some u)) as [Hx | Hx].
    + split; [done |]. intros H. exfalso. apply (H x); [by left | done].
    + rewrite IH. split.
      * intros H r Hr. apply elem_of_cons in Hr as [-> | Hr]; [done | by apply H].
      * intros H r Hr. apply H. by right.
Qed.

Lemma lookup_uri_Permutation_None (u : value) (l1 l2 : list record) :
  l1 ≡ₚ l2 -> lookup_uri u l1 = None <-> lookup_uri u l2 = None.
Proof.
  intros Hp. rewrite !lookup_uri_None.
  split; intros H r Hr; apply H; [by rewrite Hp | by rewrite <- Hp].
Qed.

(** The survivor for a uri is the first record of the input with it. *)
Lemma lookup_uri_dedup (printers out : list record) (u : value) :
  Forall has_str_uri printers ->
  dedup printers = inr out ->
  lookup_uri u out = lookup_uri u printers.
Proof.
  intros Hwf Hout.
  destruct (dedup_first_occurrences printers Hwf)
    as (out' & Hout' & Hsub & _ & Hcov & Hfirst).
  assert (out' = out) as -> by congruence.
  destruct (lookup_uri u printers) as [r|] eqn:Hl.
  - apply lookup_uri_Some in Hl as (i & Hi & Hu & Hlt).
    assert (Hkept : forall r', r' ∈ out -> r' !! "uri" = Some u -> r' = r).
    { intros r' Hr' Hu'. destruct (Hfirst r' Hr') as (i' & Hi' & Hlt').
      destruct (Nat.lt_trichotomy i i') as [Hlt1 | [-> | Hlt1]].
      - exfalso. apply (Hlt' i r Hlt1 Hi). congruence.
      - congruence.
      - exfalso. by apply (Hlt i' r' Hlt1 Hi'). }
    destruct (lookup_uri u out) as [r''|] eqn:Hl'.
    + apply lookup_uri_Some in Hl' as (k & Hk & Hu'' & _).
      f_equal. apply Hkept; [by eapply list_elem_of_lookup_2 | done].
    + exfalso. rewrite lookup_uri_None in Hl'.
      destruct (Hcov r) as (r' & Hr' & Hur'); [by eapply list_elem_of_lookup_2 |].
      apply (Hl' r' Hr'). congruence.
  - rewrite lookup_uri_None in Hl. apply lookup_uri_None.
    intros r Hr. apply Hl. by eapply elem_of_sublist.
Qed.

(** ** The records of the producers *)

(** Look a key up in a dict literal. *)
Ltac lookup_key :=
  repeat (rewrite lookup_insert_ne by done);
  first [ rewrite lookup_insert_eq | rewrite lookup_empty ];
  try reflexivity.

Section producer_records.

Context (self : CanonPrinterDiscovery) (w : World).

Lemma manual_record_uri (uri : string) (printer_info : record) :
  manual_record w uri printer_info !! "uri" = Some (VStr uri).
Proof. unfold manual_record. lookup_key. Qed.

Lemma manual_record_status (uri : string) (printer_info : record) :
  manual_record w uri printer_info !! "status"
  = Some (VStr (if test_printer_connection w uri then "Available" else "Offline")).
Proof. unfold manual_record. lookup_key. Qed.

Lemma manual_loop_has_uri (items : printers_cache_t) :
  Forall has_str_uri (manual_loop w items).
Proof.
  induction items as [|[uri printer_info] items IH]; simpl; [apply Forall_nil_2 |].
  destruct (truthy _); [| exact IH].
  apply Forall_cons_2; [| exact IH]. exists uri. apply manual_record_uri.
Qed.

Lemma get_manual_printers_has_uri :
  Forall has_str_uri (_get_manual_printers self w).
Proof.
  unfold _get_manual_printers. destruct (config_manager self).
  - apply manual_loop_has_uri.
  - apply Forall_nil_2.
Qed.

Lemma scan_port_has_uri (ip : string) (port : Z) (r : record) :
  scan_port self w ip port = Some r -> has_str_uri r.
Proof.
  unfold scan_port. intros H.
  destruct (_is_port_open w ip port 1000); [| done].
  destruct (_get_ipp_printer_info self w ip port) as [info|]; [| done].
  destruct (_is_canon_printer self (info_name info)); [| done].
  injection H as <-. eexists. lookup_key.
Qed.

Lemma scan_ports_found (ip : string) (ports : list Z) (r : record) :
  snd (scan_ports self w ip ports) = Some r ->
  exists port, port ∈ ports /\ scan_port self w ip port = Some r.
Proof.
  induction ports as [|port ports IH]; simpl; [done |].
  destruct (scan_port self w ip port) as [r'|] eqn:Hp; simpl.
  - intros [= <-]. exists port. split; [by left | done].
  - intros H. destruct (IH H) as (p & Hin & Hp'). exists p. split; [by right | done].
Qed.

Lemma submitted_has_uri (network_ranges : list Ipaddress.IPv4Network) :
  Forall has_str_uri (omap snd (submitted self w network_ranges)).
Proof.
  apply Forall_forall. intros r Hr.
  apply list_elem_of_omap in Hr as (f & Hf & Hr).
  unfold submitted in Hf. apply list_elem_of_fmap in Hf as (ip & -> & _).
  apply scan_ports_found in Hr as (port & _ & Hp).
  by eapply scan_port_has_uri.
Qed.

End producer_records.

Lemma omap_Permutation {A B : Type} (f : A -> option B) (l1 l2 : list A) :
  l1 ≡ₚ l2 -> omap f l1 ≡ₚ omap f l2.
Proof.
  induction 1 as [|x l1 l2 _ IH|x y l|l1 l2 l3 _ IH1 _ IH2]; simpl.
  - done.
  - destruct (f x); [by constructor | done].
  - destruct (f x), (f y); try done. apply perm_swap.
  - by etrans.
Qed.

Lemma traverse_common_networks :
  traverse (Ipaddress.IPv4Network_new true) common_networks
  = inr [ {| Ipaddress.network_address := 3232235776; Ipaddress.prefixlen := 24 |};
          {| Ipaddress.network_address := 3232235520; Ipaddress.prefixlen := 24 |};
          {| Ipaddress.network_address := 167772160; Ipaddress.prefixlen := 24 |};
          {| Ipaddress.network_address := 2886729728; Ipaddress.prefixlen := 24 |} ].
Proof. vm_compute. reflexivity. Qed.

(** The resolver never raises. *)
Lemma get_network_ranges_returns (w : World) :
  exists networks, _get_network_ranges w = inr networks.
Proof.
  unfold _get_network_ranges. destruct (route_networks w) as [e | networks].
  - rewrite traverse_common_networks. eauto.
  - by exists networks.
Qed.

(** The network scan returns, and what it returns is, up to the order of
    completion, what the submitted tasks found. *)
Lemma discover_network_printers_returns (self : CanonPrinterDiscovery) (w : World) :
  completes_all w ->
  exists network_ranges network,
    _get_network_ranges w = inr network_ranges
    /\ _discover_network_printers self w = inr network
    /\ network ≡ₚ omap snd (submitted self w network_ranges)
    /\ Forall has_str_uri network.
Proof.
  intros Hall. destruct (get_network_ranges_returns w) as [network_ranges Hr].
  exists network_ranges, (omap snd (as_completed w (submitted self w network_ranges))).
  assert (Hperm : omap snd (as_completed w (submitted self w network_ranges))
                  ≡ₚ omap snd (submitted self w network_ranges)).
  { apply omap_Permutation, Hall. }
  split_and!; [done | | done |].
  - unfold _discover_network_printers. by rewrite Hr.
  - rewrite Hperm. apply submitted_has_uri.
Qed.

Lemma mdns_line_has_uri (self : CanonPrinterDiscovery) (line : string) :
  Forall has_str_uri (mdns_line self line).
Proof.
  unfold mdns_line.
  repeat case_match; try apply Forall_nil_2.
  apply Forall_cons_2; [| apply Forall_nil_2].
  eexists. lookup_key.
Qed.

Lemma discover_mdns_printers_has_uri (self : CanonPrinterDiscovery) (w : World)
    (mdns : list record) :
  _discover_mdns_printers self w = inr mdns -> Forall has_str_uri mdns.
Proof.
  unfold _discover_mdns_printers.
  destruct (dns_sd_browse w) as [e | returncode stdout].
  - destruct (caught_by_mdns e); [| done]. intros [= <-]. apply Forall_nil_2.
  - destruct (returncode =? 0); intros [= <-]; [| apply Forall_nil_2].
    apply Forall_concat, Forall_fmap, Forall_forall.
    intros line _. apply mdns_line_has_uri.
Qed.

Lemma gather_concat (self : CanonPrinterDiscovery) (w : World)
    (network mdns : list record) :
  _discover_network_printers self w = inr network ->
  _discover_mdns_printers self w = inr mdns ->
  gather self w
  = inr (_get_manual_printers self w ++ get_system_printers w ++ network ++ mdns).
Proof.
  intros Hn Hm. unfold gather. rewrite Hn, Hm. simpl.
  unfold _get_manual_printers. destruct (config_manager self); simpl.
  - by rewrite <- !app_assoc.
  - by rewrite <- !app_assoc.
Qed.

(** ** The order of the sources *)

(** A change of the completion order touches the network scan only. *)
Section completion_order.

Context (self : CanonPrinterDiscovery) (w : World) (order : list future -> list future).

Lemma completes_all_with_order :
  (forall fs, order fs ≡ₚ fs) -> completes_all (with_order w order).
Proof. intros H fs. apply H. Qed.

Lemma manual_loop_with_order (items : printers_cache_t) :
  manual_loop (with_order w order) items = manual_loop w items.
Proof.
  induction items as [|[uri printer_info] items IH]; simpl; [done |].
  by rewrite IH.
Qed.

Lemma get_manual_printers_with_order :
  _get_manual_printers self (with_order w order) = _get_manual_printers self w.
Proof.
  unfold _get_manual_printers. destruct (config_manager self); [| done].
  apply manual_loop_with_order.
Qed.

Lemma scan_ports_with_order (ip : string) (ports : list Z) :
  scan_ports self (with_order w order) ip ports = scan_ports self w ip ports.
Proof.
  induction ports as [|port ports IH]; simpl; [done |].
  change (scan_port self (with_order w order) ip port) with (scan_port self w ip port).
  by rewrite IH.
Qed.

Lemma submitted_with_order (network_ranges : list Ipaddress.IPv4Network) :
  submitted self (with_order w order) network_ranges = submitted self w network_ranges.
Proof.
  unfold submitted. apply list_fmap_ext. intros _ ip _.
  apply scan_ports_with_order.
Qed.

End completion_order.

(** The surviving record of each uri, for one environment. *)
Lemma survivor_by_priority (self : CanonPrinterDiscovery) (w : World)
    (mdns : list record) :
  completes_all w ->
  Forall has_str_uri (get_system_printers w) ->
  _discover_mdns_printers self w = inr mdns ->
  exists network_ranges network out,
    _get_network_ranges w = inr network_ranges
    /\ network ≡ₚ omap snd (submitted self w network_ranges)
    /\ _discover_network_printers self w = inr network
    /\ find_canon_printers self w = inr out
    /\ NoDup ((fun r : record => r !! "uri") <$> out)
    /\ forall u,
         lookup_uri u out =
           or_else (lookup_uri u (_get_manual_printers self w))
          (or_else (lookup_uri u (get_system_printers w))
          (or_else (lookup_uri u network) (lookup_uri u mdns))).
Proof.
  intros Hall Hsys Hmdns.
  destruct (discover_network_printers_returns self w Hall)
    as (network_ranges & network & Hranges & Hnet & Hperm & Hnetwf).
  pose proof (gather_concat self w network mdns Hnet Hmdns) as Hg.
  assert (Hwf : Forall has_str_uri
                  (_get_manual_printers self w ++ get_system_printers w ++ network ++ mdns)).
  { rewrite !Forall_app. split_and!; try done.
    - apply get_manual_printers_has_uri.
    - by eapply discover_mdns_printers_has_uri. }
  destruct (dedup_first_occurrences _ Hwf) as (out & Hout & _ & Hnd & _).
  exists network_ranges, network, out. split_and!; try done.
  - unfold find_canon_printers. by rewrite Hg.
  - intros u. rewrite (lookup_uri_dedup _ out u Hwf Hout).
    by rewrite !lookup_uri_app.
Qed.

(** In a list without two records of the same uri, every record is the
    first one with its uri. *)
Lemma lookup_uri_NoDup (l : list record) (r : record) (u : value) :
  NoDup ((fun r : record => r !! "uri") <$> l) ->
  r ∈ l -> r !! "uri" = Some u -> lookup_uri u l = Some r.
Proof.
  induction l as [|x l IH]; intros Hnd Hr Hu; [by apply elem_of_nil in Hr |].
  rewrite fmap_cons in Hnd. apply NoDup_cons in Hnd as [Hx Hnd].
  cbn [lookup_uri]. apply elem_of_cons in Hr as [-> | Hr].
  - by rewrite decide_True.
  - rewrite decide_False; [by apply IH |].
    intros Hxu. apply Hx. apply list_elem_of_fmap. exists r. split; [congruence | done].
Qed.

(** C3. When the same uri comes from several of the four sources, the
    result of [find_canon_printers] holds exactly one record with that uri,
    and it is the first record with that uri of the earliest source that has
    one, in the order manual configuration, system, network scan, mDNS: no
    two records of the result share a uri, and a record is in the result
    only if it is that first record of its uri. A record of the manual
    configuration always survives a rediscovery of its uri. Another order of
    completion of the scan workers leaves the stage that wins each uri
    unchanged, and leaves the surviving record unchanged whenever it comes
    from the manual configuration or the system; the result again has no two
    records of the same uri. *)
Theorem dedup_priority_is_fixed (self : CanonPrinterDiscovery) (w : World)
    (mdns : list record) :
  completes_all w ->
  Forall has_str_uri (get_system_printers w) ->
  _discover_mdns_printers self w = inr mdns ->
  exists network out,
    _discover_network_printers self w = inr network
    /\ find_canon_printers self w = inr out
    /\ NoDup ((fun r : record => r !! "uri") <$> out)
    /\ (forall r u, r ∈ out -> r !! "uri" = Some u ->
          or_else (lookup_uri u (_get_manual_printers self w))
         (or_else (lookup_uri u (get_system_printers w))
         (or_else (lookup_uri u network) (lookup_uri u mdns))) = Some r)
    /\ (forall u,
         lookup_uri u out =
           or_else (lookup_uri u (_get_manual_printers self w))
          (or_else (lookup_uri u (get_system_printers w))
          (or_else (lookup_uri u network) (lookup_uri u mdns))))
    /\ (forall u m, lookup_uri u (_get_manual_printers self w) = Some m ->
          lookup_uri u out = Some m)
    /\ (forall order, (forall fs, order fs ≡ₚ fs) ->
          exists network' out',
            _discover_network_printers self (with_order w order) = inr network'
            /\ network' ≡ₚ network
            /\ find_canon_printers self (with_order w order) = inr out'
            /\ NoDup ((fun r : record => r !! "uri") <$> out')
            /\ forall u,
                 (lookup_uri u network' = None <-> lookup_uri u network = None)
                 /\ (is_Some (lookup_uri u (_get_manual_printers self w))
                     \/ is_Some (lookup_uri u (get_system_printers w))
                     \/ lookup_uri u network = None ->
                     lookup_uri u out' = lookup_uri u out)).
Proof.
  intros Hall Hsys Hmdns.
  destruct (survivor_by_priority self w mdns Hall Hsys Hmdns)
    as (network_ranges & network & out & Hranges & Hperm & Hnet & Hout & Hnd & Hlook).
  exists network, out. split_and!; try done.
  - intros r u Hr Hu. rewrite <- Hlook. by apply lookup_uri_NoDup.
  - intros u m Hm. by rewrite Hlook, Hm.
  - intros order Horder.
    destruct (survivor_by_priority self (with_order w order) mdns
                (completes_all_with_order w order Horder) Hsys Hmdns)
      as (network_ranges' & network' & out' & Hranges' & Hperm' & Hnet' & Hout' & Hnd'
          & Hlook').
    change (_get_network_ranges (with_order w order)) with (_get_network_ranges w) in Hranges'.
    assert (network_ranges' = network_ranges) as -> by congruence.
    rewrite submitted_with_order in Hperm'.
    assert (Hpp : network' ≡ₚ network) by (by rewrite Hperm, Hperm').
    exists network', out'. split_and!; try done.
    intros u. split; [by apply lookup_uri_Permutation_None |].
    rewrite Hlook', Hlook, get_manual_printers_with_order.
    change (get_system_printers (with_order w order)) with (get_system_printers w).
    intros [[m Hm] | [[s Hs] | Hn]].
    + by rewrite Hm.
    + by rewrite Hs.
    + apply (lookup_uri_Permutation_None u network' network Hpp) in Hn as Hn'.
      by rewrite Hn, Hn'.
Qed.


(** The manual record of the office printer survives its rediscovery by
    the network scan, whatever the order of completion. *)
Lemma dedup_priority_is_fixed_witness :
  completes_all office_world
  /\ Forall has_str_uri (get_system_printers office_world)
  /\ _discover_mdns_printers office_discovery office_world = inr [office_mdns_record]
  /\ exists out,
       find_canon_printers office_discovery office_world = inr out
       /\ NoDup ((fun r : record => r !! "uri") <$> out)
       /\ lookup_uri (VStr office_uri) out = Some office_record.
Proof.
  assert (H1 : completes_all office_world).
  { intros fs. apply reverse_Permutation. }
  assert (H2 : Forall has_str_uri (get_system_printers office_world)).
  { apply Forall_cons_2; [by exists office_uri | apply Forall_nil_2]. }
  assert (H3 : _discover_mdns_printers office_discovery office_world
               = inr [office_mdns_record]).
  { vm_compute. reflexivity. }
  split_and!; [exact H1 | exact H2 | exact H3 |].
  destruct (dedup_priority_is_fixed office_discovery office_world
              [office_mdns_record] H1 H2 H3)
    as (network & out & _ & Hout & Hnd & _ & _ & Hmanual & _).
  exists out. split_and!; [exact Hout | exact Hnd |].
  apply Hmanual. vm_compute. reflexivity.
Defined.

Example office_printer_found_once :
  find_canon_printers office_discovery office_world
  = inr [office_record; office_mdns_record].
Proof. vm_compute. reflexivity. Qed.

(** ** The manual configuration *)

Lemma manual_loop_map_filter (w : World) (items : printers_cache_t) :
  manual_loop w items
  = (fun item => manual_record w item.1 item.2) <$> List.filter manually_added items.
Proof.
  induction items as [|[uri printer_info] items IH]; simpl; [done |].
  unfold manually_added at 1. simpl.
  destruct (truthy _); simpl; by rewrite IH.
Qed.

(** C7. Every cache entry flagged as manually added has its record in the
    contribution of the manual configuration, whatever the connectivity
    test says: the record carries the uri of the entry, its status is
    [Available] when [test_printer_connection] succeeds and [Offline] when
    it fails, and the contribution has one record per flagged entry. *)
Theorem manual_entries_are_never_dropped (self : CanonPrinterDiscovery) (w : World)
    (cache : printers_cache_t) (uri : string) (printer_info : record) :
  config_manager self = Some cache ->
  (uri, printer_info) ∈ cache ->
  truthy (get printer_info "manually_added" (VBool false)) = true ->
  exists r,
    r ∈ _get_manual_printers self w
    /\ r !! "uri" = Some (VStr uri)
    /\ (test_printer_connection w uri = true -> r !! "status" = Some (VStr "Available"))
    /\ (test_printer_connection w uri = false -> r !! "status" = Some (VStr "Offline"))
    /\ length (_get_manual_printers self w) = length (List.filter manually_added cache).
Proof.
  intros Hcm Hin Hflag. exists (manual_record w uri printer_info).
  unfold _get_manual_printers. rewrite Hcm, manual_loop_map_filter.
  split_and!.
  - apply list_elem_of_fmap. exists (uri, printer_info). split; [done |].
    apply list_elem_of_In, filter_In. split; [by apply list_elem_of_In | done].
  - apply manual_record_uri.
  - intros Hon. by rewrite manual_record_status, Hon.
  - intros Hoff. by rewrite manual_record_status, Hoff.
  - by rewrite length_fmap.
Qed.

(** The office printer, once with the printer answering and once with
    nobody answering. *)
Lemma manual_entries_are_never_dropped_witness :
  (exists r,
      r ∈ _get_manual_printers office_discovery office_world
      /\ r !! "uri" = Some (VStr office_uri)
      /\ r !! "status" = Some (VStr "Available"))
  /\ (exists r,
      r ∈ _get_manual_printers office_discovery quiet_world
      /\ r !! "uri" = Some (VStr office_uri)
      /\ r !! "status" = Some (VStr "Offline")).
Proof.
  assert (Hin : (office_uri, office_cache_entry) ∈ office_cache) by (by left).
  split.
  - destruct (manual_entries_are_never_dropped office_discovery office_world
                office_cache office_uri office_cache_entry eq_refl Hin eq_refl)
      as (r & Hr & Hu & Hon & _ & _).
    exists r. split_and!; [exact Hr | exact Hu | exact (Hon eq_refl)].
  - destruct (manual_entries_are_never_dropped office_discovery quiet_world
                office_cache office_uri office_cache_entry eq_refl Hin eq_refl)
      as (r & Hr & Hu & _ & Hoff & _).
    exists r. split_and!; [exact Hr | exact Hu | exact (Hoff eq_refl)].
Defined.

(** ** The capabilities *)

Lemma dedup_loop_sublist (printers : list record) :
  forall acc res, dedup_loop acc printers = inr res ->
  exists new, res = acc ++ new /\ sublist (new.*2) printers.
Proof.
  induction printers as [|printer printers IH]; intros acc res; simpl.
  - intros [= <-]. exists []. by rewrite app_nil_r.
  - unfold getitem. destruct (printer !! "uri") as [uri|]; simpl; [| done].
    case_bool_decide as Hseen.
    + intros Hrun. destruct (IH _ _ Hrun) as (new & -> & Hsub).
      exists new. split; [done | by apply sublist_cons].
    + intros Hrun. destruct (IH _ _ Hrun) as (new & -> & Hsub).
      exists ((uri, printer) :: new). split; [by rewrite <- app_assoc |].
      simpl. by apply sublist_skip.
Qed.

(** Whatever [find_canon_printers] returns was gathered from a producer. *)
Lemma find_canon_printers_sublist (self : CanonPrinterDiscovery) (w : World)
    (out : list record) :
  find_canon_printers self w = inr out ->
  exists printers, gather self w = inr printers /\ sublist out printers.
Proof.
  unfold find_canon_printers. destruct (gather self w) as [e | printers]; simpl; [done |].
  unfold dedup. destruct (dedup_loop [] printers) as [e | res] eqn:Hrun; simpl; [done |].
  intros [= <-]. destruct (dedup_loop_sublist _ _ _ Hrun) as (new & -> & Hsub).
  by exists printers.
Qed.

Lemma gather_inv (self : CanonPrinterDiscovery) (w : World) (printers : list record) :
  gather self w = inr printers ->
  exists network mdns,
    _discover_network_printers self w = inr network
    /\ _discover_mdns_printers self w = inr mdns
    /\ printers = _get_manual_printers self w ++ get_system_printers w ++ network ++ mdns.
Proof.
  intros Hg.
  destruct (_discover_network_printers self w) as [e | network] eqn:Hn.
  { unfold gather in Hg. by rewrite Hn in Hg. }
  destruct (_discover_mdns_printers self w) as [e | mdns] eqn:Hm.
  { unfold gather in Hg. by rewrite Hn, Hm in Hg. }
  exists network, mdns. split_and!; [done | done |].
  rewrite (gather_concat self w network mdns Hn Hm) in Hg. congruence.
Qed.

Lemma manual_loop_no_capabilities (w : World) (items : printers_cache_t) :
  Forall (fun r : record => r !! "capabilities" = None) (manual_loop w items).
Proof.
  induction items as [|[uri printer_info] items IH]; simpl; [apply Forall_nil_2 |].
  destruct (truthy _); [| exact IH].
  apply Forall_cons_2; [| exact IH]. unfold manual_record. lookup_key.
Qed.

Lemma scan_port_no_capabilities (self : CanonPrinterDiscovery) (w : World)
    (ip : string) (port : Z) (r : record) :
  scan_port self w ip port = Some r -> r !! "capabilities" = None.
Proof.
  unfold scan_port. intros H.
  destruct (_is_port_open w ip port 1000); [| done].
  destruct (_get_ipp_printer_info self w ip port) as [info|]; [| done].
  destruct (_is_canon_printer self (info_name info)); [| done].
  injection H as <-. lookup_key.
Qed.

Lemma mdns_line_no_capabilities (self : CanonPrinterDiscovery) (line : string) :
  Forall (fun r : record => r !! "capabilities" = None) (mdns_line self line).
Proof.
  unfold mdns_line.
  repeat case_match; try apply Forall_nil_2.
  apply Forall_cons_2; [| apply Forall_nil_2]. lookup_key.
Qed.

Lemma get_printer_capabilities_default (printer_uri : string) :
  get_printer_capabilities printer_uri = default_capabilities.
Proof. vm_compute. reflexivity. Qed.

(** The claim C6 as the specification states it fails: the scan of the
    office network returns a record that has no capabilities at all. *)
Lemma final_records_lack_capabilities :
  ~ (forall self w out r,
       find_canon_printers self w = inr out -> r ∈ out ->
       is_Some (r !! "capabilities")).
Proof.
  intros H.
  assert (Hin : office_record ∈ [office_record; office_mdns_record]) by (by left).
  destruct (H office_discovery office_world [office_record; office_mdns_record]
              office_record office_printer_found_once Hin) as [c Hc].
  vm_compute in Hc. discriminate Hc.
Qed.

(** C6, amended. [find_canon_printers] attaches nothing: each record of
    its result is a record that the system enumeration handed over, or a
    record of the manual configuration, the network scan or mDNS, and those
    have no ["capabilities"] key. The default descriptor (duplex, colour, 99
    copies, five media, three qualities) is what the separate query
    [get_printer_capabilities] returns, for every uri alike. *)
Theorem capabilities_are_a_separate_query (self : CanonPrinterDiscovery) (w : World)
    (out : list record) (r : record) :
  completes_all w ->
  find_canon_printers self w = inr out ->
  r ∈ out ->
  (r ∈ get_system_printers w \/ r !! "capabilities" = None)
  /\ (forall printer_uri,
        get_printer_capabilities printer_uri = default_capabilities
        /\ get_printer_capabilities printer_uri !! "duplex" = Some (VBool true)
        /\ get_printer_capabilities printer_uri !! "color" = Some (VBool true)
        /\ get_printer_capabilities printer_uri !! "max_copies" = Some (VInt 99)
        /\ get_printer_capabilities printer_uri !! "supported_media"
           = Some (VList ["A4"; "Letter"; "Legal"; "4x6"; "5x7"])
        /\ get_printer_capabilities printer_uri !! "supported_quality"
           = Some (VList ["draft"; "normal"; "high"])).
Proof.
  intros Hall Hout Hr. split.
  - destruct (find_canon_printers_sublist self w out Hout) as (printers & Hg & Hsub).
    destruct (gather_inv self w printers Hg) as (network & mdns & Hn & Hm & ->).
    pose proof (elem_of_sublist _ _ _ Hr Hsub) as Hin.
    rewrite !elem_of_app in Hin. destruct Hin as [Hman | [Hsys | [Hnet | Hmd]]].
    + right. unfold _get_manual_printers in Hman.
      destruct (config_manager self); [| by apply elem_of_nil in Hman].
      pose proof (manual_loop_no_capabilities w p) as Hno.
      rewrite Forall_forall in Hno. by apply Hno.
    + by left.
    + right.
      destruct (discover_network_printers_returns self w Hall)
        as (network_ranges & network' & _ & Hn' & Hperm & _).
      assert (network' = network) as -> by congruence.
      rewrite Hperm in Hnet. apply list_elem_of_omap in Hnet as (f & Hf & Hfr).
      apply list_elem_of_fmap in Hf as (ip & -> & _).
      apply scan_ports_found in Hfr as (port & _ & Hp).
      by eapply scan_port_no_capabilities.
    + right. unfold _discover_mdns_printers in Hm.
      destruct (dns_sd_browse w) as [e | returncode stdout].
      * destruct (caught_by_mdns e); [| done].
        injection Hm as <-. by apply elem_of_nil in Hmd.
      * destruct (returncode =? 0); injection Hm as <-; [| by apply elem_of_nil in Hmd].
        apply list_elem_of_In, in_concat in Hmd as (l & Hl & Hrl).
        apply list_elem_of_In in Hl, Hrl.
        apply list_elem_of_fmap in Hl as (line & -> & _).
        pose proof (mdns_line_no_capabilities self line) as Hno.
        rewrite Forall_forall in Hno. by apply Hno.
  - intros printer_uri. rewrite get_printer_capabilities_default.
    split_and!; reflexivity.
Qed.

Lemma capabilities_are_a_separate_query_witness :
  completes_all office_world
  /\ find_canon_printers office_discovery office_world
     = inr [office_record; office_mdns_record]
  /\ office_record ∈ [office_record; office_mdns_record]
  /\ office_record !! "capabilities" = None
  /\ get_printer_capabilities office_uri = default_capabilities.
Proof.
  assert (H1 : completes_all office_world).
  { intros fs. apply reverse_Permutation. }
  assert (H3 : office_record ∈ [office_record; office_mdns_record]) by (by left).
  destruct (capabilities_are_a_separate_query office_discovery office_world
              [office_record; office_mdns_record] office_record
              H1 office_printer_found_once H3)
    as [Hrec Hcap].
  split_and!; [exact H1 | exact office_printer_found_once | exact H3 | |].
  - reflexivity.
  - apply Hcap.
Defined.

(** ** The resolver of network ranges *)

(** When the [route] command raises, or its gateway cannot be parsed, the
    resolver returns the four common networks. *)
Lemma get_network_ranges_fallback (w : World) (e : exn) :
  route_networks w = inl e ->
  _get_network_ranges w
  = inr [ {| Ipaddress.network_address := 3232235776; Ipaddress.prefixlen := 24 |};
          {| Ipaddress.network_address := 3232235520; Ipaddress.prefixlen := 24 |};
          {| Ipaddress.network_address := 167772160; Ipaddress.prefixlen := 24 |};
          {| Ipaddress.network_address := 2886729728; Ipaddress.prefixlen := 24 |} ].
Proof.
  intros H. unfold _get_network_ranges. rewrite H. apply traverse_common_networks.
Qed.

Lemma get_network_ranges_nonzero_exit (w : World) (returncode : Z) (stdout : string) :
  route_get_default w = Completed returncode stdout ->
  returncode <> 0 ->
  _get_network_ranges w = inr [].
Proof.
  intros H Hrc. unfold _get_network_ranges, route_networks. rewrite H.
  destruct (Z.eqb_spec returncode 0); [done | reflexivity].
Qed.

(** C4, at the failing inputs. When [route] exits with a status other than
    zero, or exits with zero and prints no gateway line, the resolver
    returns the empty list, not the four common networks; it does not
    raise. *)
Theorem get_network_ranges_empty_without_gateway :
  _get_network_ranges no_route_world = inr []
  /\ _get_network_ranges no_gateway_world = inr []
  /\ _discover_network_printers (__init__ None) no_route_world = inr [].
Proof. split_and!; reflexivity. Qed.

(** ** The probe of one endpoint *)

Lemma lower_app (a b : string) :
  PyStr.lower (a +:+ b) = PyStr.lower a +:+ PyStr.lower b.
Proof.
  unfold PyStr.lower. induction a as [|c a IH]; [done |].
  rewrite append_cons. simpl. rewrite append_cons. by rewrite IH.
Qed.

(** The name made from the address always passes the classifier. *)
Lemma synthesized_name_is_canon (self : CanonPrinterDiscovery) (ip : string) :
  "canon" ∈ canon_keywords self ->
  _is_canon_printer self ("Canon Printer at " +:+ ip) = true.
Proof.
  intros Hin. unfold _is_canon_printer. apply any_keyword_spec.
  exists "canon", EmptyString, (" printer at " +:+ PyStr.lower ip).
  split; [done |]. by rewrite lower_app.
Qed.

Lemma scan_port_unfold (self : CanonPrinterDiscovery) (w : World)
    (ip : string) (port : Z) (response : response) :
  _is_port_open w ip port 1000 = true ->
  requests_get w (banner_url ip port) 3 = Some response ->
  status_code response = 200 ->
  scan_port self w ip port =
    if any_keyword self (PyStr.lower (text response))
       && _is_canon_printer self (banner_name ip (text response))
    then Some (<["name" := VStr (banner_name ip (text response))]>
               (<["uri" := VStr ("ipp://" +:+ ip +:+ ":" +:+ PyStr.show port +:+ "/ipp/print")]>
               (<["status" := VStr "Available"]>
               (<["model" := VStr (_extract_model (banner_name ip (text response)))]>
               (<["source" := VStr "network_scan"]> ∅)))))
    else None.
Proof.
  intros Hopen Hget Hok. unfold scan_port, _get_ipp_printer_info.
  rewrite Hopen, Hget, Hok. simpl.
  destruct (any_keyword self (PyStr.lower (text response))); simpl; [| done].
  by destruct (_is_canon_printer self (banner_name ip (text response))).
Qed.

(** The claim C5 as the specification states it fails: the endpoint
    answers, its page names the vendor in the body, and no record is
    produced, because the title of the page does not. *)
Lemma keyword_in_body_is_not_enough :
  ~ (forall self w ip port response,
       _is_port_open w ip port 1000 = true ->
       requests_get w (banner_url ip port) 3 = Some response ->
       status_code response = 200 ->
       any_keyword self (PyStr.lower (text response)) = true ->
       is_Some (scan_port self w ip port)).
Proof.
  intros H.
  destruct (H scanner_631 status_page_world "192.168.1.5" 631
              {| status_code := 200; text := status_page |}
              eq_refl eq_refl eq_refl eq_refl) as [r Hr].
  vm_compute in Hr. discriminate Hr.
Qed.

Example status_page_host_is_discarded :
  _discover_network_printers scanner_631 status_page_world = inr [].
Proof. vm_compute. reflexivity. Qed.

(** C5, amended. For an endpoint that accepts the connection and answers
    the GET with status 200, a record is produced exactly when the
    lower-cased body contains a keyword and the display name passes the
    classifier as well; otherwise the endpoint is passed over. The display
    name is the first title element of the page when there is one, and
    [Canon Printer at <ip>] otherwise; the latter passes the classifier
    whenever [canon] is a keyword. *)
Theorem record_needs_keyword_in_body_and_name (self : CanonPrinterDiscovery) (w : World)
    (ip : string) (port : Z) (response : response) :
  _is_port_open w ip port 1000 = true ->
  requests_get w (banner_url ip port) 3 = Some response ->
  status_code response = 200 ->
  (any_keyword self (PyStr.lower (text response)) = true ->
   _is_canon_printer self (banner_name ip (text response)) = true ->
   exists r, scan_port self w ip port = Some r
     /\ r !! "name" = Some (VStr (banner_name ip (text response)))
     /\ r !! "uri" = Some (VStr ("ipp://" +:+ ip +:+ ":" +:+ PyStr.show port +:+ "/ipp/print"))
     /\ r !! "source" = Some (VStr "network_scan"))
  /\ (any_keyword self (PyStr.lower (text response)) = false
      \/ _is_canon_printer self (banner_name ip (text response)) = false ->
      scan_port self w ip port = None)
  /\ (forall m, Re.search true title_pattern (text response) = Some m ->
        banner_name ip (text response) = snd m)
  /\ (Re.search true title_pattern (text response) = None ->
        banner_name ip (text response) = "Canon Printer at " +:+ ip
        /\ ("canon" ∈ canon_keywords self ->
            _is_canon_printer self (banner_name ip (text response)) = true)).
Proof.
  intros Hopen Hget Hok.
  rewrite (scan_port_unfold self w ip port response Hopen Hget Hok).
  split_and!.
  - intros Hbody Hname. rewrite Hbody, Hname. simpl.
    eexists. split; [reflexivity |]. split_and!; lookup_key.
  - intros [Hbody | Hname].
    + by rewrite Hbody.
    + by rewrite Hname, andb_false_r.
  - intros m Hm. unfold banner_name. by rewrite Hm.
  - intros Hm. unfold banner_name. rewrite Hm. split; [done |].
    apply synthesized_name_is_canon.
Qed.

Lemma record_needs_keyword_in_body_and_name_witness :
  (exists r, scan_port scanner_631 ts3400_world "192.168.1.5" 631 = Some r
     /\ r !! "name" = Some (VStr "Canon PIXMA TS3400"))
  /\ scan_port scanner_631 status_page_world "192.168.1.5" 631 = None.
Proof.
  split.
  - destruct (record_needs_keyword_in_body_and_name scanner_631 ts3400_world
                "192.168.1.5" 631 {| status_code := 200; text := ts3400_page |}
                eq_refl eq_refl eq_refl) as (Hyes & _ & _ & _).
    destruct (Hyes eq_refl eq_refl) as (r & Hr & Hname & _).
    exists r. split; [exact Hr | exact Hname].
  - destruct (record_needs_keyword_in_body_and_name scanner_631 status_page_world
                "192.168.1.5" 631 {| status_code := 200; text := status_page |}
                eq_refl eq_refl eq_refl) as (_ & Hno & _ & _).
    apply Hno. right. reflexivity.
Defined.

(** ** The sweep *)

(** The connect attempts of one host: the ports in their order, up to the
    first one on which the host yields a record. *)
Lemma scan_ports_probes (self : CanonPrinterDiscovery) (w : World)
    (ip : string) (ports : list Z) (port : Z) :
  (ip, port) ∈ fst (scan_ports self w ip ports) <->
  exists i : nat, ports !! i = Some port
    /\ forall (j : nat) p, (j < i)%nat -> ports !! j = Some p ->
         scan_port self w ip p = None.
Proof.
  induction ports as [|port0 ports IH]; simpl.
  - split; [intros H; by apply elem_of_nil in H |].
    intros (i & Hi & _). by rewrite lookup_nil in Hi.
  - destruct (scan_port self w ip port0) as [r|] eqn:Hp0; simpl.
    + split.
      * intros H. apply list_elem_of_singleton in H. injection H as ->.
        exists 0%nat. split; [done |]. intros j p Hj. lia.
      * intros ([|i] & Hi & Hlt); simpl in Hi.
        -- injection Hi as ->. by left.
        -- exfalso. specialize (Hlt 0%nat port0). simpl in Hlt.
           rewrite Hp0 in Hlt. discriminate Hlt; [lia | done].
    + rewrite elem_of_cons, IH. split.
      * intros [Heq | (i & Hi & Hlt)].
        -- injection Heq as ->. exists 0%nat. split; [done |]. intros j p Hj. lia.
        -- exists (S i). split; [done |].
           intros [|j] p Hj Hjp; simpl in Hjp; [congruence |].
           apply (Hlt j); [lia | done].
      * intros ([|i] & Hi & Hlt); simpl in Hi.
        -- left. congruence.
        -- right. exists i. split; [done |].
           intros j p Hj Hjp. apply (Hlt (S j)); [lia | done].
Qed.

Lemma scan_ports_no_match (self : CanonPrinterDiscovery) (w : World)
    (ip : string) (ports : list Z) :
  snd (scan_ports self w ip ports) = None ->
  fst (scan_ports self w ip ports) = (fun port => (ip, port)) <$> ports.
Proof.
  induction ports as [|port ports IH]; simpl; [done |].
  destruct (scan_port self w ip port); simpl; [done |].
  intros H. by rewrite IH.
Qed.

(** The claim C8 as the specification states it fails: with the four
    default ports, the host that matches on port 631 is never tried on
    port 9100. *)
Lemma later_ports_are_skipped_after_a_match :
  ~ (forall self w network_ranges probes,
       completes_all w ->
       _get_network_ranges w = inr network_ranges ->
       probes_made self w = inr probes ->
       forall net a port,
         net ∈ network_ranges -> a ∈ Ipaddress.addresses net -> port ∈ ipp_ports self ->
         (Ipaddress.str a, port) ∈ probes).
Proof.
  intros H.
  pose (net := {| Ipaddress.network_address := 3232235776; Ipaddress.prefixlen := 24 |}).
  pose (probes := concat (fst <$> submitted (__init__ None) ts3400_world [net])).
  assert (Hall : completes_all ts3400_world) by (by intros fs).
  assert (Hno : bool_decide (("192.168.1.5", 9100) ∈ probes) = false).
  { vm_compute. reflexivity. }
  apply bool_decide_eq_false in Hno. apply Hno.
  apply (H (__init__ None) ts3400_world [net] probes Hall eq_refl eq_refl
           net 3232235781 9100).
  - by left.
  - apply (bool_decide_unpack _). vm_compute. exact I.
  - apply (bool_decide_unpack _). vm_compute. exact I.
Qed.

(** C8, amended. The sweep submits one task per address of every resolved
    range and returns only when all of them are done: the task of every
    address is among the completed ones and the record it found, if any, is
    in the result, which holds nothing else. Inside a task the ports are
    tried in the configured order up to the first port on which the host
    yields a record; the ports after it are not tried, and a host that
    yields no record is tried on every port. *)
Theorem sweep_tries_every_host (self : CanonPrinterDiscovery) (w : World) :
  completes_all w ->
  exists network_ranges network,
    _get_network_ranges w = inr network_ranges
    /\ _discover_network_printers self w = inr network
    /\ network ≡ₚ omap snd (submitted self w network_ranges)
    /\ length (submitted self w network_ranges)
       = length (concat (Ipaddress.addresses <$> network_ranges))
    /\ (forall net a, net ∈ network_ranges -> a ∈ Ipaddress.addresses net ->
          _scan_host_for_ipp self w (Ipaddress.str a)
            ∈ as_completed w (submitted self w network_ranges)
          /\ forall r, snd (_scan_host_for_ipp self w (Ipaddress.str a)) = Some r ->
               r ∈ network)
    /\ (forall ip port,
          (ip, port) ∈ fst (_scan_host_for_ipp self w ip) <->
          exists i : nat, ipp_ports self !! i = Some port
            /\ forall (j : nat) p, (j < i)%nat -> ipp_ports self !! j = Some p ->
                 scan_port self w ip p = None)
    /\ (forall ip, snd (_scan_host_for_ipp self w ip) = None ->
          fst (_scan_host_for_ipp self w ip) = (fun port => (ip, port)) <$> ipp_ports self).
Proof.
  intros Hall.
  destruct (discover_network_printers_returns self w Hall)
    as (network_ranges & network & Hranges & Hnet & Hperm & _).
  exists network_ranges, network.
  assert (Hsub : forall net a, net ∈ network_ranges -> a ∈ Ipaddress.addresses net ->
            _scan_host_for_ipp self w (Ipaddress.str a) ∈ submitted self w network_ranges).
  { intros net a Hn Ha. unfold submitted.
    apply list_elem_of_fmap. exists a. split; [done |].
    apply list_elem_of_In, in_concat. exists (Ipaddress.addresses net).
    split; apply list_elem_of_In; [| done].
    apply list_elem_of_fmap. by exists net. }
  split_and!; try done.
  - unfold submitted. by rewrite length_fmap.
  - intros net a Hn Ha. split.
    + rewrite (Hall _). by eapply Hsub.
    + intros r Hr. rewrite Hperm. apply list_elem_of_omap.
      exists (_scan_host_for_ipp self w (Ipaddress.str a)). split; [by eapply Hsub | done].
  - intros ip port. apply scan_ports_probes.
  - intros ip. apply scan_ports_no_match.
Qed.

Lemma sweep_tries_every_host_witness :
  completes_all ts3400_world
  /\ exists network_ranges network,
       _get_network_ranges ts3400_world = inr network_ranges
       /\ _discover_network_printers (__init__ None) ts3400_world = inr network
       /\ length (submitted (__init__ None) ts3400_world network_ranges)
          = length (concat (Ipaddress.addresses <$> network_ranges)).
Proof.
  assert (Hall : completes_all ts3400_world) by (by intros fs).
  split; [exact Hall |].
  destruct (sweep_tries_every_host (__init__ None) ts3400_world Hall)
    as (network_ranges & network & Hr & Hn & _ & Hlen & _).
  exists network_ranges, network. split_and!; [exact Hr | exact Hn | exact Hlen].
Defined.

(** ** The title of a page and the model of a device *)

Lemma lit_char_match (a c : ascii) :
  Re.cset_match true (Re.CLit a) c = bool_decide (PyStr.lower_char a = PyStr.lower_char c).
Proof. reflexivity. Qed.

Ltac split_char_tests :=
  repeat (let Hd := fresh "Hd" in
          case_bool_decide as Hd;
          [ first [ by vm_compute in Hd | idtac ] | reflexivity ]).

Lemma no_match_before_title (c : ascii) (pre post : string) :
  PyStr.startswith "<title>" (PyStr.lower (String c pre)) = false ->
  Re.match_here true title_pattern false (String c pre +:+ ts3400_title +:+ post) = None.
Proof.
  intros H.
  destruct pre as [|c2 [|c3 [|c4 [|c5 [|c6 [|c7 pre]]]]]].
  all: unfold ts3400_title; rewrite ?append_cons, ?append_nil.
  all: unfold PyStr.lower in H; cbn [PyStr.map_chars PyStr.startswith] in H.
  all: unfold title_pattern; cbn [Re.lit list_ascii_of_string fmap list_fmap app Re.group Re.match_here].
  all: rewrite ?lit_char_match.
  all: split_char_tests.
  exfalso.
  change (PyStr.lower_char "<") with "<"%char in *.
  change (PyStr.lower_char "t") with "t"%char in *.
  change (PyStr.lower_char "i") with "i"%char in *.
  change (PyStr.lower_char "l") with "l"%char in *.
  change (PyStr.lower_char "e") with "e"%char in *.
  change (PyStr.lower_char ">") with ">"%char in *.
  rewrite !decide_True in H by done. discriminate H.
Qed.

Lemma search_cons (ic : bool) (re : list Re.node) (c : ascii) (s : string) :
  Re.search ic re (String c s) =
    match Re.match_here ic re false (String c s) with
    | Some m => Some m
    | None => Re.search ic re s
    end.
Proof. reflexivity. Qed.

Lemma title_found (pre post : string) :
  PyStr.contains "<title>" (PyStr.lower pre) = false ->
  Re.search true title_pattern (pre +:+ ts3400_title +:+ post)
  = Some (ts3400_title, "Canon PIXMA TS3400").
Proof.
  induction pre as [|c pre IH]; intros H.
  - rewrite append_nil. vm_compute. reflexivity.
  - change (PyStr.lower (String c pre))
      with (String (PyStr.lower_char c) (PyStr.lower pre)) in H.
    cbn [PyStr.contains] in H. apply orb_false_iff in H as [Hhere Hlater].
    rewrite append_cons, search_cons, <- append_cons.
    rewrite (no_match_before_title c pre post Hhere).
    by apply IH.
Qed.

Lemma append_assoc (a b c : string) : (a +:+ b) +:+ c = a +:+ (b +:+ c).
Proof. induction a as [|x a IH]; [done |]. rewrite !append_cons. by rewrite IH. Qed.

Lemma first_match_None (ps : list (list Re.node)) (s : string) :
  first_match ps s = None <-> forall p, p ∈ ps -> Re.search false p s = None.
Proof.
  induction ps as [|p ps IH]; simpl.
  - split; [intros _ p Hp; by apply elem_of_nil in Hp | done].
  - destruct (Re.search false p s) as [m|] eqn:Hm.
    + split; [done |]. intros H. rewrite (H p) in Hm; [done | by left].
    + rewrite IH. split.
      * intros H q Hq. apply elem_of_cons in Hq as [-> | Hq]; [done | by apply H].
      * intros H q Hq. apply H. by right.
Qed.

Lemma first_match_Some (ps : list (list Re.node)) (s : string) (m : Re.found) :
  first_match ps s = Some m <->
  exists (i : nat) p, ps !! i = Some p /\ Re.search false p s = Some m
    /\ forall (j : nat) q, (j < i)%nat -> ps !! j = Some q -> Re.search false q s = None.
Proof.
  induction ps as [|p ps IH]; simpl.
  - split; [done |]. intros (i & q & Hi & _). by rewrite lookup_nil in Hi.
  - destruct (Re.search false p s) as [m'|] eqn:Hm.
    + split.
      * intros [= <-]. exists 0%nat, p. split_and!; [done | done |]. intros j q Hj. lia.
      * intros ([|i] & q & Hi & Hq & Hlt); simpl in Hi.
        -- congruence.
        -- rewrite (Hlt 0%nat p) in Hm; [done | lia | done].
    + rewrite IH. split.
      * intros (i & q & Hi & Hq & Hlt). exists (S i), q. split_and!; [done | done |].
        intros [|j] q' Hj Hq'; simpl in Hq'; [congruence |]. apply (Hlt j); [lia | done].
      * intros ([|i] & q & Hi & Hq & Hlt); simpl in Hi; [congruence |].
        exists i, q. split_and!; [done | done |].
        intros j q' Hj Hq'. apply (Hlt (S j)); [lia | done].
Qed.

Lemma title_page_has_keyword (self : CanonPrinterDiscovery) (pre post : string) :
  "canon" ∈ canon_keywords self ->
  any_keyword self (PyStr.lower (pre +:+ ts3400_title +:+ post)) = true.
Proof.
  intros Hin. apply any_keyword_spec.
  exists "canon", (PyStr.lower pre +:+ "<title>"),
    (" pixma ts3400</title>" +:+ PyStr.lower post).
  split; [done |]. rewrite !lower_app, append_assoc.
  change (PyStr.lower ts3400_title) with ("<title>" +:+ "canon" +:+ " pixma ts3400</title>").
  by rewrite !append_assoc.
Qed.

Lemma closed_hosts_yield_nothing (self : CanonPrinterDiscovery) (w : World)
    (target : string) (port : Z) (l : list Z) :
  ipp_ports self = [port] ->
  (forall ip, ip <> target -> _is_port_open w ip port 1000 = false) ->
  Forall (fun a => Ipaddress.str a <> target) l ->
  omap snd ((fun a => _scan_host_for_ipp self w (Ipaddress.str a)) <$> l) = [].
Proof.
  intros Hports Hclosed. induction 1 as [|a l Ha _ IH]; [done |].
  rewrite fmap_cons. cbn [omap list_omap]. rewrite IH.
  unfold _scan_host_for_ipp. rewrite Hports. cbn [scan_ports].
  unfold scan_port. by rewrite (Hclosed _ Ha).
Qed.

Lemma addresses_192_168_1_0 :
  Ipaddress.addresses net_192_168_1_0
  = seqZ 3232235776 5 ++ [3232235781] ++ seqZ 3232235782 250.
Proof. vm_compute. reflexivity. Qed.

Lemma other_addresses_192_168_1_0 :
  Forall (fun a => Ipaddress.str a <> "192.168.1.5")
    (seqZ 3232235776 5 ++ seqZ 3232235782 250).
Proof. apply (bool_decide_unpack _). vm_compute. exact I. Qed.

(** The claim C1 as the specification states it fails: on the network
    [192.168.1.0/24] with the port 631, where only [192.168.1.5] listens and
    serves a page titled [Canon PIXMA TS3400], the scan returns one record
    with the uri, the name and the source of the claim, and its model is
    [Canon PIXMA TS3400], not [Canon TS3400]. *)
Lemma ts3400_model_keeps_the_family_name :
  exists r,
    _discover_network_printers scanner_631 ts3400_world = inr [r]
    /\ r !! "uri" = Some (VStr "ipp://192.168.1.5:631/ipp/print")
    /\ r !! "name" = Some (VStr "Canon PIXMA TS3400")
    /\ r !! "source" = Some (VStr "network_scan")
    /\ r !! "model" = Some (VStr "Canon PIXMA TS3400")
    /\ r !! "model" <> Some (VStr "Canon TS3400").
Proof.
  exists ts3400_record. split_and!; try (vm_compute; reflexivity).
  vm_compute. discriminate.
Qed.

(** C1, amended. For a scan of the range [192.168.1.0/24] on the port 631
    where only the host [192.168.1.5] accepts the connection and answers the
    GET with status 200 and a body whose first title element is
    [<title>Canon PIXMA TS3400</title>], after ASCII text without an opening
    title tag in any letter case, the contribution of the network scan
    is exactly the record with uri [ipp://192.168.1.5:631/ipp/print], name
    [Canon PIXMA TS3400], status [Available], model [Canon PIXMA TS3400] and
    source [network_scan]. The model is [Canon ] followed by the whole text
    matched by the first pattern of the ordered list that matches the
    upper-cased name, and [Canon Printer] when no pattern matches. *)
Theorem ts3400_scan_record (self : CanonPrinterDiscovery) (w : World)
    (response : response) (pre post : string) :
  canon_keywords self = canon_keywords (__init__ None) ->
  ipp_ports self = [631] ->
  _get_network_ranges w = inr [net_192_168_1_0] ->
  completes_all w ->
  _is_port_open w "192.168.1.5" 631 1000 = true ->
  (forall ip, ip <> "192.168.1.5" -> _is_port_open w ip 631 1000 = false) ->
  requests_get w "http://192.168.1.5:631" 3 = Some response ->
  status_code response = 200 ->
  text response = pre +:+ "<title>Canon PIXMA TS3400</title>" +:+ post ->
  is_ascii pre = true ->
  PyStr.contains "<title>" (PyStr.lower pre) = false ->
  _discover_network_printers self w = inr [ts3400_record]
  /\ (forall name m, first_match patterns (PyStr.upper name) = Some m ->
        _extract_model name = "Canon " +:+ fst m)
  /\ (forall name m,
        first_match patterns (PyStr.upper name) = Some m <->
        exists (i : nat) p, patterns !! i = Some p
          /\ Re.search false p (PyStr.upper name) = Some m
          /\ forall (j : nat) q, (j < i)%nat -> patterns !! j = Some q ->
               Re.search false q (PyStr.upper name) = None)
  /\ (forall name, (forall p, p ∈ patterns -> Re.search false p (PyStr.upper name) = None) ->
        _extract_model name = "Canon Printer").
Proof.
  intros Hkw Hports Hranges Hall Hopen Hclosed Hget Hok Htext _ Hpre.
  change "<title>Canon PIXMA TS3400</title>"%string with ts3400_title in Htext.
  split_and!.
  - assert (Hhost : scan_port self w "192.168.1.5" 631 = Some ts3400_record).
    { rewrite (scan_port_unfold self w "192.168.1.5" 631 response Hopen Hget Hok).
      assert (Hname : banner_name "192.168.1.5" (text response) = "Canon PIXMA TS3400").
      { unfold banner_name. rewrite Htext. by rewrite (title_found pre post Hpre). }
      rewrite Hname, Htext, (title_page_has_keyword self pre post).
      2:{ rewrite Hkw. apply (bool_decide_unpack _). vm_compute. exact I. }
      unfold _is_canon_printer, any_keyword. rewrite Hkw.
      vm_compute. reflexivity. }
    unfold _discover_network_printers. rewrite Hranges. simpl.
    f_equal. apply Permutation_singleton_r.
    rewrite (omap_Permutation snd _ _ (Hall _)).
    unfold submitted. cbn [fmap list_fmap concat].
    rewrite app_nil_r, addresses_192_168_1_0.
    pose proof other_addresses_192_168_1_0 as Hother.
    apply Forall_app in Hother as [Hbefore Hafter].
    rewrite !fmap_app, !omap_app.
    rewrite (closed_hosts_yield_nothing self w "192.168.1.5" 631 _ Hports Hclosed Hbefore).
    rewrite (closed_hosts_yield_nothing self w "192.168.1.5" 631 _ Hports Hclosed Hafter).
    rewrite app_nil_r. cbn [fmap list_fmap app omap list_omap].
    change (Ipaddress.str 3232235781) with "192.168.1.5".
    unfold _scan_host_for_ipp. rewrite Hports. cbn [scan_ports]. by rewrite Hhost.
  - intros name m Hm. unfold _extract_model. by rewrite Hm.
  - intros name m. apply first_match_Some.
  - intros name Hnone. unfold _extract_model.
    by rewrite (proj2 (first_match_None patterns (PyStr.upper name)) Hnone).
Qed.

Lemma ts3400_scan_record_witness :
  completes_all ts3400_world
  /\ (forall ip, ip <> "192.168.1.5" -> _is_port_open ts3400_world ip 631 1000 = false)
  /\ is_ascii "<html><head>" = true
  /\ PyStr.contains "<title>" (PyStr.lower "<html><head>") = false
  /\ _discover_network_printers scanner_631 ts3400_world = inr [ts3400_record]
  /\ _extract_model "Canon PIXMA TS3400" = "Canon PIXMA TS3400"
  /\ _extract_model "Canon Inkjet" = "Canon Printer".
Proof.
  assert (Hall : completes_all ts3400_world) by (by intros fs).
  assert (Hclosed : forall ip, ip <> "192.168.1.5" ->
            _is_port_open ts3400_world ip 631 1000 = false).
  { intros ip Hip. unfold _is_port_open, ts3400_world, connect_ex.
    by rewrite bool_decide_eq_false_2. }
  assert (Hpre : PyStr.contains "<title>" (PyStr.lower "<html><head>") = false).
  { reflexivity. }
  destruct (ts3400_scan_record scanner_631 ts3400_world
              {| status_code := 200; text := ts3400_page |}
              "<html><head>" "</head><body>Ready</body></html>"
              eq_refl eq_refl eq_refl Hall eq_refl Hclosed eq_refl eq_refl eq_refl
              eq_refl Hpre)
    as (Hscan & Hmodel & _ & _).
  split_and!;
    [exact Hall | exact Hclosed | reflexivity | exact Hpre | exact Hscan | | reflexivity].
  apply (Hmodel "Canon PIXMA TS3400" ("PIXMA TS3400", "TS3400")). reflexivity.
Defined.

(** * Further properties of the code *)

(** ** Letter case *)

Lemma lower_upper_char (c : ascii) :
  PyStr.lower_char (PyStr.upper_char c) = PyStr.lower_char c.
Proof. destruct c as [[] [] [] [] [] [] [] []]; reflexivity. Qed.

Lemma upper_lower_char (c : ascii) :
  PyStr.upper_char (PyStr.lower_char c) = PyStr.upper_char c.
Proof. destruct c as [[] [] [] [] [] [] [] []]; reflexivity. Qed.

Lemma lower_upper (s : string) : PyStr.lower (PyStr.upper s) = PyStr.lower s.
Proof.
  unfold PyStr.lower, PyStr.upper. induction s as [|c s IH]; [done |].
  simpl. by rewrite lower_upper_char, IH.
Qed.

Lemma upper_lower (s : string) : PyStr.upper (PyStr.lower s) = PyStr.upper s.
Proof.
  unfold PyStr.lower, PyStr.upper. induction s as [|c s IH]; [done |].
  simpl. by rewrite upper_lower_char, IH.
Qed.

(** X1. The name tests and the model extraction look at an ASCII name only
    up to the case of its letters: two ASCII names with the same lower-case
    form are both Canon names or both not, for the discovery and for the
    platform utilities, and give the same model. *)
Theorem case_does_not_matter (self : CanonPrinterDiscovery) (a b : string) :
  is_ascii a = true -> is_ascii b = true ->
  PyStr.lower a = PyStr.lower b ->
  _is_canon_printer self a = _is_canon_printer self b
  /\ PlatformUtils._is_canon_printer a = PlatformUtils._is_canon_printer b
  /\ _extract_model a = _extract_model b.
Proof.
  intros _ _ H. split_and!.
  - unfold _is_canon_printer. by rewrite H.
  - unfold PlatformUtils._is_canon_printer. by rewrite H.
  - unfold _extract_model. by rewrite <- (upper_lower a), <- (upper_lower b), H.
Qed.

Lemma case_does_not_matter_witness :
  is_ascii "Canon pixma TS3400" = true
  /\ is_ascii "CANON PIXMA ts3400" = true
  /\ PyStr.lower "Canon pixma TS3400" = PyStr.lower "CANON PIXMA ts3400"
  /\ _is_canon_printer (__init__ None) "Canon pixma TS3400" = true
  /\ _is_canon_printer (__init__ None) "CANON PIXMA ts3400" = true
  /\ _extract_model "Canon pixma TS3400" = _extract_model "CANON PIXMA ts3400".
Proof.
  assert (H : PyStr.lower "Canon pixma TS3400" = PyStr.lower "CANON PIXMA ts3400")
    by reflexivity.
  destruct (case_does_not_matter (__init__ None) "Canon pixma TS3400" "CANON PIXMA ts3400"
              eq_refl eq_refl H) as (_ & _ & Hm).
  split_and!; [reflexivity | reflexivity | exact H | reflexivity | reflexivity | exact Hm].
Defined.

(** ** What a match of a pattern looks like *)

Lemma lit_cons (a : ascii) (p : string) :
  Re.lit (String a p) = Re.Atom (Re.CLit a) Re.One :: Re.lit p.
Proof. reflexivity. Qed.

Lemma fst_take (ing : bool) (c : ascii) (m : Re.found) :
  fst (Re.take ing c m) = String c (fst m).
Proof. reflexivity. Qed.

Lemma snd_take (ing : bool) (c : ascii) (m : Re.found) :
  snd (Re.take ing c m) = if ing then String c (snd m) else snd m.
Proof. reflexivity. Qed.

(** A greedy repetition takes a run of characters of the class, and the
    continuation matches what follows the run. *)
Lemma greedy_inv (p : ascii -> bool) (ing : bool) (k : string -> option Re.found)
    (s : string) (m : Re.found) :
  Re.greedy p ing k s = Some m ->
  exists run s' m',
    s = run +:+ s' /\ PyStr.all_chars p run = true /\ k s' = Some m'
    /\ fst m = run +:+ fst m'
    /\ snd m = (if ing then run +:+ snd m' else snd m').
Proof.
  revert m. induction s as [|c s IH]; intros m; simpl.
  - intros Hk. exists EmptyString, EmptyString, m. by destruct ing.
  - assert (Hstop : k (String c s) = Some m ->
      exists run s' m',
        String c s = run +:+ s' /\ PyStr.all_chars p run = true /\ k s' = Some m'
        /\ fst m = run +:+ fst m'
        /\ snd m = (if ing then run +:+ snd m' else snd m')).
    { intros Hk. exists EmptyString, (String c s), m. by destruct ing. }
    destruct (p c) eqn:Hpc; [| exact Hstop].
    destruct (Re.greedy p ing k s) as [m1|] eqn:Hgo; [| exact Hstop].
    intros [= <-].
    destruct (IH m1 eq_refl) as (run & s' & m' & -> & Hrun & Hk & Hfst & Hsnd).
    exists (String c run), s', m'. split_and!.
    + by rewrite append_cons.
    + simpl. by rewrite Hpc, Hrun.
    + done.
    + by rewrite fst_take, Hfst, append_cons.
    + rewrite snd_take, Hsnd. destruct ing; [by rewrite append_cons | done].
Qed.

(** A literal text at the head of a pattern matches a text of the same
    letters, up to case under [re.IGNORECASE]. *)
Lemma lit_inv (ic : bool) (p : string) (re : list Re.node) (ing : bool)
    (s : string) (m : Re.found) :
  Re.match_here ic (Re.lit p ++ re) ing s = Some m ->
  exists o s' m',
    s = o +:+ s'
    /\ (if ic then PyStr.lower o = PyStr.lower p else o = p)
    /\ Re.match_here ic re ing s' = Some m'
    /\ fst m = o +:+ fst m'
    /\ snd m = (if ing then o +:+ snd m' else snd m').
Proof.
  revert s m. induction p as [|a p IH]; intros s m.
  - intros H. exists EmptyString, s, m. split_and!; try done; by destruct ic, ing.
  - rewrite lit_cons. cbn [app Re.match_here].
    destruct s as [|c s]; [done |].
    destruct (Re.cset_match ic (Re.CLit a) c) eqn:Hc; [| done].
    destruct (Re.match_here ic (Re.lit p ++ re) ing s) as [m1|] eqn:Hm1; [| done].
    intros [= <-].
    destruct (IH s m1 Hm1) as (o & s' & m' & -> & Ho & Hre & Hfst & Hsnd).
    exists (String c o), s', m'. split_and!.
    + by rewrite append_cons.
    + unfold Re.cset_match in Hc. destruct ic.
      * apply bool_decide_eq_true in Hc. unfold PyStr.lower in *.
        cbn [PyStr.map_chars]. by rewrite Ho, Hc.
      * apply bool_decide_eq_true in Hc. by rewrite Ho, Hc.
    + done.
    + by rewrite fst_take, Hfst, append_cons.
    + rewrite snd_take, Hsnd. destruct ing; [by rewrite append_cons | done].
Qed.

(** A match at the head of a text is a prefix of the text. *)
Lemma match_here_prefix (ic : bool) (re : list Re.node) :
  forall (ing : bool) (s : string) (m : Re.found),
    Re.match_here ic re ing s = Some m -> exists rest, s = fst m +:+ rest.
Proof.
  induction re as [|[cs [| |]| |] re IH]; intros ing s m; cbn [Re.match_here].
  - intros [= <-]. by exists s.
  - destruct s as [|c s]; [done |].
    destruct (Re.cset_match ic cs c); [| done].
    destruct (Re.match_here ic re ing s) as [m1|] eqn:Hm1; [| done].
    intros [= <-]. destruct (IH _ _ _ Hm1) as [rest ->].
    exists rest. by rewrite fst_take, append_cons.
  - destruct s as [|c s]; [done |].
    destruct (Re.cset_match ic cs c); [| done].
    destruct (Re.greedy _ _ _ s) as [m1|] eqn:Hm1; [| done].
    intros [= <-].
    apply greedy_inv in Hm1 as (run & s' & m' & -> & _ & Hk & Hfst & _).
    destruct (IH _ _ _ Hk) as [rest ->].
    exists rest. by rewrite fst_take, Hfst, append_cons, append_assoc.
  - intros Hm.
    apply greedy_inv in Hm as (run & s' & m' & -> & _ & Hk & Hfst & _).
    destruct (IH _ _ _ Hk) as [rest ->].
    exists rest. by rewrite Hfst, append_assoc.
  - apply IH.
  - apply IH.
Qed.

(** A match found by [search] starts somewhere in the text. *)
Lemma search_inv (ic : bool) (re : list Re.node) (s : string) (m : Re.found) :
  Re.search ic re s = Some m ->
  exists pre s', s = pre +:+ s' /\ Re.match_here ic re false s' = Some m.
Proof.
  induction s as [|c s IH].
  - simpl. destruct (Re.match_here ic re false "") as [m1|] eqn:Hm1; [| done].
    intros [= <-]. by exists EmptyString, EmptyString.
  - rewrite search_cons.
    destruct (Re.match_here ic re false (String c s)) as [m1|] eqn:Hm1.
    + intros [= <-]. by exists EmptyString, (String c s).
    + intros H. destruct (IH H) as (pre & s' & -> & Hm).
      exists (String c pre), s'. by rewrite append_cons.
Qed.

Lemma match_group (ic : bool) (re : list Re.node) (s : string) :
  Re.match_here ic (Re.group re) false s = Re.match_here ic (re ++ [Re.GClose]) true s.
Proof. reflexivity. Qed.

Lemma literal_head (p : string) (re : list Re.node) (ing : bool) (s : string)
    (m : Re.found) :
  Re.match_here false (Re.lit p ++ re) ing s = Some m ->
  exists rest post, s = p +:+ rest +:+ post /\ fst m = p +:+ rest.
Proof.
  intros H. apply lit_inv in H as (o & s' & m' & -> & -> & Hre & Hfst & _).
  apply match_here_prefix in Hre as [post ->].
  exists (fst m'), post. by rewrite Hfst.
Qed.

Lemma pattern_family (p : list Re.node) (s : string) (m : Re.found) :
  p ∈ patterns ->
  Re.match_here false p false s = Some m ->
  exists family rest post,
    family ∈ model_families /\ s = family +:+ rest +:+ post /\ fst m = family +:+ rest.
Proof.
  unfold patterns. cbv zeta. intros Hp Hm.
  repeat (apply elem_of_cons in Hp as [-> | Hp]);
    [ .. | by apply elem_of_nil in Hp ];
    try (rewrite match_group, <- app_assoc in Hm);
    apply literal_head in Hm as (rest & post & -> & ->);
    eexists _, rest, post; (split; [| done]);
    unfold model_families; set_solver.
Qed.

Lemma family_is_keyword (cm : option printers_cache_t) (family : string) :
  family ∈ model_families -> PyStr.lower family ∈ canon_keywords (__init__ cm).
Proof.
  unfold model_families. intros H.
  repeat (apply elem_of_cons in H as [-> | H]); [ .. | by apply elem_of_nil in H ];
    apply (bool_decide_unpack _); vm_compute; exact I.
Qed.

(** X2. For an ASCII name, [_extract_model] returns either the fallback
    [Canon Printer], or [Canon ] followed by a part of the upper-cased name
    that starts with one of the eight family names; in the second case the
    name is a Canon name for both name tests. *)
Theorem extracted_model_shape (cm : option printers_cache_t) (name : string) :
  is_ascii name = true ->
  _extract_model name = "Canon Printer"
  \/ exists family pre rest post,
       family ∈ model_families
       /\ PyStr.upper name = pre +:+ family +:+ rest +:+ post
       /\ _extract_model name = "Canon " +:+ family +:+ rest
       /\ _is_canon_printer (__init__ cm) name = true
       /\ PlatformUtils._is_canon_printer name = true.
Proof.
  intros _. unfold _extract_model.
  destruct (first_match patterns (PyStr.upper name)) as [m|] eqn:Hm; [right | by left].
  apply first_match_Some in Hm as (i & p & Hi & Hs & _).
  apply list_elem_of_lookup_2 in Hi.
  apply search_inv in Hs as (pre & s' & Hup & Hhere).
  destruct (pattern_family p s' m Hi Hhere) as (family & rest & post & Hf & -> & Hfst).
  assert (H : _is_canon_printer (__init__ cm) name = true).
  { unfold _is_canon_printer. apply any_keyword_spec.
    exists (PyStr.lower family), (PyStr.lower pre), (PyStr.lower (rest +:+ post)).
    split; [by apply family_is_keyword |].
    by rewrite <- (lower_upper name), Hup, !lower_app. }
  exists family, pre, rest, post. rewrite Hfst. by split_and!.
Qed.

Lemma extracted_model_shape_witness :
  is_ascii "Office MX920 series" = true
  /\ _extract_model "Office MX920 series" = "Canon MX920"
  /\ _is_canon_printer (__init__ None) "Office MX920 series" = true
  /\ PlatformUtils._is_canon_printer "Office MX920 series" = true.
Proof.
  destruct (extracted_model_shape None "Office MX920 series" eq_refl)
    as [Hno | (family & pre & rest & post & _ & _ & _ & Hc & Hp)].
  - vm_compute in Hno. discriminate Hno.
  - split_and!; [reflexivity | reflexivity | exact Hc | exact Hp].
Defined.

(** ** The display name taken from a title *)

Lemma append_nil_r (s : string) : s +:+ "" = s.
Proof. induction s as [|x s IH]; [done |]. by rewrite append_cons, IH. Qed.

Lemma lower_char_lt (c : ascii) :
  PyStr.lower_char "<" = PyStr.lower_char c -> c = "<"%char.
Proof. destruct c as [[] [] [] [] [] [] [] []]; vm_compute; congruence. Qed.

Lemma not_lt_run (run : string) :
  PyStr.all_chars (Re.cset_match true (Re.CNot "<")) run = true ->
  PyStr.contains "<" run = false.
Proof.
  induction run as [|c run IH]; [done |]. simpl.
  intros [Hc Hrun]%andb_true_iff. rewrite (IH Hrun), orb_false_r.
  apply negb_true_iff, bool_decide_eq_false in Hc.
  destruct (decide ("<"%char = c)) as [<- | Hne]; [by destruct Hc | done].
Qed.

(** X3. The display name that [_get_ipp_printer_info] takes from an ASCII
    page: when the title pattern matches, the name is the non-empty text
    without [<] that stands between a [<title>] and a [</title>] tag of the
    page, the tags in any case; otherwise it is [Canon Printer at] and the
    address. *)
Theorem title_name_shape (ip text : string) :
  is_ascii text = true ->
  match Re.search true title_pattern text with
  | Some m =>
      banner_name ip text = snd m
      /\ snd m <> EmptyString
      /\ PyStr.contains "<" (snd m) = false
      /\ exists pre open close post,
           text = pre +:+ open +:+ snd m +:+ close +:+ post
           /\ PyStr.lower open = "<title>"
           /\ PyStr.lower close = "</title>"
  | None => banner_name ip text = "Canon Printer at " +:+ ip
  end.
Proof.
  intros _. unfold banner_name.
  destruct (Re.search true title_pattern text) as [m|] eqn:Hs; [| done].
  split; [done |].
  apply search_inv in Hs as (pre & s' & -> & Hm).
  unfold title_pattern in Hm.
  apply lit_inv in Hm as (open & s1 & m1 & -> & Hopen & Hm1 & _ & Hsnd).
  rewrite Hsnd. clear Hsnd.
  unfold Re.group in Hm1. cbn [app Re.match_here] in Hm1.
  destruct s1 as [|c s1]; [done |].
  destruct (Re.cset_match true (Re.CNot "<") c) eqn:Hc; [| done].
  destruct (Re.greedy _ _ _ s1) as [m2|] eqn:Hg; [| done].
  injection Hm1 as <-.
  apply greedy_inv in Hg as (run & s2 & m3 & -> & Hrun & Hk & _ & Hsnd).
  change (Re.match_here true (Re.GClose :: Re.lit "</title>") true s2)
    with (Re.match_here true (Re.lit "</title>") false s2) in Hk.
  rewrite <- (app_nil_r (Re.lit "</title>")) in Hk.
  apply lit_inv in Hk as (close & post & m4 & -> & Hclose & Hnil & _ & Hsnd4).
  injection Hnil as <-. simpl in Hsnd4.
  rewrite snd_take, Hsnd, Hsnd4.
  rewrite append_nil_r. split_and!.
  - done.
  - apply (not_lt_run (String c run)). cbn [PyStr.all_chars]. by rewrite Hc, Hrun.
  - exists pre, open, close, post. split_and!; [| done | done].
    by rewrite ?append_cons, ?append_assoc.
Qed.

Lemma title_name_shape_witness :
  is_ascii ts3400_page = true
  /\ Re.search true title_pattern ts3400_page
     = Some ("<title>Canon PIXMA TS3400</title>", "Canon PIXMA TS3400")
  /\ banner_name "192.168.1.5" ts3400_page = "Canon PIXMA TS3400".
Proof.
  pose proof (title_name_shape "192.168.1.5" ts3400_page eq_refl) as H.
  assert (Hs : Re.search true title_pattern ts3400_page
               = Some ("<title>Canon PIXMA TS3400</title>", "Canon PIXMA TS3400"))
    by (vm_compute; reflexivity).
  rewrite Hs in H. destruct H as [Hname _].
  split_and!; [reflexivity | exact Hs | exact Hname].
Defined.

(** ** More on the network scan *)

Lemma scan_port_inv (self : CanonPrinterDiscovery) (w : World)
    (ip : string) (port : Z) (r : record) :
  scan_port self w ip port = Some r ->
  _is_port_open w ip port 1000 = true
  /\ exists name,
       _is_canon_printer self name = true
       /\ r = <["name" := VStr name]>
              (<["uri" := VStr ("ipp://" +:+ ip +:+ ":" +:+ PyStr.show port +:+ "/ipp/print")]>
              (<["status" := VStr "Available"]>
              (<["model" := VStr (_extract_model name)]>
              (<["source" := VStr "network_scan"]> ∅)))).
Proof.
  unfold scan_port, _get_ipp_printer_info. intros H.
  destruct (_is_port_open w ip port 1000); [| done]. split; [done |].
  destruct (requests_get w (banner_url ip port) 3) as [response|]; [| done].
  destruct (status_code response =? 200); [| done].
  destruct (any_keyword self (PyStr.lower (text response))); [| done].
  cbn [info_name info_model info_status] in H.
  destruct (_is_canon_printer self (banner_name ip (text response))) eqn:Hn; [| done].
  injection H as <-. by exists (banner_name ip (text response)).
Qed.

Lemma scan_ports_closed (self : CanonPrinterDiscovery) (w : World)
    (ip : string) (ports : list Z) :
  (forall port, port ∈ ports -> _is_port_open w ip port 1000 = false) ->
  scan_ports self w ip ports = ((fun port => (ip, port)) <$> ports, None).
Proof.
  induction ports as [|port ports IH]; intros H; [done |].
  assert (Hhd : _is_port_open w ip port 1000 = false).
  { apply H. by left. }
  cbn [scan_ports]. unfold scan_port at 1. rewrite Hhd.
  rewrite IH; [done |]. intros p Hp. apply H. by right.
Qed.

Lemma omap_length_le {A B : Type} (f : A -> option B) (l : list A) :
  (length (omap f l) <= length l)%nat.
Proof.
  induction l as [|x l IH]; [done |].
  cbn [omap list_omap]. destruct (f x); cbn [length]; lia.
Qed.

(** X4. Every record of the network scan is the record of an address of a
    resolved range and of a configured port that accepted a connection
    within one second, under a Canon name, with source [network_scan];
    there are at most as many records as addresses, and a host on which no
    configured port opens gives none while all its ports are tried. *)
Theorem network_records_come_from_open_ports (self : CanonPrinterDiscovery) (w : World)
    (network_ranges : list Ipaddress.IPv4Network) (network : list record) :
  completes_all w ->
  _get_network_ranges w = inr network_ranges ->
  _discover_network_printers self w = inr network ->
  (forall r, r ∈ network ->
     exists a port name,
       a ∈ concat (Ipaddress.addresses <$> network_ranges)
       /\ port ∈ ipp_ports self
       /\ _is_port_open w (Ipaddress.str a) port 1000 = true
       /\ _is_canon_printer self name = true
       /\ r = <["name" := VStr name]>
              (<["uri" := VStr ("ipp://" +:+ Ipaddress.str a +:+ ":"
                                +:+ PyStr.show port +:+ "/ipp/print")]>
              (<["status" := VStr "Available"]>
              (<["model" := VStr (_extract_model name)]>
              (<["source" := VStr "network_scan"]> ∅)))))
  /\ (length network <= length (concat (Ipaddress.addresses <$> network_ranges)))%nat
  /\ (forall ip,
        (forall port, port ∈ ipp_ports self -> _is_port_open w ip port 1000 = false) ->
        _scan_host_for_ipp self w ip = ((fun port => (ip, port)) <$> ipp_ports self, None)).
Proof.
  intros Hall Hranges Hnet.
  destruct (discover_network_printers_returns self w Hall)
    as (nr & network' & Hr' & Hn' & Hperm & _).
  assert (nr = network_ranges) as -> by congruence.
  assert (network' = network) as -> by congruence.
  split_and!.
  - intros r Hr. rewrite Hperm in Hr.
    apply list_elem_of_omap in Hr as (f & Hf & Hfr).
    unfold submitted in Hf. apply list_elem_of_fmap in Hf as (a & -> & Ha).
    apply scan_ports_found in Hfr as (port & Hport & Hp).
    apply scan_port_inv in Hp as (Hopen & name & Hname & ->).
    by exists a, port, name.
  - rewrite Hperm. etrans; [apply omap_length_le |].
    unfold submitted. by rewrite length_fmap.
  - intros ip. apply scan_ports_closed.
Qed.

Lemma network_records_come_from_open_ports_witness :
  completes_all ts3400_world
  /\ _get_network_ranges ts3400_world = inr [net_192_168_1_0]
  /\ _discover_network_printers scanner_631 ts3400_world = inr [ts3400_record]
  /\ (length [ts3400_record] <= 256)%nat
  /\ _scan_host_for_ipp scanner_631 ts3400_world "192.168.1.7"
     = ([("192.168.1.7", 631)], None).
Proof.
  assert (Hall : completes_all ts3400_world) by (by intros fs).
  assert (Hr : _get_network_ranges ts3400_world = inr [net_192_168_1_0]) by reflexivity.
  assert (Hn : _discover_network_printers scanner_631 ts3400_world = inr [ts3400_record]).
  { vm_compute. reflexivity. }
  destruct (network_records_come_from_open_ports scanner_631 ts3400_world
              [net_192_168_1_0] [ts3400_record] Hall Hr Hn) as (_ & Hlen & Hclosed).
  split_and!; [exact Hall | exact Hr | exact Hn | exact Hlen |].
  apply Hclosed. intros port Hp. apply list_elem_of_singleton in Hp as ->. reflexivity.
Defined.

(** ** mDNS *)

Lemma words_go_sub (w cur s : string) :
  w ∈ PyStr.words_go cur s -> exists pre post, cur +:+ s = pre +:+ w +:+ post.
Proof.
  revert cur. induction s as [|c s IH]; intros cur; cbn [PyStr.words_go].
  - destruct cur as [|x cur]; [intros H; by apply elem_of_nil in H |].
    intros ->%list_elem_of_singleton. exists EmptyString, EmptyString.
    by rewrite append_nil.
  - destruct (PyStr.is_space c).
    + destruct cur as [|x cur].
      * intros H. destruct (IH _ H) as (pre & post & Hs). rewrite append_nil in Hs.
        exists (String c pre), post. by rewrite append_nil, append_cons, Hs.
      * intros [-> | H]%elem_of_cons.
        -- by exists EmptyString, (String c s).
        -- destruct (IH _ H) as (pre & post & Hs). rewrite append_nil in Hs.
           exists (String x cur +:+ String c pre), post.
           by rewrite append_assoc, (append_cons c pre), Hs.
    + intros H. destruct (IH _ H) as (pre & post & Hs).
      exists pre, post. by rewrite <- Hs, append_assoc.
Qed.

Lemma word_keyword (self : CanonPrinterDiscovery) (line name : string) :
  name ∈ PyStr.words line ->
  _is_canon_printer self name = true ->
  any_keyword self (PyStr.lower line) = true.
Proof.
  intros Hw Hn. unfold _is_canon_printer in Hn.
  apply any_keyword_spec in Hn as (k & pre & post & Hk & Hlow).
  apply words_go_sub in Hw as (pre' & post' & Hline). rewrite append_nil in Hline.
  apply any_keyword_spec.
  exists k, (PyStr.lower pre' +:+ pre), (post +:+ PyStr.lower post').
  split; [done |]. by rewrite Hline, !lower_app, Hlow, !append_assoc.
Qed.

Lemma mdns_line_seventh_word (self : CanonPrinterDiscovery) (line : string) :
  mdns_line self line =
    match PyStr.words line !! 6%nat with
    | Some service_name =>
        if _is_canon_printer self service_name then [mdns_record service_name] else []
    | None => []
    end.
Proof.
  unfold mdns_line.
  destruct (PyStr.words line !! 6%nat) as [name|] eqn:Hw.
  - destruct (_is_canon_printer self name) eqn:Hn.
    + rewrite (word_keyword self line name); [| by eapply list_elem_of_lookup_2 | done].
      apply lookup_lt_Some in Hw.
      destruct (Z.leb_spec 7 (Z.of_nat (length (PyStr.words line)))); [done | lia].
    + by repeat case_match.
  - by repeat case_match.
Qed.

(** X5. The mDNS producer: an exception of [dns-sd] that it catches gives the
    empty list and any other is passed on; an exit code other than 0 gives
    the empty list; with exit code 0 its records are exactly the records of
    the seventh words of the output lines that are Canon names. *)
Theorem mdns_records_are_seventh_words (self : CanonPrinterDiscovery) (w : World) :
  match dns_sd_browse w with
  | Raised e =>
      _discover_mdns_printers self w = if caught_by_mdns e then inr [] else inl e
  | Completed returncode stdout =>
      exists mdns,
        _discover_mdns_printers self w = inr mdns
        /\ (returncode <> 0 -> mdns = [])
        /\ (returncode = 0 ->
            forall r, r ∈ mdns <->
              exists line service_name,
                line ∈ PyStr.split newline stdout
                /\ PyStr.words line !! 6%nat = Some service_name
                /\ _is_canon_printer self service_name = true
                /\ r = mdns_record service_name)
  end.
Proof.
  unfold _discover_mdns_printers.
  destruct (dns_sd_browse w) as [e | returncode stdout]; [done |].
  destruct (Z.eqb_spec returncode 0) as [-> | Hne].
  - eexists. split; [reflexivity |]. split; [done |]. intros _ r.
    rewrite list_elem_of_In, in_concat. split.
    + intros (l & Hl & Hr). apply list_elem_of_In in Hl, Hr.
      apply list_elem_of_fmap in Hl as (line & -> & Hline).
      rewrite mdns_line_seventh_word in Hr.
      destruct (PyStr.words line !! 6%nat) as [name|] eqn:Hw;
        [| by apply elem_of_nil in Hr].
      destruct (_is_canon_printer self name) eqn:Hn; [| by apply elem_of_nil in Hr].
      apply list_elem_of_singleton in Hr as ->. by exists line, name.
    + intros (line & name & Hline & Hw & Hn & ->).
      exists (mdns_line self line). split; apply list_elem_of_In.
      * apply list_elem_of_fmap. by exists line.
      * rewrite mdns_line_seventh_word, Hw, Hn. by left.
  - exists []. by split_and!.
Qed.

(** ** More on the de-duplication *)

Lemma dedup_loop_raises (printers : list record) :
  forall acc e,
    dedup_loop acc printers = inl e <->
    e = KeyError "uri" /\ exists r, r ∈ printers /\ r !! "uri" = None.
Proof.
  induction printers as [|printer printers IH]; intros acc e; cbn [dedup_loop].
  - split; [done |]. intros (_ & r & Hr & _). by apply elem_of_nil in Hr.
  - unfold getitem. destruct (printer !! "uri") as [uri|] eqn:Hu; simpl.
    + assert (Hskip : (exists r, r ∈ printer :: printers /\ r !! "uri" = None)
                      <-> exists r, r ∈ printers /\ r !! "uri" = None).
      { split.
        - intros (r & [-> | Hr]%elem_of_cons & Hn); [congruence | by exists r].
        - intros (r & Hr & Hn). exists r. split; [by right | done]. }
      rewrite Hskip. case_bool_decide; apply IH.
    + split.
      * intros [= <-]. split; [done |]. exists printer. split; [by left | done].
      * by intros [-> _].
Qed.

Lemma dedup_loop_new (printers : list record) :
  forall acc res,
    dedup_loop acc printers = inr res ->
    exists new,
      res = acc ++ new
      /\ Forall (fun p => p.2 !! "uri" = Some p.1 /\ p.1 ∉ acc.*1) new
      /\ NoDup (new.*1).
Proof.
  induction printers as [|printer printers IH]; intros acc res; cbn [dedup_loop].
  - intros [= <-]. exists []. rewrite app_nil_r.
    split_and!; [done | apply Forall_nil_2 | apply NoDup_nil_2].
  - unfold getitem. destruct (printer !! "uri") as [uri|] eqn:Hu; simpl; [| done].
    case_bool_decide as Hseen.
    + apply IH.
    + intros Hrun. destruct (IH _ _ Hrun) as (new & -> & Hall & Hnd).
      exists ((uri, printer) :: new). rewrite Forall_forall in Hall.
      split_and!.
      * by rewrite <- app_assoc.
      * apply Forall_cons. split; [done |]. apply Forall_forall.
        intros p Hp. destruct (Hall p Hp) as [Hk Hnot]. split; [done |].
        intros Hin. apply Hnot. rewrite fmap_app, elem_of_app. by left.
      * simpl. apply NoDup_cons. split; [| done].
        intros Hin. apply list_elem_of_fmap in Hin as (p & Hp1 & Hp).
        destruct (Hall p Hp) as [_ Hnot]. apply Hnot.
        rewrite fmap_app, elem_of_app. right. rewrite <- Hp1. by left.
Qed.

(** Records with fresh, distinct uris are all taken, in their order. *)
Lemma dedup_loop_fresh (ps : list (value * record)) :
  forall acc printers,
    Forall (fun p => p.2 !! "uri" = Some p.1 /\ p.1 ∉ acc.*1) ps ->
    NoDup (ps.*1) ->
    dedup_loop acc (ps.*2 ++ printers) = dedup_loop (acc ++ ps) printers.
Proof.
  induction ps as [|[uri r] ps IH]; intros acc printers Hall Hnd.
  - by rewrite app_nil_r.
  - apply Forall_cons in Hall as [[Hu Hfresh] Hall]. simpl in Hu, Hfresh.
    apply NoDup_cons in Hnd as [Hhd Hnd].
    cbn [fmap list_fmap app dedup_loop]. unfold getitem. simpl. rewrite Hu. simpl.
    rewrite bool_decide_eq_false_2 by done.
    rewrite IH; [by rewrite <- app_assoc | | done].
    rewrite Forall_forall in Hall. apply Forall_forall. intros p Hp.
    destruct (Hall p Hp) as [Hk Hnot]. split; [done |].
    rewrite fmap_app, elem_of_app. intros [Hin | Hin]; [done |].
    apply list_elem_of_singleton in Hin. apply Hhd.
    apply list_elem_of_fmap. exists p. by split.
Qed.

(** X6. On records whose uris are strings, de-duplicating a de-duplicated
    list changes nothing, and the first pass returns its input unchanged
    exactly when no two records share a uri. *)
Theorem dedup_is_idempotent (printers out : list record) :
  Forall has_str_uri printers ->
  dedup printers = inr out ->
  dedup out = inr out
  /\ (out = printers <-> NoDup ((fun r : record => r !! "uri") <$> printers)).
Proof.
  intros _. unfold dedup. destruct (dedup_loop [] printers) as [e | res] eqn:Hrun; simpl; [done |].
  intros [= <-].
  destruct (dedup_loop_new _ _ _ Hrun) as (new & -> & Hall & Hnd). simpl.
  assert (Huris : (fun r : record => r !! "uri") <$> new.*2 = Some <$> new.*1).
  { clear -Hall. induction Hall as [|p new [Hp _] _ IH]; [done |].
    rewrite !fmap_cons. f_equal; [exact Hp | exact IH]. }
  assert (Hfix : dedup_loop [] (new.*2) = inr new).
  { rewrite <- (app_nil_r (new.*2)), dedup_loop_fresh; [done | | done].
    eapply Forall_impl; [exact Hall |]. simpl. intros p [Hp _]. split; [done |].
    apply not_elem_of_nil. }
  split.
  - by rewrite Hfix.
  - split.
    + intros <-. rewrite Huris. by apply (NoDup_fmap_2 Some).
    + intros Hnodup.
      assert (Hwf : forall r, r ∈ printers -> is_Some (r !! "uri")).
      { intros r Hr. destruct (r !! "uri") eqn:Hu; [done |].
        assert (Hbad : dedup_loop [] printers = inl (KeyError "uri")).
        { apply dedup_loop_raises. split; [done |]. by exists r. }
        congruence. }
      clear Hall Hnd Huris Hfix.
      assert (Hps : exists ps : list (value * record),
                 ps.*2 = printers /\ Forall (fun p => p.2 !! "uri" = Some p.1 /\ p.1 ∉ []) ps
                 /\ NoDup (ps.*1)).
      { clear Hrun. induction printers as [|r printers IH].
        - exists []. split_and!; [done | apply Forall_nil_2 | apply NoDup_nil_2].
        - simpl in Hnodup. apply NoDup_cons in Hnodup as [Hhd Hnodup].
          destruct IH as (ps & <- & Hall & Hnd); [done | |].
          { intros r' Hr'. apply Hwf. by right. }
          destruct (Hwf r) as [u Hu]; [by left |].
          exists ((u, r) :: ps). split_and!.
          + done.
          + apply Forall_cons. split; [| done]. split; [done | apply not_elem_of_nil].
          + simpl. apply NoDup_cons. split; [| done].
            intros Hin. apply Hhd. simpl. rewrite Hu.
            apply list_elem_of_fmap in Hin as (p & -> & Hp).
            rewrite Forall_forall in Hall. destruct (Hall p Hp) as [Hk _].
            apply list_elem_of_fmap. exists p.2. split; [done |].
            apply list_elem_of_fmap. by exists p. }
      destruct Hps as (ps & <- & Hall & Hnd).
      rewrite <- (app_nil_r (ps.*2)), dedup_loop_fresh in Hrun by done.
      assert (Heq : (inr ps : exc (list (value * record))) = inr new) by exact Hrun.
      by injection Heq as <-.
Qed.

Lemma dedup_is_idempotent_witness :
  Forall has_str_uri three_records
  /\ dedup three_records = inr (take 2 three_records)
  /\ dedup (take 2 three_records) = inr (take 2 three_records).
Proof.
  assert (Hwf : Forall has_str_uri three_records).
  { repeat apply Forall_cons_2; [ .. | apply Forall_nil_2 ]; eexists; reflexivity. }
  assert (H : dedup three_records = inr (take 2 three_records)).
  { vm_compute. reflexivity. }
  split_and!; [exact Hwf | exact H |].
  exact (proj1 (dedup_is_idempotent three_records (take 2 three_records) Hwf H)).
Defined.

(** ** When [find_canon_printers] raises *)



(** ** The manual configuration comes first *)

#[local] Instance VStr_inj : Inj (=) (=) VStr.
Proof. by intros s1 s2 [= ->]. Qed.

(** X8. When the saved uris are distinct, the result of
    [find_canon_printers] starts with all the manual printers, in the order
    of the cache. *)
Theorem manual_printers_come_first (self : CanonPrinterDiscovery) (w : World)
    (cache : printers_cache_t) (out : list record) :
  config_manager self = Some cache ->
  NoDup (cache.*1) ->
  find_canon_printers self w = inr out ->
  exists rest, out = _get_manual_printers self w ++ rest.
Proof.
  intros Hcm Hkeys Hout.
  destruct (find_canon_printers_sublist self w out Hout) as (printers & Hg & _).
  destruct (gather_inv self w printers Hg) as (network & mdns & _ & _ & ->).
  unfold find_canon_printers in Hout. rewrite Hg in Hout. simpl in Hout.
  unfold dedup in Hout.
  destruct (dedup_loop [] _) as [e | res] eqn:Hrun; simpl in Hout; [done |].
  injection Hout as <-.
  set (ps := (fun item : string * record =>
                (VStr item.1, manual_record w item.1 item.2))
               <$> List.filter manually_added cache).
  assert (Hman : _get_manual_printers self w = ps.*2).
  { unfold _get_manual_printers. rewrite Hcm, manual_loop_map_filter.
    unfold ps. rewrite <- list_fmap_compose. by apply list_fmap_ext. }
  rewrite Hman in Hrun |- *.
  rewrite dedup_loop_fresh in Hrun.
  - destruct (dedup_loop_new _ _ _ Hrun) as (new & -> & _).
    exists (new.*2). simpl. by rewrite fmap_app.
  - apply Forall_forall. intros p Hp. unfold ps in Hp.
    apply list_elem_of_fmap in Hp as ([uri info] & -> & _). simpl.
    split; [apply manual_record_uri | apply not_elem_of_nil].
  - unfold ps. rewrite <- list_fmap_compose.
    change (fst ∘ _) with (VStr ∘ (fst : string * record -> string)).
    rewrite list_fmap_compose. apply (NoDup_fmap_2 VStr).
    assert (Hsub : (List.filter manually_added cache).*1 `sublist_of` cache.*1);
      [| by eapply sublist_NoDup].
    apply fmap_sublist. clear. induction cache as [|x l IH]; [done |].
    simpl. destruct (manually_added x); [by apply sublist_skip | by apply sublist_cons].
Qed.

Lemma manual_printers_come_first_witness :
  config_manager office_discovery = Some office_cache
  /\ NoDup (office_cache.*1)
  /\ exists rest,
       [office_record; office_mdns_record]
       = _get_manual_printers office_discovery office_world ++ rest.
Proof.
  assert (H1 : config_manager office_discovery = Some office_cache) by reflexivity.
  assert (H2 : NoDup (office_cache.*1)).
  { apply NoDup_singleton. }
  split_and!; [exact H1 | exact H2 |].
  exact (manual_printers_come_first office_discovery office_world office_cache
           [office_record; office_mdns_record] H1 H2 office_printer_found_once).
Defined.

(** ** Splitting and stripping *)

Lemma all_chars_app (p : ascii -> bool) (a b : string) :
  PyStr.all_chars p (a +:+ b) = PyStr.all_chars p a && PyStr.all_chars p b.
Proof.
  induction a as [|c a IH]; [done |].
  rewrite append_cons. simpl. by rewrite IH, andb_assoc.
Qed.

Lemma all_chars_impl (p q : ascii -> bool) (s : string) :
  (forall c, p c = true -> q c = true) ->
  PyStr.all_chars p s = true -> PyStr.all_chars q s = true.
Proof.
  intros Hpq. induction s as [|c s IH]; [done |]. simpl.
  intros [Hc Hs]%andb_true_iff. by rewrite (Hpq c Hc), IH.
Qed.

Lemma split_nonempty (sep : ascii) (s : string) : PyStr.split sep s <> [].
Proof.
  destruct s as [|c s]; [done |]. simpl.
  destruct (decide (c = sep)); [done |]. by destruct (PyStr.split sep s).
Qed.

Lemma split_free (sep : ascii) (s : string) :
  free_of sep s = true -> PyStr.split sep s = [s].
Proof.
  unfold free_of. induction s as [|c s IH]; [done |]. simpl.
  intros [Hc Hs]%andb_true_iff. apply negb_true_iff, bool_decide_eq_false in Hc.
  destruct (decide (c = sep)); [done |]. by rewrite IH.
Qed.

Lemma split_app_sep (sep : ascii) (a b : string) :
  free_of sep a = true ->
  PyStr.split sep (a +:+ String sep b) = a :: PyStr.split sep b.
Proof.
  unfold free_of. induction a as [|c a IH].
  - intros _. rewrite append_nil. cbn [PyStr.split]. by destruct (decide (sep = sep)).
  - cbn [PyStr.all_chars]. intros [Hc Hs]%andb_true_iff.
    apply negb_true_iff, bool_decide_eq_false in Hc.
    rewrite append_cons. cbn [PyStr.split]. destruct (decide (c = sep)); [done |].
    by rewrite IH.
Qed.

(** Splitting at a last separator that is followed by a text free of it. *)
Lemma split_snoc (sep : ascii) (a b : string) :
  free_of sep b = true ->
  PyStr.split sep (a +:+ String sep b) = PyStr.split sep a ++ [b].
Proof.
  intros Hb. induction a as [|c a IH].
  - rewrite append_nil. cbn [PyStr.split]. destruct (decide (sep = sep)); [| done].
    by rewrite split_free.
  - rewrite append_cons. cbn [PyStr.split]. destruct (decide (c = sep)).
    + by rewrite IH.
    + rewrite IH. pose proof (split_nonempty sep a) as Hne.
      by destruct (PyStr.split sep a).
Qed.

Lemma rstrip_no_space (s : string) : no_space s = true -> PyStr.rstrip s = s.
Proof.
  unfold no_space. induction s as [|c s IH]; [done |]. simpl.
  intros [Hc Hs]%andb_true_iff. apply negb_true_iff in Hc.
  rewrite (IH Hs), Hc. by destruct s.
Qed.

Lemma lstrip_no_space (s : string) : no_space s = true -> PyStr.lstrip s = s.
Proof.
  unfold no_space. destruct s as [|c s]; [done |]. simpl.
  intros [Hc Hs]%andb_true_iff. apply negb_true_iff in Hc. by rewrite Hc.
Qed.

Lemma strip_blank_no_space (s : string) :
  no_space s = true -> PyStr.strip (String " " s) = s.
Proof.
  intros H. unfold PyStr.strip.
  change (PyStr.lstrip (String " " s)) with (PyStr.lstrip s).
  by rewrite lstrip_no_space, rstrip_no_space.
Qed.

(** ** Decimal octets *)

Lemma octets_ok : forallb octet_ok (seqZ 0 256) = true.
Proof. vm_compute. reflexivity. Qed.

Lemma octet_round_trip (o : Z) :
  0 <= o <= 255 ->
  Ipaddress.parse_octet (PyStr.show o) = inr o
  /\ PyStr.all_chars PyStr.is_digit (PyStr.show o) = true.
Proof.
  intros Ho. pose proof octets_ok as H. rewrite forallb_forall in H.
  assert (Hin : In o (seqZ 0 256)).
  { apply list_elem_of_In, elem_of_seqZ. lia. }
  specialize (H o Hin). unfold octet_ok in H.
  destruct (Ipaddress.parse_octet (PyStr.show o)) as [e | v]; [done |].
  apply andb_true_iff in H as [Hv Hd]. apply Z.eqb_eq in Hv. by subst.
Qed.

Lemma digits_free_of (sep : ascii) (s : string) :
  PyStr.is_digit sep = false ->
  PyStr.all_chars PyStr.is_digit s = true -> free_of sep s = true.
Proof.
  intros Hsep. apply all_chars_impl. intros c Hc.
  apply negb_true_iff, bool_decide_eq_false. intros ->. congruence.
Qed.

Lemma digits_no_space (s : string) :
  PyStr.all_chars PyStr.is_digit s = true -> no_space s = true.
Proof.
  apply all_chars_impl. intros c Hc. apply negb_true_iff.
  destruct c as [[] [] [] [] [] [] [] []]; vm_compute in Hc |- *; congruence.
Qed.

(** ** What the resolver returns *)

Lemma network_new_slash_24 (strict : bool) (x : string) (net : Ipaddress.IPv4Network) :
  Ipaddress.IPv4Network_new strict (x +:+ ".0/24") = inr net ->
  Ipaddress.prefixlen net = 24.
Proof.
  unfold Ipaddress.IPv4Network_new.
  assert (Hsplit : PyStr.split "/" (x +:+ ".0/24") = PyStr.split "/" (x +:+ ".0") ++ ["24"]).
  { change (x +:+ ".0/24") with (x +:+ (".0" +:+ String "/" "24")).
    rewrite <- append_assoc. by apply split_snoc. }
  rewrite Hsplit.
  destruct (PyStr.split "/" (x +:+ ".0")) as [|addr [|y l]] eqn:Hx.
  - by apply split_nonempty in Hx.
  - cbn [app].
    destruct (Ipaddress.ip_int_from_string addr) as [e | a]; [done |]. simpl.
    destruct (strict && _); [done |]. by intros [= <-].
  - by destruct l.
Qed.

Lemma gateway_network_slash_24 (line : string) (net : Ipaddress.IPv4Network) :
  gateway_network line = inr net -> Ipaddress.prefixlen net = 24.
Proof.
  unfold gateway_network. destruct (PyStr.split ":" line !! 1%nat); [| done].
  apply network_new_slash_24.
Qed.

Lemma gateway_loop_outcome (lines : list string) (networks : list Ipaddress.IPv4Network) :
  gateway_loop lines = inr networks ->
  networks = [] \/ exists net, networks = [net] /\ Ipaddress.prefixlen net = 24.
Proof.
  induction lines as [|line lines IH]; cbn [gateway_loop].
  - intros [= <-]. by left.
  - destruct (PyStr.contains "gateway:" line); [| exact IH].
    destruct (gateway_network line) as [e | net] eqn:Hn; [done |].
    intros [= <-]. right. exists net. split; [done |].
    by eapply gateway_network_slash_24.
Qed.

Lemma addresses_slash_24 (net : Ipaddress.IPv4Network) :
  Ipaddress.prefixlen net = 24 -> length (Ipaddress.addresses net) = 256%nat.
Proof.
  intros H. unfold Ipaddress.addresses. rewrite H, length_seqZ. reflexivity.
Qed.

(** X9. [_get_network_ranges] always returns: no network, one network or the
    four common ones, each a [/24] of 256 addresses, so the scan submits
    256 hosts per network; when [route] raises, the four common networks. *)
Theorem resolver_returns_slash_24_networks (self : CanonPrinterDiscovery) (w : World) :
  exists networks,
    _get_network_ranges w = inr networks
    /\ (networks = [] \/ (exists net, networks = [net]) \/ networks = four_common_networks)
    /\ Forall (fun net => Ipaddress.prefixlen net = 24
                          /\ length (Ipaddress.addresses net) = 256%nat) networks
    /\ length (submitted self w networks) = (256 * length networks)%nat
    /\ (forall e, route_get_default w = Raised e -> networks = four_common_networks).
Proof.
  assert (Hshape : exists networks,
    _get_network_ranges w = inr networks
    /\ (networks = [] \/ (exists net, networks = [net]) \/ networks = four_common_networks)
    /\ Forall (fun net => Ipaddress.prefixlen net = 24) networks
    /\ (forall e, route_get_default w = Raised e -> networks = four_common_networks)).
  { unfold _get_network_ranges, route_networks.
    destruct (route_get_default w) as [e | returncode stdout].
    - rewrite traverse_common_networks. exists four_common_networks.
      split_and!; [done | by right; right | | done].
      repeat apply Forall_cons_2; try reflexivity. apply Forall_nil_2.
    - destruct (returncode =? 0).
      + destruct (gateway_loop (PyStr.split newline stdout)) as [e | networks] eqn:Hl.
        * rewrite traverse_common_networks. exists four_common_networks.
          split_and!; [done | by right; right | | done].
          repeat apply Forall_cons_2; try reflexivity. apply Forall_nil_2.
        * exists networks. split; [done |].
          destruct (gateway_loop_outcome _ _ Hl) as [-> | (net & -> & Hp)].
          -- split_and!; [by left | apply Forall_nil_2 | done].
          -- split_and!; [right; left; by exists net | | done].
             by apply Forall_singleton.
      + exists []. split_and!; [done | by left | apply Forall_nil_2 | done]. }
  destruct Hshape as (networks & Hrun & Hcases & Hall & Hraised).
  exists networks. split_and!; try done.
  - eapply Forall_impl; [exact Hall |]. intros net Hp.
    split; [done | by apply addresses_slash_24].
  - unfold submitted. rewrite length_fmap.
    clear -Hall. induction Hall as [|net networks Hp _ IH]; [done |].
    cbn [fmap list_fmap concat]. rewrite length_app, IH, (addresses_slash_24 net Hp).
    cbn [length]. lia.
Qed.

(** ** The network of a gateway *)

Lemma lor_high_low (hi lo k : Z) :
  0 <= k -> 0 <= lo < 2 ^ k -> Z.lor (Z.shiftl hi k) lo = hi * 2 ^ k + lo.
Proof.
  intros Hk Hlo.
  assert (Hdisj : Z.land (Z.shiftl hi k) lo = 0).
  { apply Z.bits_inj'. intros n Hn. rewrite Z.land_spec, Z.bits_0.
    destruct (Z.lt_ge_cases n k) as [Hlt | Hge].
    - by rewrite Z.shiftl_spec_low.
    - rewrite <- (Z.mod_small lo (2 ^ k)) by lia.
      rewrite (Z.mod_pow2_bits_high lo k n) by lia. apply andb_false_r. }
  rewrite <- Z.lxor_lor, <- Z.add_nocarry_lxor by done.
  by rewrite Z.shiftl_mul_pow2.
Qed.

Lemma land_netmask_24 (x : Z) :
  0 <= x < 2 ^ 24 -> Z.land (x * 2 ^ 8) (Ipaddress.netmask 24) = x * 2 ^ 8.
Proof.
  intros Hx. apply Z.bits_inj'. intros n Hn.
  rewrite Z.land_spec. unfold Ipaddress.netmask. rewrite Z.lxor_spec.
  change (32 - 24) with 8.
  destruct (Z.lt_ge_cases n 8) as [Hlt | Hge].
  - rewrite Z.mul_pow2_bits_low by done. done.
  - destruct (Z.lt_ge_cases n 32) as [Hlt32 | Hge32].
    + rewrite (Z.ones_spec_low 32 n), (Z.ones_spec_high 8 n) by lia.
      apply andb_true_r.
    + rewrite Z.mul_pow2_bits by lia.
      rewrite <- (Z.mod_small x (2 ^ 24)) by lia.
      rewrite (Z.mod_pow2_bits_high x 24 (n - 8)) by lia. done.
Qed.

Lemma dotted_quad_free_of (sep : ascii) (o1 o2 o3 o4 : Z) :
  PyStr.is_digit sep = false -> sep <> "."%char ->
  0 <= o1 <= 255 -> 0 <= o2 <= 255 -> 0 <= o3 <= 255 -> 0 <= o4 <= 255 ->
  free_of sep (dotted_quad o1 o2 o3 o4) = true.
Proof.
  intros Hsep Hdot H1 H2 H3 H4. unfold dotted_quad, free_of.
  rewrite !all_chars_app.
  pose proof (digits_free_of sep _ Hsep (proj2 (octet_round_trip o1 H1))) as F1.
  pose proof (digits_free_of sep _ Hsep (proj2 (octet_round_trip o2 H2))) as F2.
  pose proof (digits_free_of sep _ Hsep (proj2 (octet_round_trip o3 H3))) as F3.
  pose proof (digits_free_of sep _ Hsep (proj2 (octet_round_trip o4 H4))) as F4.
  unfold free_of in F1, F2, F3, F4. rewrite F1, F2, F3, F4.
  cbn [PyStr.all_chars]. rewrite bool_decide_eq_false_2 by congruence. done.
Qed.

Lemma dotted_quad_no_space (o1 o2 o3 o4 : Z) :
  0 <= o1 <= 255 -> 0 <= o2 <= 255 -> 0 <= o3 <= 255 -> 0 <= o4 <= 255 ->
  no_space (dotted_quad o1 o2 o3 o4) = true.
Proof.
  intros H1 H2 H3 H4. unfold dotted_quad, no_space.
  rewrite !all_chars_app.
  pose proof (digits_no_space _ (proj2 (octet_round_trip o1 H1))) as F1.
  pose proof (digits_no_space _ (proj2 (octet_round_trip o2 H2))) as F2.
  pose proof (digits_no_space _ (proj2 (octet_round_trip o3 H3))) as F3.
  pose proof (digits_no_space _ (proj2 (octet_round_trip o4 H4))) as F4.
  unfold no_space in F1, F2, F3, F4. by rewrite F1, F2, F3, F4.
Qed.

Lemma split_dots (d1 d2 d3 d4 : string) :
  free_of "." d1 = true -> free_of "." d2 = true ->
  free_of "." d3 = true -> free_of "." d4 = true ->
  PyStr.split "." (d1 +:+ "." +:+ d2 +:+ "." +:+ d3 +:+ "." +:+ d4) = [d1; d2; d3; d4].
Proof.
  intros F1 F2 F3 F4.
  change (d1 +:+ "." +:+ d2 +:+ "." +:+ d3 +:+ "." +:+ d4)
    with (d1 +:+ String "." (d2 +:+ String "." (d3 +:+ String "." d4))).
  by rewrite !split_app_sep, split_free.
Qed.

Lemma gateway_network_of_quad (indent : string) (o1 o2 o3 o4 : Z) :
  free_of ":" indent = true ->
  0 <= o1 <= 255 -> 0 <= o2 <= 255 -> 0 <= o3 <= 255 -> 0 <= o4 <= 255 ->
  gateway_network (indent +:+ "gateway: " +:+ dotted_quad o1 o2 o3 o4)
  = inr {| Ipaddress.network_address := o1 * 2 ^ 24 + o2 * 2 ^ 16 + o3 * 2 ^ 8;
           Ipaddress.prefixlen := 24 |}.
Proof.
  intros Hind H1 H2 H3 H4. unfold gateway_network.
  set (q := dotted_quad o1 o2 o3 o4).
  assert (Hq : free_of ":" (String " " q) = true).
  { unfold free_of. cbn [PyStr.all_chars]. apply andb_true_iff.
    split; [done |]. by apply dotted_quad_free_of. }
  change (indent +:+ "gateway: " +:+ q)
    with (indent +:+ "gateway" +:+ String ":" (String " " q)).
  rewrite <- append_assoc, split_app_sep, (split_free _ _ Hq).
  2:{ unfold free_of in *. rewrite all_chars_app, Hind. done. }
  cbn [lookup list_lookup].
  rewrite strip_blank_no_space by (by apply dotted_quad_no_space).
  destruct (octet_round_trip o1 H1) as [P1 D1].
  destruct (octet_round_trip o2 H2) as [P2 D2].
  destruct (octet_round_trip o3 H3) as [P3 D3].
  destruct (octet_round_trip o4 H4) as [P4 D4].
  assert (Fdot : forall d, PyStr.all_chars PyStr.is_digit d = true -> free_of "." d = true).
  { intros d. by apply digits_free_of. }
  assert (Fslash : forall d, PyStr.all_chars PyStr.is_digit d = true -> free_of "/" d = true).
  { intros d. by apply digits_free_of. }
  unfold q, dotted_quad. rewrite split_dots by (try apply Fdot; first [assumption | reflexivity]).
  cbn [removelast PyStr.join].
  set (d1 := PyStr.show o1) in *. set (d2 := PyStr.show o2) in *.
  set (d3 := PyStr.show o3) in *.
  unfold Ipaddress.IPv4Network_new.
  change ((d1 +:+ "." +:+ d2 +:+ "." +:+ d3) +:+ ".0/24")
    with ((d1 +:+ "." +:+ d2 +:+ "." +:+ d3) +:+ ".0" +:+ String "/" "24").
  rewrite <- append_assoc, split_app_sep.
  2:{ unfold free_of. rewrite !all_chars_app.
      pose proof (Fslash d1 D1) as S1. pose proof (Fslash d2 D2) as S2.
      pose proof (Fslash d3 D3) as S3. unfold free_of in S1, S2, S3.
      by rewrite S1, S2, S3. }
  rewrite (split_free "/" "24") by done.
  unfold Ipaddress.ip_int_from_string.
  rewrite !append_assoc.
  change (d3 +:+ ".0") with (d3 +:+ "." +:+ "0").
  rewrite split_dots by (try apply Fdot; first [assumption | reflexivity]).
  rewrite P1. cbn [mbind exc_bind]. rewrite P2. cbn [mbind exc_bind].
  rewrite P3. cbn [mbind exc_bind].
  change (Ipaddress.parse_octet "0") with (inr 0 : exc Z).
  change (Ipaddress.prefix_from_prefix_string "24") with (inr 24 : exc Z).
  cbn [mbind exc_bind mret exc_ret andb].
  rewrite Z.lor_0_r.
  assert (Hval : Z.lor (Z.shiftl o1 24) (Z.lor (Z.shiftl o2 16) (Z.shiftl o3 8))
                 = (o1 * 2 ^ 16 + o2 * 2 ^ 8 + o3) * 2 ^ 8).
  { rewrite (Z.shiftl_mul_pow2 o3 8) by lia.
    rewrite (lor_high_low o2 (o3 * 2 ^ 8) 16) by lia.
    rewrite (lor_high_low o1 _ 24) by lia. lia. }
  rewrite Hval, land_netmask_24 by lia.
  f_equal. f_equal. lia.
Qed.

Lemma gateway_loop_skips (before : list string) (line : string) (after : list string) :
  Forall (fun l => PyStr.contains "gateway:" l = false) before ->
  PyStr.contains "gateway:" line = true ->
  gateway_loop (before ++ line :: after)
  = (network ← gateway_network line; mret [network]).
Proof.
  intros Hb Hl. induction Hb as [|l before Hno _ IH]; cbn [app gateway_loop].
  - by rewrite Hl.
  - by rewrite Hno.
Qed.

(** X10. When [route] exits with 0 and the first line of its output that
    names a gateway is [gateway: a.b.c.d] after an indentation, the only
    network returned is [a.b.c.0/24]. *)
Theorem gateway_line_gives_its_network (w : World) (stdout : string)
    (before after : list string) (indent : string) (o1 o2 o3 o4 : Z) :
  route_get_default w = Completed 0 stdout ->
  PyStr.split newline stdout
    = before ++ (indent +:+ "gateway: " +:+ dotted_quad o1 o2 o3 o4) :: after ->
  Forall (fun l => PyStr.contains "gateway:" l = false) before ->
  free_of ":" indent = true ->
  0 <= o1 <= 255 -> 0 <= o2 <= 255 -> 0 <= o3 <= 255 -> 0 <= o4 <= 255 ->
  _get_network_ranges w
  = inr [ {| Ipaddress.network_address := o1 * 2 ^ 24 + o2 * 2 ^ 16 + o3 * 2 ^ 8;
             Ipaddress.prefixlen := 24 |} ].
Proof.
  intros Hrun Hlines Hbefore Hind H1 H2 H3 H4.
  unfold _get_network_ranges, route_networks. rewrite Hrun, Hlines.
  change (0 =? 0) with true. cbn match.
  rewrite gateway_loop_skips; [| done |].
  - by rewrite gateway_network_of_quad.
  - apply contains_spec. by exists indent, (String " " (dotted_quad o1 o2 o3 o4)).
Qed.

Lemma gateway_line_gives_its_network_witness :
  _get_network_ranges ts3400_world
  = inr [ {| Ipaddress.network_address := 192 * 2 ^ 24 + 168 * 2 ^ 16 + 1 * 2 ^ 8;
             Ipaddress.prefixlen := 24 |} ].
Proof.
  apply (gateway_line_gives_its_network ts3400_world
           ("   route to: default" +:+ String newline "    gateway: 192.168.1.1"
            +:+ String newline "  interface: en0")
           ["   route to: default"] ["  interface: en0"] "    " 192 168 1 1).
  - reflexivity.
  - reflexivity.
  - apply Forall_singleton. reflexivity.
  - reflexivity.
  - lia.
  - lia.
  - lia.
  - lia.
Defined.

(** ** Ordered dicts *)
Section dicts.

Context {V : Type}.
Implicit Types (d : list (string * V)) (k : string) (v : V).

Lemma dict_get_set_eq k v d :
  ConfigManager.dict_get k (ConfigManager.dict_set k v d) = Some v.
Proof.
  induction d as [|[k' v'] d IH]; simpl.
  - by rewrite decide_True.
  - destruct (decide (k' = k)) as [-> | Hne]; simpl.
    + by rewrite decide_True.
    + by rewrite decide_False.
Qed.

Lemma dict_get_set_ne k k' v d :
  k <> k' -> ConfigManager.dict_get k' (ConfigManager.dict_set k v d) = ConfigManager.dict_get k' d.
Proof.
  intros Hne. induction d as [|[k0 v0] d IH]; simpl.
  - by rewrite decide_False.
  - destruct (decide (k0 = k)) as [-> | Hne0]; simpl.
    + by rewrite !decide_False.
    + by rewrite IH.
Qed.

Lemma dict_get_None k d :
  ConfigManager.dict_get k d = None <-> k ∉ d.*1.
Proof.
  induction d as [|[k' v'] d IH]; simpl.
  - split; [intros _; apply not_elem_of_nil | done].
  - rewrite not_elem_of_cons. destruct (decide (k' = k)) as [-> | Hne].
    + split; [done | by intros [? _]].
    + rewrite IH. split; [by intros ? | by intros [_ ?]].
Qed.

Lemma dict_get_Some_elem k v d :
  ConfigManager.dict_get k d = Some v -> (k, v) ∈ d.
Proof.
  induction d as [|[k' v'] d IH]; simpl; [done |].
  destruct (decide (k' = k)) as [-> | Hne].
  - intros [= ->]. by left.
  - intros H. right. by apply IH.
Qed.

(** The keys after an assignment: unchanged for a key that was there, one
    more at the end for a new key. *)
Lemma dict_set_keys k v d :
  (ConfigManager.dict_set k v d).*1
  = if decide (k ∈ d.*1) then d.*1 else d.*1 ++ [k].
Proof.
  induction d as [|[k' v'] d IH].
  - case_decide as Hin; [by apply elem_of_nil in Hin | done].
  - cbn [ConfigManager.dict_set]. destruct (decide (k' = k)) as [-> | Hne].
    + clear IH. rewrite !fmap_cons. case_decide as Hin; [done |]. destruct Hin. by left.
    + rewrite !fmap_cons, IH. clear IH. cbn [fst].
      destruct (decide (k ∈ d.*1)) as [Hin | Hnot]; case_decide as Hin'; try done.
      * destruct Hin'. by right.
      * apply elem_of_cons in Hin' as [-> | Hin']; done.
Qed.

End dicts.

(** ** Merging a loaded configuration into the defaults *)

Lemma merge_items_get (result items : ConfigManager.dict) (k : string) :
  NoDup (items.*1) ->
  ConfigManager.dict_get k
    (ConfigManager.merge_items
       (fun d1 value => ConfigManager.deep_merge_node d1 value) result items)
  = match ConfigManager.dict_get k items with
    | Some value => Some (merged_value result k value)
    | None => ConfigManager.dict_get k result
    end.
Proof.
  revert result. induction items as [|[key value] items IH]; intros result Hnd; [done |].
  apply NoDup_cons in Hnd as [Hkey Hnd].
  cbn [ConfigManager.merge_items ConfigManager.dict_get]. rewrite (IH _ Hnd).
  destruct (decide (key = k)) as [-> | Hne].
  - rewrite (proj2 (dict_get_None k items) Hkey). unfold merged_value.
    destruct (ConfigManager.dict_get k result) as [[v1 | d1]|];
      destruct value as [v2 | d2]; by rewrite dict_get_set_eq.
  - assert (Hres : forall x, ConfigManager.dict_get k (ConfigManager.dict_set key x result)
                             = ConfigManager.dict_get k result).
    { intros x. by apply dict_get_set_ne. }
    destruct (ConfigManager.dict_get k items) as [v|].
    + unfold merged_value.
      destruct (ConfigManager.dict_get key result) as [[v1 | d1]|];
        destruct value as [v2 | d2]; by rewrite Hres.
    + destruct (ConfigManager.dict_get key result) as [[v1 | d1]|];
        destruct value as [v2 | d2]; by rewrite Hres.
Qed.

(** X11. What [_deep_merge] leaves under a key: the value of the second dict
    where it has the key, merged recursively when both values are dicts,
    and the value of the first dict otherwise. *)
Theorem deep_merge_lookup (dict1 dict2 : ConfigManager.dict) (k : string) :
  NoDup (dict2.*1) ->
  ConfigManager.dict_get k (ConfigManager._deep_merge dict1 dict2)
  = match ConfigManager.dict_get k dict2 with
    | Some value => Some (merged_value dict1 k value)
    | None => ConfigManager.dict_get k dict1
    end.
Proof. apply merge_items_get. Qed.

Lemma deep_merge_lookup_witness :
  NoDup (loaded_config.*1)
  /\ ConfigManager.dict_get "network" (ConfigManager._deep_merge default_config loaded_config)
     = Some (ConfigManager.Node [("ports", ConfigManager.Leaf (VList ["631"; "9100"]));
                                 ("max_workers", ConfigManager.Leaf (VInt 10))])
  /\ ConfigManager.dict_get "default_copies"
       (ConfigManager._deep_merge default_config loaded_config)
     = Some (ConfigManager.Leaf (VInt 1)).
Proof.
  assert (Hnd : NoDup (loaded_config.*1)).
  { cbn. apply NoDup_cons. split; [| apply NoDup_singleton].
    intros H%list_elem_of_singleton. discriminate H. }
  split; [exact Hnd |].
  split; [exact (deep_merge_lookup default_config loaded_config "network" Hnd) |].
  exact (deep_merge_lookup default_config loaded_config "default_copies" Hnd).
Defined.

Lemma distinct_keys_child (d : ConfigManager.dict) (k : string) (t : ConfigManager.tree) :
  distinct_keys (ConfigManager.Node d) ->
  ConfigManager.dict_get k d = Some t -> distinct_keys t.
Proof.
  intros [_ Hall] Hget. apply dict_get_Some_elem in Hget.
  induction d as [|kv d IH]; [by apply elem_of_nil in Hget |].
  destruct Hall as [Hhd Htl].
  apply elem_of_cons in Hget as [<- | Hin]; [done | by apply IH].
Qed.

(** X12. A value that is not a dict and stands at a dotted path of the loaded
    configuration is what [get] returns for that path after the merge with
    the defaults, whatever the defaults hold. *)
Theorem loaded_leaf_overrides_default (defaults loaded : ConfigManager.dict)
    (key : string) (v : value) (dflt : ConfigManager.tree) :
  distinct_keys (ConfigManager.Node loaded) ->
  ConfigManager.walk (ConfigManager.Node loaded) (PyStr.split "." key)
    = inr (ConfigManager.Leaf v) ->
  ConfigManager.get (ConfigManager._deep_merge defaults loaded) key dflt
  = ConfigManager.Leaf v.
Proof.
  intros Hwf Hwalk. unfold ConfigManager.get.
  assert (H : ConfigManager.walk
                (ConfigManager.Node (ConfigManager._deep_merge defaults loaded))
                (PyStr.split "." key) = inr (ConfigManager.Leaf v)); [| by rewrite H].
  revert defaults loaded Hwf Hwalk.
  induction (PyStr.split "." key) as [|k keys IH]; intros defaults loaded Hwf Hwalk; [done |].
  cbn [ConfigManager.walk ConfigManager.subscript] in Hwalk |- *.
  destruct (ConfigManager.dict_get k loaded) as [t2|] eqn:Hk; [| done].
  change (ConfigManager._deep_merge defaults loaded)
    with (ConfigManager.merge_items
            (fun d1 value => ConfigManager.deep_merge_node d1 value) defaults loaded).
  rewrite merge_items_get, Hk by apply Hwf.
  unfold merged_value.
  destruct t2 as [v2 | d2].
  - by destruct (ConfigManager.dict_get k defaults) as [[? | ?]|].
  - destruct (ConfigManager.dict_get k defaults) as [[v1 | d1]|]; try done.
    apply IH; [| done]. by eapply distinct_keys_child.
Qed.

Lemma loaded_leaf_overrides_default_witness :
  distinct_keys (ConfigManager.Node loaded_config)
  /\ ConfigManager.get (ConfigManager._deep_merge default_config loaded_config)
       "network.max_workers" (ConfigManager.Leaf VNone)
     = ConfigManager.Leaf (VInt 10).
Proof.
  assert (Hwf : distinct_keys (ConfigManager.Node loaded_config)).
  { cbn. split_and!; try done.
    - apply NoDup_cons. split; [| apply NoDup_singleton].
      intros H%list_elem_of_singleton. discriminate H.
    - apply NoDup_singleton. }
  split; [exact Hwf |].
  apply (loaded_leaf_overrides_default default_config loaded_config "network.max_workers"
           (VInt 10) (ConfigManager.Leaf VNone) Hwf).
  reflexivity.
Defined.

(** ** Setting and getting a configuration value *)

Lemma set_keys_walk (keys : list string) :
  forall (t t' value : ConfigManager.tree),
    keys <> [] ->
    ConfigManager.set_keys t keys value = inr t' ->
    ConfigManager.walk t' keys = inr value.
Proof.
  induction keys as [|k keys IH]; intros t t' value Hne; [done |].
  destruct t as [v | d]; [done |]. cbn [ConfigManager.set_keys].
  destruct keys as [|k2 keys].
  - intros [= <-]. cbn [ConfigManager.walk ConfigManager.subscript].
    by rewrite dict_get_set_eq.
  - destruct (ConfigManager.set_keys _ (k2 :: keys) value) as [e | child'] eqn:Hc; [done |].
    intros [= <-]. cbn [ConfigManager.walk ConfigManager.subscript].
    rewrite dict_get_set_eq. by eapply IH.
Qed.

Lemma set_keys_node (keys : list string) (t t' value : ConfigManager.tree) :
  ConfigManager.set_keys t keys value = inr t' -> exists d, t' = ConfigManager.Node d.
Proof.
  destruct keys as [|k [|k2 keys]]; (destruct t as [v | d]; [done |]);
    cbn [ConfigManager.set_keys].
  - intros [= <-]. by eexists.
  - intros [= <-]. by eexists.
  - case_match; [done |]. intros [= <-]. by eexists.
Qed.

(** [set] fails exactly when a proper part of the path ends at a value that
    is not a dict. *)
Lemma set_keys_fails (keys : list string) :
  forall (d : ConfigManager.dict) (value : ConfigManager.tree),
    keys <> [] ->
    ((exists e, ConfigManager.set_keys (ConfigManager.Node d) keys value = inl e)
     <-> exists (i : nat) v,
           (0 < i < length keys)%nat
           /\ ConfigManager.walk (ConfigManager.Node d) (take i keys)
              = inr (ConfigManager.Leaf v)).
Proof.
  induction keys as [|k keys IH]; intros d value Hne; [done |].
  cbn [ConfigManager.set_keys].
  destruct keys as [|k2 keys].
  - split; [by intros [e ?] |]. intros (i & v & Hi & _). simpl in Hi. lia.
  - set (child := match ConfigManager.dict_get k d with
                  | Some c => c
                  | None => ConfigManager.Node []
                  end).
    assert (Hsub : forall (i : nat),
              ConfigManager.walk (ConfigManager.Node d) (take (S i) (k :: k2 :: keys))
              = match ConfigManager.dict_get k d with
                | Some c => ConfigManager.walk c (take i (k2 :: keys))
                | None => inl (ConfigManager.KeyError k)
                end).
    { intros i. cbn [take ConfigManager.walk ConfigManager.subscript].
      by destruct (ConfigManager.dict_get k d). }
    split.
    + intros [e He].
      destruct (ConfigManager.set_keys child (k2 :: keys) value) as [e' | c'] eqn:Hc;
        [| done].
      destruct child as [v | dc] eqn:Hchild.
      * exists 1%nat, v. split; [simpl; lia |]. rewrite Hsub.
        unfold child in Hchild. destruct (ConfigManager.dict_get k d); [| done].
        by subst.
      * destruct (proj1 (IH dc value ltac:(done))) as (i & v & Hi & Hw); [by exists e' |].
        exists (S i), v. split; [simpl in *; lia |]. rewrite Hsub.
        unfold child in Hchild. destruct (ConfigManager.dict_get k d) as [c|].
        -- by subst.
        -- injection Hchild as <-. destruct i as [|i]; [lia |]. done.
    + intros ([|i] & v & Hi & Hw); [lia |]. rewrite Hsub in Hw.
      destruct (ConfigManager.dict_get k d) as [c|] eqn:Hk; [| done].
      unfold child. destruct c as [vc | dc]; [by eexists |].
      destruct i as [|i]; [done |].
      destruct (proj2 (IH dc value ltac:(done))) as [e He].
      { exists (S i), v. split; [simpl in *; lia | done]. }
      exists e. by rewrite He.
Qed.

(** X13. After a [set] that returns, [get] of the same key gives the value
    that was set. *)
Theorem set_then_get (config config' : ConfigManager.dict) (key : string)
    (value dflt : ConfigManager.tree) :
  ConfigManager.set config key value = inr config' ->
  ConfigManager.get config' key dflt = value.
Proof.
  unfold ConfigManager.set, ConfigManager.get.
  pose proof (split_nonempty "." key) as Hne.
  destruct (ConfigManager.set_keys _ (PyStr.split "." key) value) as [e | t'] eqn:Hset;
    [done |].
  destruct t' as [v | d']; [done |]. intros [= <-].
  by rewrite (set_keys_walk _ _ _ _ Hne Hset).
Qed.

Lemma set_then_get_witness :
  ConfigManager.set loaded_config "network.proxy.host" (ConfigManager.Leaf (VStr "gw"))
  = inr proxy_config
  /\ ConfigManager.get proxy_config "network.proxy.host" (ConfigManager.Leaf VNone)
     = ConfigManager.Leaf (VStr "gw").
Proof.
  assert (Hset : ConfigManager.set loaded_config "network.proxy.host"
                   (ConfigManager.Leaf (VStr "gw")) = inr proxy_config)
    by reflexivity.
  split; [exact Hset |].
  exact (set_then_get _ _ _ _ (ConfigManager.Leaf VNone) Hset).
Defined.

(** X14. [set] raises exactly when a proper non-empty prefix of the dotted
    path leads to a value that is not a dict. *)
Theorem set_raises (config : ConfigManager.dict) (key : string) (value : ConfigManager.tree) :
  (exists e, ConfigManager.set config key value = inl e)
  <-> exists (i : nat) v,
        (0 < i < length (PyStr.split "." key))%nat
        /\ ConfigManager.walk (ConfigManager.Node config) (take i (PyStr.split "." key))
           = inr (ConfigManager.Leaf v).
Proof.
  pose proof (split_nonempty "." key) as Hne.
  rewrite <- (set_keys_fails _ config value Hne). unfold ConfigManager.set.
  destruct (ConfigManager.set_keys _ (PyStr.split "." key) value) as [e | t'] eqn:Hset.
  - split; intros _; by exists e.
  - destruct (set_keys_node _ _ _ _ Hset) as [d ->].
    split; by intros [e ?].
Qed.

(** ** Saving a printer *)

(** X15. [save_printer_info] never changes the configuration, does nothing
    when the history is switched off, and otherwise writes [name], [model],
    [status], [last_seen] and [capabilities] of the entry and nothing else:
    every other key of the entry, and every other entry, stays as it was,
    and a new uri goes to the end of the cache. *)
Theorem save_printer_info_writes_five_keys (self : ConfigManager.t) (now : string)
    (printer_uri : string) (printer_info : ConfigManager.entry) :
  let self' := ConfigManager.save_printer_info self now printer_uri printer_info in
  let existing : ConfigManager.entry :=
    default ∅ (ConfigManager.dict_get printer_uri (ConfigManager.printers_cache self)) in
  ConfigManager.config self' = ConfigManager.config self
  /\ (history_enabled self = false -> self' = self)
  /\ (history_enabled self = true ->
      (exists saved,
         ConfigManager.dict_get printer_uri (ConfigManager.printers_cache self') = Some saved
         /\ saved !! "name"
            = Some (ConfigManager.entry_get printer_info "name"
                      (ConfigManager.entry_get existing "name"
                         (ConfigManager.Scalar (VStr "Unknown"))))
         /\ saved !! "model"
            = Some (ConfigManager.entry_get printer_info "model"
                      (ConfigManager.entry_get existing "model"
                         (ConfigManager.Scalar (VStr "Unknown"))))
         /\ saved !! "status"
            = Some (ConfigManager.entry_get printer_info "status"
                      (ConfigManager.Scalar (VStr "Unknown")))
         /\ saved !! "last_seen" = Some (ConfigManager.Scalar (VStr now))
         /\ saved !! "capabilities"
            = Some (ConfigManager.entry_get printer_info "capabilities"
                      (ConfigManager.entry_get existing "capabilities"
                         (ConfigManager.Dict ∅)))
         /\ (forall k, k ∉ saved_keys -> saved !! k = existing !! k))
      /\ (forall uri, uri <> printer_uri ->
            ConfigManager.dict_get uri (ConfigManager.printers_cache self')
            = ConfigManager.dict_get uri (ConfigManager.printers_cache self))
      /\ (ConfigManager.printers_cache self').*1
         = (if decide (printer_uri ∈ (ConfigManager.printers_cache self).*1)
            then (ConfigManager.printers_cache self).*1
            else (ConfigManager.printers_cache self).*1 ++ [printer_uri])).
Proof.
  intros self' existing. subst self'. unfold ConfigManager.save_printer_info.
  fold (history_enabled self). fold existing.
  destruct (history_enabled self); cbn [negb].
  - split; [done |]. split; [done |]. intros _. cbn [ConfigManager.printers_cache].
    split_and!.
    + eexists. split; [apply dict_get_set_eq |].
      split_and!; try (rewrite lookup_union_l'; [lookup_key | by (eexists; lookup_key)]).
      intros k Hk. unfold saved_keys in Hk.
      rewrite !not_elem_of_cons in Hk. destruct Hk as (? & ? & ? & ? & ? & _).
      apply lookup_union_r. by rewrite !lookup_insert_ne, lookup_empty.
    + intros uri Hne. by apply dict_get_set_ne.
    + apply dict_set_keys.
  - by split_and!.
Qed.

(** ** Adding a printer by hand *)

Lemma scalar_fields_lookup (e : ConfigManager.entry) (k : string) :
  ConfigManager.scalar_fields e !! k
  = e !! k ≫= (fun f => match f with
                        | ConfigManager.Scalar v => Some v
                        | ConfigManager.Dict _ => None
                        end).
Proof. unfold ConfigManager.scalar_fields. apply lookup_omap. Qed.

Lemma manually_added_same (uri : string) (e1 e2 : ConfigManager.entry) :
  e1 !! "manually_added" = e2 !! "manually_added" ->
  manually_added (uri, ConfigManager.scalar_fields e1)
  = manually_added (uri, ConfigManager.scalar_fields e2).
Proof.
  intros H. unfold manually_added, get. cbn [snd].
  by rewrite !scalar_fields_lookup, H.
Qed.

Lemma manual_loop_app (w : World) (c1 c2 : printers_cache_t) :
  manual_loop w (c1 ++ c2) = manual_loop w c1 ++ manual_loop w c2.
Proof.
  induction c1 as [|[uri info] c1 IH]; [done |]. cbn [app manual_loop].
  destruct (truthy _); [| done]. by rewrite IH.
Qed.

Lemma manual_loop_uris (w : World) (c : printers_cache_t) :
  (fun r : record => r !! "uri") <$> manual_loop w c
  = (fun item : string * record => Some (VStr item.1)) <$> List.filter manually_added c.
Proof.
  rewrite manual_loop_map_filter, <- list_fmap_compose.
  apply list_fmap_ext. intros _ [uri info] _. apply manual_record_uri.
Qed.

(** Replacing an entry by one with the same mark, or adding an entry
    without a mark, leaves the marked uris as they are. *)
Lemma marked_uris_set (c : list (string * ConfigManager.entry)) (uri : string)
    (e' : ConfigManager.entry) :
  e' !! "manually_added"
    = (default ∅ (ConfigManager.dict_get uri c) : ConfigManager.entry) !! "manually_added" ->
  (List.filter manually_added (view_item <$> ConfigManager.dict_set uri e' c)).*1
  = (List.filter manually_added (view_item <$> c)).*1.
Proof.
  induction c as [|[k e] c IH]; intros He'.
  - cbn [ConfigManager.dict_set fmap list_fmap List.filter].
    assert (Hno : manually_added (view_item (uri, e')) = false).
    { unfold view_item. cbn [fst snd].
      rewrite (manually_added_same uri e' ∅ He'). reflexivity. }
    by rewrite Hno.
  - cbn [ConfigManager.dict_set ConfigManager.dict_get] in He' |- *.
    destruct (decide (k = uri)) as [-> | Hne].
    + cbn [fmap list_fmap List.filter]. unfold view_item at 1 3. cbn [fst snd].
      rewrite (manually_added_same uri e' e He').
      by destruct (manually_added _).
    + cbn [fmap list_fmap List.filter].
      destruct (manually_added (view_item (k, e))); cbn [fmap list_fmap];
        by rewrite (IH He').
Qed.

Lemma unmarked_new_entry (w : World) (c : list (string * ConfigManager.entry))
    (uri : string) (e' : ConfigManager.entry) :
  ConfigManager.dict_get uri c = None ->
  e' !! "manually_added" = None ->
  manual_loop w (view_item <$> ConfigManager.dict_set uri e' c)
  = manual_loop w (view_item <$> c).
Proof.
  intros Hnone He'. induction c as [|[k e] c IH].
  - cbn [ConfigManager.dict_set fmap list_fmap manual_loop].
    unfold view_item. cbn [fst snd]. unfold get.
    rewrite scalar_fields_lookup, He'. reflexivity.
  - cbn [ConfigManager.dict_set ConfigManager.dict_get] in Hnone |- *.
    destruct (decide (k = uri)); [done |].
    cbn [fmap list_fmap].
    change (view_item (k, e)) with (k, ConfigManager.scalar_fields e).
    cbn [manual_loop]. by rewrite (IH Hnone).
Qed.

Lemma save_keeps_marks (self : ConfigManager.t) (now uri : string)
    (printer_info : ConfigManager.entry) (w : World) :
  let self' := ConfigManager.save_printer_info self now uri printer_info in
  (fun r : record => r !! "uri") <$> manual_printers_of self' w
  = (fun r : record => r !! "uri") <$> manual_printers_of self w
  /\ (uri ∉ (ConfigManager.printers_cache self).*1 ->
      manual_printers_of self' w = manual_printers_of self w).
Proof.
  intros self'. subst self'. unfold ConfigManager.save_printer_info.
  destruct (negb _); [done |].
  unfold manual_printers_of, _get_manual_printers, ConfigManager.discovery_cache.
  cbn [config_manager __init__ ConfigManager.printers_cache].
  set (existing := default ∅ (ConfigManager.dict_get uri (ConfigManager.printers_cache self))).
  match goal with
  | |- context [ConfigManager.dict_set uri ?e _] => set (saved := e)
  end.
  assert (Hmark : saved !! "manually_added" = existing !! "manually_added").
  { unfold saved. apply lookup_union_r. by rewrite !lookup_insert_ne, lookup_empty. }
  split.
  - rewrite !manual_loop_uris.
    change (fun item : string * ConfigManager.entry =>
              (item.1, ConfigManager.scalar_fields item.2)) with view_item.
    pose proof (marked_uris_set (ConfigManager.printers_cache self) uri saved Hmark) as H.
    assert (Hc : forall l : list (string * record),
              (fun item : string * record => Some (VStr item.1)) <$> l
              = (fun u : string => Some (VStr u)) <$> l.*1).
    { intros l. by rewrite <- list_fmap_compose. }
    by rewrite !Hc, H.
  - intros Hnew. apply dict_get_None in Hnew.
    change (fun item : string * ConfigManager.entry =>
              (item.1, ConfigManager.scalar_fields item.2)) with view_item.
    apply unmarked_new_entry; [done |].
    rewrite Hmark. unfold existing. by rewrite Hnew.
Qed.

(** ** The address pattern of [add_printer] *)

Lemma more_digits_sound (n : nat) (s : string) :
  exists g, s = g +:+ CanonPrinterCLI.more_digits n s
            /\ PyStr.all_chars PyStr.is_digit g = true
            /\ (String.length g <= n)%nat.
Proof.
  revert s. induction n as [|n IH]; intros s.
  - exists EmptyString. destruct s; cbn; split_and!; try done.
  - destruct s as [|c s].
    + exists EmptyString. by split_and!; cbn; try lia.
    + cbn [CanonPrinterCLI.more_digits]. destruct (PyStr.is_digit c) eqn:Hc.
      * destruct (IH s) as (g & Hs & Hg & Hlen).
        exists (String c g).
        split_and!; [rewrite append_cons; by f_equal | | cbn [String.length]; lia].
        cbn [PyStr.all_chars]. by rewrite Hc, Hg.
      * exists EmptyString. by split_and!; cbn; try lia.
Qed.

Lemma digits_1_3_sound (s rest : string) :
  CanonPrinterCLI.digits_1_3 s = Some rest ->
  exists g, s = g +:+ rest /\ digit_group g.
Proof.
  destruct s as [|c s]; [done |]. cbn [CanonPrinterCLI.digits_1_3].
  destruct (PyStr.is_digit c) eqn:Hc; [| done]. intros [= <-].
  destruct (more_digits_sound 2 s) as (g & Hs & Hg & Hlen).
  exists (String c g). split; [rewrite append_cons; by f_equal |].
  split; [cbn [PyStr.all_chars]; by rewrite Hc, Hg | cbn [String.length]; lia].
Qed.

Lemma more_digits_complete (n : nat) (g rest : string) :
  PyStr.all_chars PyStr.is_digit g = true ->
  (String.length g <= n)%nat ->
  no_digit_head rest = true ->
  CanonPrinterCLI.more_digits n (g +:+ rest) = rest.
Proof.
  revert g. induction n as [|n IH]; intros g Hg Hlen Hrest.
  - destruct g; [| cbn in Hlen; lia]. rewrite append_nil. by destruct rest.
  - destruct g as [|c g].
    + rewrite append_nil. destruct rest as [|c rest]; [done |].
      cbn [CanonPrinterCLI.more_digits]. cbn [no_digit_head] in Hrest.
      by destruct (PyStr.is_digit c).
    + rewrite append_cons. cbn [CanonPrinterCLI.more_digits].
      cbn [PyStr.all_chars] in Hg. apply andb_true_iff in Hg as [Hc Hg].
      rewrite Hc. apply IH; [done | cbn [String.length] in Hlen; lia | done].
Qed.

Lemma digits_1_3_complete (g rest : string) :
  digit_group g -> no_digit_head rest = true ->
  CanonPrinterCLI.digits_1_3 (g +:+ rest) = Some rest.
Proof.
  intros [Hg Hlen] Hrest. destruct g as [|c g]; [cbn in Hlen; lia |].
  rewrite append_cons. cbn [CanonPrinterCLI.digits_1_3].
  cbn [PyStr.all_chars] in Hg. apply andb_true_iff in Hg as [Hc Hg].
  rewrite Hc. f_equal.
  apply more_digits_complete; [done | cbn [String.length] in Hlen; lia | done].
Qed.

Lemma dot_sound (s rest : string) :
  CanonPrinterCLI.dot s = Some rest -> s = "." +:+ rest.
Proof.
  destruct s as [|c s]; [done |]. cbn [CanonPrinterCLI.dot].
  case_decide as Hc; [| done]. by intros [= <-]; subst c.
Qed.

Lemma at_end_spec (s : string) :
  CanonPrinterCLI.at_end s = true <-> s = EmptyString \/ s = String newline EmptyString.
Proof.
  unfold CanonPrinterCLI.at_end. rewrite orb_true_iff, !bool_decide_eq_true. done.
Qed.

Lemma ip_pattern_sound (ip : string) :
  CanonPrinterCLI.ip_pattern_match ip = true ->
  exists g1 g2 g3 g4 tail,
    ip = g1 +:+ "." +:+ g2 +:+ "." +:+ g3 +:+ "." +:+ g4 +:+ tail
    /\ digit_group g1 /\ digit_group g2 /\ digit_group g3 /\ digit_group g4
    /\ (tail = EmptyString \/ tail = String newline EmptyString).
Proof.
  unfold CanonPrinterCLI.ip_pattern_match.
  destruct (CanonPrinterCLI.digits_1_3 ip) as [s1|] eqn:H1; [| done]. cbn [mbind option_bind].
  destruct (CanonPrinterCLI.dot s1) as [s2|] eqn:D1; [| done]. cbn [mbind option_bind].
  destruct (CanonPrinterCLI.digits_1_3 s2) as [s3|] eqn:H2; [| done]. cbn [mbind option_bind].
  destruct (CanonPrinterCLI.dot s3) as [s4|] eqn:D2; [| done]. cbn [mbind option_bind].
  destruct (CanonPrinterCLI.digits_1_3 s4) as [s5|] eqn:H3; [| done]. cbn [mbind option_bind].
  destruct (CanonPrinterCLI.dot s5) as [s6|] eqn:D3; [| done]. cbn [mbind option_bind].
  destruct (CanonPrinterCLI.digits_1_3 s6) as [s7|] eqn:H4; [| done].
  intros Hend. apply at_end_spec in Hend.
  apply digits_1_3_sound in H1 as (g1 & -> & Hg1).
  apply digits_1_3_sound in H2 as (g2 & -> & Hg2).
  apply digits_1_3_sound in H3 as (g3 & -> & Hg3).
  apply digits_1_3_sound in H4 as (g4 & -> & Hg4).
  apply dot_sound in D1 as ->. apply dot_sound in D2 as ->. apply dot_sound in D3 as ->.
  by exists g1, g2, g3, g4, s7.
Qed.

Lemma ip_pattern_complete (g1 g2 g3 g4 tail : string) :
  digit_group g1 -> digit_group g2 -> digit_group g3 -> digit_group g4 ->
  tail = EmptyString \/ tail = String newline EmptyString ->
  CanonPrinterCLI.ip_pattern_match
    (g1 +:+ "." +:+ g2 +:+ "." +:+ g3 +:+ "." +:+ g4 +:+ tail) = true.
Proof.
  intros Hg1 Hg2 Hg3 Hg4 Htail. unfold CanonPrinterCLI.ip_pattern_match.
  rewrite (digits_1_3_complete g1) by done. cbn [mbind option_bind].
  rewrite append_cons, append_nil. cbn [CanonPrinterCLI.dot]. rewrite decide_True by done.
  cbn [mbind option_bind].
  rewrite (digits_1_3_complete g2) by done. cbn [mbind option_bind].
  rewrite append_cons, append_nil. cbn [CanonPrinterCLI.dot]. rewrite decide_True by done.
  cbn [mbind option_bind].
  rewrite (digits_1_3_complete g3) by done. cbn [mbind option_bind].
  rewrite append_cons, append_nil. cbn [CanonPrinterCLI.dot]. rewrite decide_True by done.
  cbn [mbind option_bind].
  rewrite (digits_1_3_complete g4) by (by destruct Htail as [-> | ->]).
  by apply at_end_spec.
Qed.

(** X16. The address pattern of [add_printer] accepts exactly four groups of
    one to three digits with dots between them, and such a text followed
    by one newline. *)
Theorem ip_pattern_language (ip : string) :
  CanonPrinterCLI.ip_pattern_match ip = true
  <-> exists g1 g2 g3 g4 tail,
        ip = g1 +:+ "." +:+ g2 +:+ "." +:+ g3 +:+ "." +:+ g4 +:+ tail
        /\ digit_group g1 /\ digit_group g2 /\ digit_group g3 /\ digit_group g4
        /\ (tail = EmptyString \/ tail = String newline EmptyString).
Proof.
  split; [apply ip_pattern_sound |].
  intros (g1 & g2 & g3 & g4 & tail & -> & ? & ? & ? & ? & ?).
  by apply ip_pattern_complete.
Qed.

Lemma shown_numbers_are_groups :
  forallb (fun o => digit_group_b (PyStr.show o)) (seqZ 0 1000) = true.
Proof. vm_compute. reflexivity. Qed.

Lemma show_digit_group (o : Z) : 0 <= o <= 999 -> digit_group (PyStr.show o).
Proof.
  intros Ho. pose proof shown_numbers_are_groups as H. rewrite forallb_forall in H.
  assert (Hin : In o (seqZ 0 1000)).
  { apply list_elem_of_In, elem_of_seqZ. lia. }
  specialize (H o Hin). unfold digit_group_b in H.
  apply andb_true_iff in H as [Hd Hlen]. apply bool_decide_eq_true in Hlen. done.
Qed.

(** X17. The address pattern checks no range: four numbers up to 999 pass
    it, with or without a newline after them, although a number over 255
    is no octet for [ipaddress]. *)
Theorem ip_pattern_checks_no_range (o1 o2 o3 o4 : Z) :
  0 <= o1 <= 999 -> 0 <= o2 <= 999 -> 0 <= o3 <= 999 -> 0 <= o4 <= 999 ->
  CanonPrinterCLI.ip_pattern_match (dotted_quad o1 o2 o3 o4) = true
  /\ CanonPrinterCLI.ip_pattern_match (dotted_quad o1 o2 o3 o4 +:+ String newline EmptyString)
     = true
  /\ (255 < o1 ->
      Ipaddress.parse_octet (PyStr.show o1) = inl (ValueError "Octet > 255 not permitted")).
Proof.
  intros H1 H2 H3 H4.
  pose proof (show_digit_group o1 H1) as G1. pose proof (show_digit_group o2 H2) as G2.
  pose proof (show_digit_group o3 H3) as G3. pose proof (show_digit_group o4 H4) as G4.
  split_and!.
  - unfold dotted_quad.
    rewrite <- (append_nil_r (PyStr.show o4)).
    apply ip_pattern_complete; auto.
  - unfold dotted_quad. rewrite !append_assoc.
    apply ip_pattern_complete; auto.
  - intros Hbig.
    assert (Hall : forallb (fun o =>
                     match Ipaddress.parse_octet (PyStr.show o) with
                     | inl (ValueError m) => bool_decide (m = "Octet > 255 not permitted")
                     | _ => false
                     end) (seqZ 256 744) = true) by (vm_compute; reflexivity).
    rewrite forallb_forall in Hall.
    assert (Hin : In o1 (seqZ 256 744)).
    { apply list_elem_of_In, elem_of_seqZ. lia. }
    specialize (Hall o1 Hin).
    destruct (Ipaddress.parse_octet (PyStr.show o1)) as [[] |]; try done.
    apply bool_decide_eq_true in Hall. by subst.
Qed.

Lemma ip_pattern_checks_no_range_witness :
  CanonPrinterCLI.ip_pattern_match (dotted_quad 999 0 300 256) = true
  /\ CanonPrinterCLI.ip_pattern_match (dotted_quad 999 0 300 256 +:+ String newline EmptyString)
     = true
  /\ (255 < 999 ->
      Ipaddress.parse_octet (PyStr.show 999) = inl (ValueError "Octet > 255 not permitted")).
Proof. apply ip_pattern_checks_no_range; lia. Defined.

(** ** [add_printer] *)

(** X18. [add_printer] raises a [TypeError] exactly when the address passes
    the pattern, the port is open, the page of the device gives no printer
    information, and the web interface answers with another status than
    200. *)
Theorem add_printer_raises (self : CanonPrinterCLI.t) (w : World) (now : string)
    (test_page : bool) (ip : string) (name : option string) (port : Z)
    (test_connection : bool) :
  CanonPrinterCLI.add_printer self w now test_page ip name port test_connection
  = CanonPrinterCLI.RaisedTypeError
  <-> CanonPrinterCLI.ip_pattern_match ip = true
      /\ _is_port_open w ip port 5000 = true
      /\ _get_ipp_printer_info (CanonPrinterCLI.printer_discovery self) w ip port = None
      /\ exists response,
           requests_get w (web_interface_url ip port) 5 = Some response
           /\ status_code response <> 200.
Proof.
  unfold CanonPrinterCLI.add_printer, CanonPrinterCLI.web_interface_info.
  fold (web_interface_url ip port).
  destruct (CanonPrinterCLI.ip_pattern_match ip); cbn [negb];
    [| split; [done | by intros [? _]]].
  destruct (_is_port_open w ip port 5000); cbn [negb];
    [| split; [done | by intros (_ & ? & _)]].
  destruct (_get_ipp_printer_info _ w ip port) as [info|].
  { split; [by destruct test_connection | by intros (_ & _ & ? & _)]. }
  destruct (requests_get w (web_interface_url ip port) 5) as [response|].
  - destruct (status_code response =? 200) eqn:Hs.
    + apply Z.eqb_eq in Hs.
      split; [by destruct (existsb _ _), test_connection |].
      intros (_ & _ & _ & r & [= <-] & Hne). done.
    + apply Z.eqb_neq in Hs. split; [| done].
      intros _. split_and!; try done. by exists response.
  - split; [by destruct test_connection |].
    by intros (_ & _ & _ & r & ? & _).
Qed.

(** X19. What [add_printer] saves is no manual printer for the discovery:
    the configuration and the other entries are unchanged, the uris of the
    manual printers are the same before and after, and for a new uri the
    manual printers are the same and the saved entry has no
    [manually_added], [ip] or [port]. *)
Theorem added_printer_is_not_manual (self : CanonPrinterCLI.t) (w : World) (now : string)
    (test_page : bool) (ip : string) (name : option string) (port : Z)
    (test_connection : bool) (result : bool) (saved : ConfigManager.t) (w' : World) :
  CanonPrinterCLI.add_printer self w now test_page ip name port test_connection
  = CanonPrinterCLI.Returned result saved ->
  let before := CanonPrinterCLI.config_manager self in
  ConfigManager.config saved = ConfigManager.config before
  /\ (forall uri, uri <> added_uri ip port ->
        ConfigManager.dict_get uri (ConfigManager.printers_cache saved)
        = ConfigManager.dict_get uri (ConfigManager.printers_cache before))
  /\ (fun r : record => r !! "uri") <$> manual_printers_of saved w'
     = (fun r : record => r !! "uri") <$> manual_printers_of before w'
  /\ (added_uri ip port ∉ (ConfigManager.printers_cache before).*1 ->
      manual_printers_of saved w' = manual_printers_of before w'
      /\ forall e,
           ConfigManager.dict_get (added_uri ip port) (ConfigManager.printers_cache saved)
           = Some e ->
           e !! "manually_added" = None /\ e !! "ip" = None /\ e !! "port" = None).
Proof.
  intros Hadd before. subst before.
  unfold CanonPrinterCLI.add_printer in Hadd. fold (added_uri ip port) in Hadd.
  destruct (negb (CanonPrinterCLI.ip_pattern_match ip)).
  { injection Hadd as _ <-. split_and!; try done. intros Hnew. split; [done |].
    intros e He. apply dict_get_None in Hnew. congruence. }
  destruct (negb (_is_port_open w ip port 5000)).
  { injection Hadd as _ <-. split_and!; try done. intros Hnew. split; [done |].
    intros e He. apply dict_get_None in Hnew. congruence. }
  match type of Hadd with
  | match ?i with _ => _ end = _ => destruct i as [info|]; [| done]
  end.
  match type of Hadd with
  | context [ConfigManager.save_printer_info ?cm ?n ?u ?e] =>
      pose proof (save_keeps_marks cm n u e w') as Hmarks;
      assert (saved = ConfigManager.save_printer_info cm n u e) as ->
        by (destruct test_connection; congruence)
  end.
  clear Hadd. cbv zeta in Hmarks. destruct Hmarks as (Huris & Hsame).
  unfold ConfigManager.save_printer_info in *.
  destruct (negb (ConfigManager.truthy_tree _)).
  { split_and!; try done. intros Hnew. split; [done |].
    intros e He. apply dict_get_None in Hnew. congruence. }
  cbn [ConfigManager.config ConfigManager.printers_cache].
  split_and!; [done | by intros uri Hne; apply dict_get_set_ne | done |].
  intros Hnew. split; [by apply Hsame |].
  intros e. rewrite dict_get_set_eq. intros [= <-].
  apply dict_get_None in Hnew. rewrite Hnew. cbn [default].
  split_and!; (rewrite lookup_union_r; [apply lookup_empty |]);
    by rewrite !lookup_insert_ne, lookup_empty.
Qed.

Lemma added_printer_is_not_manual_witness :
  let saved :=
    ConfigManager.save_printer_info fresh_manager "2024-01-01T00:00:00"
      (added_uri "192.168.1.5" 631)
      (<["name" := ConfigManager.Scalar (VStr "Canon PIXMA TS3400")]>
       (<["model" := ConfigManager.Scalar (VStr "Canon PIXMA TS3400")]>
       (<["status" := ConfigManager.Scalar (VStr "Available")]>
       (<["ip" := ConfigManager.Scalar (VStr "192.168.1.5")]>
       (<["port" := ConfigManager.Scalar (VInt 631)]>
       (<["manually_added" := ConfigManager.Scalar (VBool true)]>
       (<["capabilities" :=
            ConfigManager.Dict (get_printer_capabilities (added_uri "192.168.1.5" 631))]>
        ∅))))))) in
  CanonPrinterCLI.add_printer fresh_cli ts3400_world "2024-01-01T00:00:00" true
    "192.168.1.5" None 631 false
  = CanonPrinterCLI.Returned true saved
  /\ manual_printers_of saved ts3400_world = [].
Proof.
  intros saved.
  assert (Hadd : CanonPrinterCLI.add_printer fresh_cli ts3400_world "2024-01-01T00:00:00"
                   true "192.168.1.5" None 631 false
                 = CanonPrinterCLI.Returned true saved) by (vm_compute; reflexivity).
  split; [exact Hadd |].
  pose proof (added_printer_is_not_manual fresh_cli ts3400_world "2024-01-01T00:00:00"
                true "192.168.1.5" None 631 false true saved ts3400_world Hadd) as H.
  cbv zeta in H. destruct H as (_ & _ & _ & Hnew).
  destruct Hnew as [Hsame _]; [apply not_elem_of_nil |].
  exact Hsame.
Defined.

(** ** Recording a print job *)

Lemma same_off_job_keys_refl (e : ConfigManager.entry) : same_off_job_keys e e.
Proof. by intros k _. Qed.

Lemma same_off_job_keys_insert (e' e : ConfigManager.entry) (k : string)
    (f : ConfigManager.field) :
  k ∈ job_keys -> same_off_job_keys e' e -> same_off_job_keys (<[k := f]> e') e.
Proof.
  intros Hk H k' Hk'. rewrite lookup_insert_ne; [by apply H |].
  intros ->. by apply Hk'.
Qed.

Lemma same_off_job_keys_with_preferred (e' e : ConfigManager.entry)
    (preferred : ConfigManager.field) :
  same_off_job_keys e' e -> same_off_job_keys (ConfigManager.with_preferred e' preferred) e.
Proof.
  intros H. unfold ConfigManager.with_preferred.
  destruct (e' !! "preferred_settings"); [| done].
  apply same_off_job_keys_insert; [| done]. unfold job_keys. set_solver.
Qed.

Lemma manual_item_same (w : World) (uri : string) (e' e : ConfigManager.entry)
    (rest : printers_cache_t) :
  (forall k, k ∈ manual_keys -> e' !! k = e !! k) ->
  manual_loop w (view_item (uri, e') :: rest) = manual_loop w (view_item (uri, e) :: rest).
Proof.
  intros H. unfold view_item. cbn [fst snd manual_loop].
  assert (Hget : forall k dflt, k ∈ manual_keys ->
            get (ConfigManager.scalar_fields e') k dflt
            = get (ConfigManager.scalar_fields e) k dflt).
  { intros k dflt Hk. unfold get. by rewrite !scalar_fields_lookup, (H k Hk). }
  unfold manual_record.
  by rewrite !Hget by (unfold manual_keys; set_solver).
Qed.

(** An assignment to the cache that leaves the keys read by the discovery
    as they were leaves the manual printers as they were. *)
Lemma manual_printers_set (self : ConfigManager.t) (uri : string)
    (e' : ConfigManager.entry) (w : World) :
  (forall k, k ∈ manual_keys -> e' !! k = cached_entry self uri !! k) ->
  manual_printers_of
    {| ConfigManager.config := ConfigManager.config self;
       ConfigManager.printers_cache :=
         ConfigManager.dict_set uri e' (ConfigManager.printers_cache self) |} w
  = manual_printers_of self w.
Proof.
  unfold manual_printers_of, _get_manual_printers, ConfigManager.discovery_cache, cached_entry.
  cbn [config_manager __init__ ConfigManager.printers_cache].
  change (fun item : string * ConfigManager.entry =>
            (item.1, ConfigManager.scalar_fields item.2)) with view_item.
  induction (ConfigManager.printers_cache self) as [|[k e] c IH]; intros H.
  - cbn [ConfigManager.dict_set fmap list_fmap]. cbn [ConfigManager.dict_get default] in H.
    unfold view_item. cbn [fst snd manual_loop]. unfold get.
    rewrite scalar_fields_lookup, H by (unfold manual_keys; set_solver).
    by rewrite lookup_empty.
  - cbn [ConfigManager.dict_set ConfigManager.dict_get] in H |- *.
    destruct (decide (k = uri)) as [-> | Hne].
    + cbn [fmap list_fmap]. by apply manual_item_same.
    + cbn [fmap list_fmap].
      change (view_item (k, e)) with (k, ConfigManager.scalar_fields e).
      cbn [manual_loop]. by rewrite (IH H).
Qed.

Lemma job_frame_refl (self : ConfigManager.t) (uri : string) (w : World) :
  job_frame self self uri w.
Proof. split_and!; try done; apply same_off_job_keys_refl. Qed.

Lemma job_frame_set (self : ConfigManager.t) (uri : string) (e' : ConfigManager.entry)
    (w : World) :
  same_off_job_keys e' (cached_entry self uri) ->
  job_frame self
    {| ConfigManager.config := ConfigManager.config self;
       ConfigManager.printers_cache :=
         ConfigManager.dict_set uri e' (ConfigManager.printers_cache self) |} uri w.
Proof.
  intros H. split_and!.
  - done.
  - intros uri' Hne. cbn [ConfigManager.printers_cache]. by apply dict_get_set_ne.
  - unfold cached_entry at 1. cbn [ConfigManager.printers_cache].
    by rewrite dict_get_set_eq.
  - apply manual_printers_set. intros k Hk. apply H.
    unfold manual_keys in Hk.
    repeat (apply elem_of_cons in Hk as [-> | Hk]); [ .. | by apply elem_of_nil in Hk ];
      apply (bool_decide_unpack _); vm_compute; exact I.
Qed.

Lemma record_print_job_frame_aux (self : ConfigManager.t) (now uri : string)
    (settings : record) (w : World) :
  job_frame self (left_by (ConfigManager.record_print_job self now uri settings)) uri w.
Proof.
  unfold ConfigManager.record_print_job.
  destruct (negb _); [apply job_frame_refl |].
  fold (cached_entry self uri).
  assert (Hleft : forall e', same_off_job_keys e' (cached_entry self uri) ->
            job_frame self
              (match ConfigManager.dict_get uri (ConfigManager.printers_cache self) with
               | Some _ =>
                   {| ConfigManager.config := ConfigManager.config self;
                      ConfigManager.printers_cache :=
                        ConfigManager.dict_set uri e' (ConfigManager.printers_cache self) |}
               | None => self
               end) uri w).
  { intros e' He'. destruct (ConfigManager.dict_get uri _);
      [by apply job_frame_set | apply job_frame_refl]. }
  assert (H1 : same_off_job_keys
                 (<["last_used" := ConfigManager.Scalar (VStr now)]> (cached_entry self uri))
                 (cached_entry self uri)).
  { apply same_off_job_keys_insert; [unfold job_keys; set_solver |].
    apply same_off_job_keys_refl. }
  destruct (ConfigManager.plus_one _) as [n|]; cbn [left_by]; [| by apply Hleft].
  assert (H2 : same_off_job_keys
                 (<["usage_count" := ConfigManager.Scalar (VInt n)]>
                    (<["last_used" := ConfigManager.Scalar (VStr now)]>
                       (cached_entry self uri)))
                 (cached_entry self uri)).
  { apply same_off_job_keys_insert; [unfold job_keys; set_solver | done]. }
  destruct (ConfigManager.set_quality _ _) as [p1|]; cbn [left_by];
    [| by apply Hleft, same_off_job_keys_with_preferred].
  destruct (ConfigManager.set_duplex _ _) as [p2|]; cbn [left_by];
    [| by apply Hleft, same_off_job_keys_with_preferred].
  destruct (ConfigManager.set_copies _ _) as [p3|]; cbn [left_by];
    [| by apply Hleft, same_off_job_keys_with_preferred].
  apply job_frame_set.
  apply same_off_job_keys_insert; [unfold job_keys; set_solver | done].
Qed.

(** X20. Whichever way [record_print_job] ends, it leaves the configuration,
    the other entries, every key of the entry other than [last_used],
    [usage_count] and [preferred_settings], and the manual printers of the
    discovery as they were; with the history switched off it returns and
    changes nothing. *)
Theorem record_print_job_frame (self : ConfigManager.t) (now uri : string)
    (settings : record) (w : World) :
  let self' := left_by (ConfigManager.record_print_job self now uri settings) in
  ConfigManager.config self' = ConfigManager.config self
  /\ (forall uri', uri' <> uri ->
        ConfigManager.dict_get uri' (ConfigManager.printers_cache self')
        = ConfigManager.dict_get uri' (ConfigManager.printers_cache self))
  /\ (forall k, k ∉ job_keys -> cached_entry self' uri !! k = cached_entry self uri !! k)
  /\ manual_printers_of self' w = manual_printers_of self w
  /\ (history_enabled self = false ->
      ConfigManager.record_print_job self now uri settings = ConfigManager.JobRecorded self).
Proof.
  intros self'. subst self'.
  destruct (record_print_job_frame_aux self now uri settings w) as (H1 & H2 & H3 & H4).
  split_and!; try done.
  intros Hoff. unfold ConfigManager.record_print_job.
  fold (history_enabled self). by rewrite Hoff.
Qed.

Lemma updates_of_dict (settings : record) (d : record) :
  (exists d1, ConfigManager.set_quality settings (ConfigManager.Dict d)
              = Some (ConfigManager.Dict d1))
  /\ (exists d2, ConfigManager.set_duplex settings (ConfigManager.Dict d)
                 = Some (ConfigManager.Dict d2)).
Proof.
  unfold ConfigManager.set_quality, ConfigManager.set_duplex, ConfigManager.setitem.
  split.
  - destruct (truthy _); by eexists.
  - destruct (settings !! "duplex"); by eexists.
Qed.

Lemma updates_of_scalar (settings : record) (v : value) :
  ConfigManager.set_quality settings (ConfigManager.Scalar v)
  = (if truthy (ConfigManager.settings_get settings "quality" VNone)
     then None else Some (ConfigManager.Scalar v))
  /\ ConfigManager.set_duplex settings (ConfigManager.Scalar v)
     = match settings !! "duplex" with
       | Some _ => None
       | None => Some (ConfigManager.Scalar v)
       end
  /\ ConfigManager.set_copies settings (ConfigManager.Scalar v)
     = match ConfigManager.greater_than_one
               (ConfigManager.settings_get settings "copies" (VInt 1)) with
       | Some false => Some (ConfigManager.Scalar v)
       | _ => None
       end.
Proof.
  unfold ConfigManager.set_quality, ConfigManager.set_duplex, ConfigManager.set_copies,
    ConfigManager.setitem.
  split_and!.
  - by destruct (truthy _).
  - by destruct (settings !! "duplex").
  - by destruct (ConfigManager.greater_than_one _) as [[]|].
Qed.

Lemma record_print_job_raises_iff (self : ConfigManager.t) (now uri : string)
    (settings : record) :
  (exists self', ConfigManager.record_print_job self now uri settings
                 = ConfigManager.JobTypeError self')
  <-> history_enabled self = true
      /\ (ConfigManager.plus_one
            (ConfigManager.entry_get (cached_entry self uri) "usage_count"
               (ConfigManager.Scalar (VInt 0))) = None
          \/ ConfigManager.greater_than_one
               (ConfigManager.settings_get settings "copies" (VInt 1)) = None
          \/ ((exists v, cached_entry self uri !! "preferred_settings"
                         = Some (ConfigManager.Scalar v))
              /\ stores_a_setting settings)).
Proof.
  unfold ConfigManager.record_print_job. fold (history_enabled self).
  fold (cached_entry self uri).
  destruct (history_enabled self); cbn [negb];
    [| split; [by intros [? ?] | by intros [? _]]].
  unfold ConfigManager.entry_get.
  rewrite lookup_insert_ne by done.
  destruct (ConfigManager.plus_one _) as [n|];
    [| split; [intros _; split; [done | by left] | intros _; by eexists]].
  rewrite !lookup_insert_ne by done.
  unfold stores_a_setting.
  destruct (cached_entry self uri !! "preferred_settings") as [[v | d]|] eqn:Hp; cbn [default from_option id].
  - destruct (updates_of_scalar settings v) as (-> & Hd & Hc).
    destruct (truthy _).
    { split; [| intros _; by eexists].
      intros _. split; [done |]. right; right. split; [by exists v | by left]. }
    rewrite Hd. destruct (settings !! "duplex") as [dv|].
    { split; [| intros _; by eexists].
      intros _. split; [done |]. right; right. split; [by exists v | right; left; by eexists]. }
    rewrite Hc. destruct (ConfigManager.greater_than_one _) as [[]|].
    + split; [| intros _; by eexists].
      intros _. split; [done |]. right; right. split; [by exists v | by right; right].
    + split; [by intros [? ?] |].
      intros (_ & [? | [? | (_ & [? | [[? ?] | ?]])]]); done.
    + split; [| intros _; by eexists]. intros _. split; [done |]. by right; left.
  - destruct (updates_of_dict settings d) as ((d1 & ->) & _).
    destruct (updates_of_dict settings d1) as (_ & (d2 & ->)).
    unfold ConfigManager.set_copies, ConfigManager.setitem.
    destruct (ConfigManager.greater_than_one _) as [[]|].
    + split; [by intros [? ?] |]. intros (_ & [? | [? | ((? & ?) & _)]]); done.
    + split; [by intros [? ?] |]. intros (_ & [? | [? | ((? & ?) & _)]]); done.
    + split; [| intros _; by eexists]. intros _. split; [done |]. by right; left.
  - destruct (updates_of_dict settings ∅) as ((d1 & ->) & _).
    destruct (updates_of_dict settings d1) as (_ & (d2 & ->)).
    unfold ConfigManager.set_copies, ConfigManager.setitem.
    destruct (ConfigManager.greater_than_one _) as [[]|].
    + split; [by intros [? ?] |]. intros (_ & [? | [? | ((? & ?) & _)]]); done.
    + split; [by intros [? ?] |]. intros (_ & [? | [? | ((? & ?) & _)]]); done.
    + split; [| intros _; by eexists]. intros _. split; [done |]. by right; left.
Qed.

(** X21. With the history kept, [record_print_job] raises a [TypeError] when
    the saved usage count is [None], a string, a list or a dict, when the
    number of copies is [None], a string or a list, and when the saved
    preferred settings are no dict while there is a setting to store. It
    returns when the history is switched off, and when the usage count and
    the copies are of type [int] or [bool] and the preferred settings are
    missing or a dict, or no setting is to be stored. *)
Theorem record_print_job_raises (self : ConfigManager.t) (now uri : string)
    (settings : record) :
  let count := ConfigManager.entry_get (cached_entry self uri) "usage_count"
                 (ConfigManager.Scalar (VInt 0)) in
  let copies := ConfigManager.settings_get settings "copies" (VInt 1) in
  let preferred := cached_entry self uri !! "preferred_settings" in
  (history_enabled self = true /\
   (no_number count
    \/ not_comparable copies
    \/ ((exists v, preferred = Some (ConfigManager.Scalar v)) /\ stores_a_setting settings)) ->
   exists self', ConfigManager.record_print_job self now uri settings
                 = ConfigManager.JobTypeError self')
  /\ (history_enabled self = false
      \/ (whole_number count /\ int_or_bool copies
          /\ (preferred = None \/ (exists d, preferred = Some (ConfigManager.Dict d))
              \/ ~ stores_a_setting settings)) ->
      exists self', ConfigManager.record_print_job self now uri settings
                    = ConfigManager.JobRecorded self').
Proof.
  intros count copies preferred.
  pose proof (record_print_job_raises_iff self now uri settings) as Hiff.
  fold count copies preferred in Hiff.
  split.
  - intros [Hon Hbad]. apply Hiff. split; [done |].
    destruct Hbad as [Hc | [Hc | Hp]].
    + left. by destruct count as [[] | ?].
    + right; left. by destruct copies.
    + by right; right.
  - intros Hok.
    destruct (ConfigManager.record_print_job self now uri settings) as [self' | self'] eqn:Hrun;
      [by exists self' | exfalso].
    destruct (proj1 Hiff (ex_intro _ self' eq_refl)) as [Hon Hbad].
    destruct Hok as [Hoff | (Hcount & Hcopies & Hpref)]; [congruence |].
    destruct Hbad as [Hc | [Hc | [[v Hv] Hs]]].
    + by destruct count as [[] | ?].
    + by destruct copies.
    + destruct Hpref as [Hnone | [[d Hd] | Hno]]; [congruence | congruence | done].
Qed.

Lemma record_print_job_raises_witness :
  history_enabled text_count_manager = true
  /\ no_number (ConfigManager.entry_get
                  (cached_entry text_count_manager "ipp://192.168.1.5:631/ipp/print")
                  "usage_count" (ConfigManager.Scalar (VInt 0)))
  /\ exists self',
       ConfigManager.record_print_job text_count_manager "2024-01-01T00:00:00"
         "ipp://192.168.1.5:631/ipp/print" ∅
       = ConfigManager.JobTypeError self'.
Proof.
  assert (Hon : history_enabled text_count_manager = true) by reflexivity.
  assert (Hcount : no_number
                     (ConfigManager.entry_get
                        (cached_entry text_count_manager "ipp://192.168.1.5:631/ipp/print")
                        "usage_count" (ConfigManager.Scalar (VInt 0))))
    by (vm_compute; exact I).
  split_and!; [exact Hon | exact Hcount |].
  apply (proj1 (record_print_job_raises text_count_manager "2024-01-01T00:00:00"
                  "ipp://192.168.1.5:631/ipp/print" ∅)).
  split; [exact Hon | left; exact Hcount].
Defined.

Lemma cached_entry_set (self : ConfigManager.t) (uri : string) (e' : ConfigManager.entry) :
  cached_entry
    {| ConfigManager.config := ConfigManager.config self;
       ConfigManager.printers_cache :=
         ConfigManager.dict_set uri e' (ConfigManager.printers_cache self) |} uri
  = e'.
Proof.
  unfold cached_entry. cbn [ConfigManager.printers_cache]. by rewrite dict_get_set_eq.
Qed.

Lemma record_print_job_recorded (self self' : ConfigManager.t) (now uri : string)
    (settings : record) :
  ConfigManager.record_print_job self now uri settings = ConfigManager.JobRecorded self' ->
  history_enabled self = true ->
  exists n p1 p2 p3,
    ConfigManager.plus_one
      (ConfigManager.entry_get (cached_entry self uri) "usage_count"
         (ConfigManager.Scalar (VInt 0))) = Some n
    /\ ConfigManager.set_quality settings
         (ConfigManager.entry_get (cached_entry self uri) "preferred_settings"
            (ConfigManager.Dict ∅)) = Some p1
    /\ ConfigManager.set_duplex settings p1 = Some p2
    /\ ConfigManager.set_copies settings p2 = Some p3
    /\ self' = {| ConfigManager.config := ConfigManager.config self;
                  ConfigManager.printers_cache :=
                    ConfigManager.dict_set uri
                      (<["preferred_settings" := p3]>
                       (<["usage_count" := ConfigManager.Scalar (VInt n)]>
                       (<["last_used" := ConfigManager.Scalar (VStr now)]>
                        (cached_entry self uri))))
                      (ConfigManager.printers_cache self) |}.
Proof.
  unfold ConfigManager.record_print_job. fold (history_enabled self).
  fold (cached_entry self uri). intros Hrun Hon. rewrite Hon in Hrun. cbn [negb] in Hrun.
  unfold ConfigManager.entry_get in *.
  rewrite lookup_insert_ne in Hrun by done.
  destruct (ConfigManager.plus_one _) as [n|]; [| done].
  rewrite !lookup_insert_ne in Hrun by done.
  destruct (ConfigManager.set_quality _ _) as [p1|]; [| done].
  destruct (ConfigManager.set_duplex _ _) as [p2|] eqn:H2; [| done].
  destruct (ConfigManager.set_copies _ _) as [p3|] eqn:H3; [| done].
  injection Hrun as <-. by exists n, p1, p2, p3.
Qed.

(** X22. When [record_print_job] returns with the history kept, the entry has
    the time of the call as [last_used] and the old usage count plus one,
    preferred settings that are no dict are kept, and a dict of preferred
    settings gets the quality when it is truthy, the duplex setting when
    there is one and the copies when they are more than one, its other
    keys unchanged; a new uri goes to the end of the cache. *)
Theorem record_print_job_writes (self self' : ConfigManager.t) (now uri : string)
    (settings : record) :
  ConfigManager.record_print_job self now uri settings = ConfigManager.JobRecorded self' ->
  history_enabled self = true ->
  let old := cached_entry self uri in
  let new := cached_entry self' uri in
  let quality := ConfigManager.settings_get settings "quality" VNone in
  let copies := ConfigManager.settings_get settings "copies" (VInt 1) in
  new !! "last_used" = Some (ConfigManager.Scalar (VStr now))
  /\ (exists n,
        ConfigManager.plus_one
          (ConfigManager.entry_get old "usage_count" (ConfigManager.Scalar (VInt 0))) = Some n
        /\ new !! "usage_count" = Some (ConfigManager.Scalar (VInt n)))
  /\ (forall v, old !! "preferred_settings" = Some (ConfigManager.Scalar v) ->
        new !! "preferred_settings" = Some (ConfigManager.Scalar v))
  /\ (forall d,
        ConfigManager.entry_get old "preferred_settings" (ConfigManager.Dict ∅)
        = ConfigManager.Dict d ->
        exists d',
          new !! "preferred_settings" = Some (ConfigManager.Dict d')
          /\ d' !! "quality" = (if truthy quality then Some quality else d !! "quality")
          /\ d' !! "duplex" = match settings !! "duplex" with
                              | Some duplex => Some duplex
                              | None => d !! "duplex"
                              end
          /\ d' !! "copies" = match ConfigManager.greater_than_one copies with
                              | Some true => Some copies
                              | _ => d !! "copies"
                              end
          /\ (forall k, k ∉ preferred_keys -> d' !! k = d !! k))
  /\ ((ConfigManager.printers_cache self').*1
      = if decide (uri ∈ (ConfigManager.printers_cache self).*1)
        then (ConfigManager.printers_cache self).*1
        else (ConfigManager.printers_cache self).*1 ++ [uri]).
Proof.
  intros Hrun Hon old new quality copies.
  destruct (record_print_job_recorded _ _ _ _ _ Hrun Hon)
    as (n & p1 & p2 & p3 & Hn & H1 & H2 & H3 & ->).
  subst new. rewrite cached_entry_set. fold old in Hn, H1 |- *.
  split_and!.
  - by rewrite lookup_insert_ne, lookup_insert_ne, lookup_insert_eq.
  - exists n. split; [done |]. by rewrite lookup_insert_ne, lookup_insert_eq.
  - intros v Hv. rewrite lookup_insert_eq. f_equal.
    unfold ConfigManager.entry_get in H1. rewrite Hv in H1. cbn [default from_option id] in H1.
    destruct (updates_of_scalar settings v) as (Hq & Hd & Hc).
    rewrite Hq in H1. destruct (truthy _); [done |]. injection H1 as <-.
    rewrite Hd in H2. destruct (settings !! "duplex"); [done |]. injection H2 as <-.
    rewrite Hc in H3. destruct (ConfigManager.greater_than_one _) as [[]|]; try done.
    by injection H3 as <-.
  - intros d Hd. rewrite Hd in H1. rewrite lookup_insert_eq.
    unfold ConfigManager.set_quality, ConfigManager.setitem in H1. fold quality in H1.
    unfold ConfigManager.set_duplex, ConfigManager.setitem in H2.
    unfold ConfigManager.set_copies, ConfigManager.setitem in H3. fold copies in H3.
    unfold preferred_keys.
    destruct (truthy quality); injection H1 as <-;
      (destruct (settings !! "duplex") as [duplex|]; injection H2 as <-);
      (destruct (ConfigManager.greater_than_one copies) as [[]|]; [| | done]);
      injection H3 as <-; eexists; (split; [reflexivity |]);
      (split_and!;
       [ rewrite ?lookup_insert_ne by done; first [by rewrite lookup_insert_eq | done]
       | rewrite ?lookup_insert_ne by done; first [by rewrite lookup_insert_eq | done]
       | rewrite ?lookup_insert_ne by done; first [by rewrite lookup_insert_eq | done]
       | intros k Hk; rewrite !not_elem_of_cons in Hk;
         destruct Hk as (? & ? & ? & _); by rewrite ?lookup_insert_ne by done ]).
  - apply dict_set_keys.
Qed.

Lemma record_print_job_writes_witness :
  let settings : record := <["quality" := VStr "high"]> (<["copies" := VInt 2]> ∅) in
  exists self',
    ConfigManager.record_print_job fresh_manager "2024-01-01T00:00:00"
      "ipp://192.168.1.5:631/ipp/print" settings = ConfigManager.JobRecorded self'
    /\ cached_entry self' "ipp://192.168.1.5:631/ipp/print" !! "usage_count"
       = Some (ConfigManager.Scalar (VInt 1))
    /\ (ConfigManager.printers_cache self').*1 = ["ipp://192.168.1.5:631/ipp/print"].
Proof.
  intros settings.
  destruct (ConfigManager.record_print_job fresh_manager "2024-01-01T00:00:00"
              "ipp://192.168.1.5:631/ipp/print" settings) as [self' | self'] eqn:Hrun;
    [| by vm_compute in Hrun].
  exists self'. split; [done |].
  destruct (record_print_job_writes fresh_manager self' _ _ settings Hrun eq_refl)
    as (_ & (n & Hn & Hcount) & _ & _ & Hkeys).
  split; [| exact Hkeys].
  rewrite Hcount. vm_compute in Hn. by injection Hn as <-.
Defined.

(** X23. The usage count counts the jobs: after jobs that were all recorded,
    with the history kept, the count is the count before plus the number
    of jobs. *)
Theorem usage_count_counts_jobs (self self' : ConfigManager.t) (uri : string)
    (jobs : list (string * record)) (n : Z) :
  record_jobs self uri jobs = ConfigManager.JobRecorded self' ->
  history_enabled self = true ->
  usage_count self uri = ConfigManager.Scalar (VInt n) ->
  usage_count self' uri = ConfigManager.Scalar (VInt (n + Z.of_nat (length jobs))).
Proof.
  revert self n. induction jobs as [|[now settings] jobs IH]; intros self n Hrun Hon Hn.
  - injection Hrun as <-. cbn [length]. rewrite Hn. do 2 f_equal. lia.
  - cbn [record_jobs] in Hrun.
    destruct (ConfigManager.record_print_job self now uri settings) as [self1 | self1] eqn:H1;
      [| done].
    destruct (record_print_job_recorded _ _ _ _ _ H1 Hon)
      as (m & p1 & p2 & p3 & Hm & _ & _ & _ & Hself1).
    fold (usage_count self uri) in Hm. rewrite Hn in Hm. injection Hm as <-.
    assert (Hon1 : history_enabled self1 = true) by (by subst self1).
    assert (Hn1 : usage_count self1 uri = ConfigManager.Scalar (VInt (n + 1))).
    { subst self1. unfold usage_count, ConfigManager.entry_get.
      rewrite cached_entry_set. by rewrite lookup_insert_ne, lookup_insert_eq. }
    rewrite (IH self1 (n + 1) Hrun Hon1 Hn1). cbn [length]. do 2 f_equal. lia.
Qed.

Lemma usage_count_counts_jobs_witness :
  exists self',
    record_jobs fresh_manager "ipp://192.168.1.5:631/ipp/print"
      [("2024-01-01T00:00:00", ∅); ("2024-01-02T00:00:00", <["duplex" := VBool true]> ∅)]
    = ConfigManager.JobRecorded self'
    /\ usage_count self' "ipp://192.168.1.5:631/ipp/print" = ConfigManager.Scalar (VInt 2).
Proof.
  destruct (record_jobs fresh_manager "ipp://192.168.1.5:631/ipp/print"
              [("2024-01-01T00:00:00", ∅);
               ("2024-01-02T00:00:00", <["duplex" := VBool true]> ∅)])
    as [self' | self'] eqn:Hrun; [| by vm_compute in Hrun].
  exists self'. split; [done |].
  exact (usage_count_counts_jobs fresh_manager self' _ _ 0 Hrun eq_refl eq_refl).
Defined.
